(** * Print bridge (src/main.js): registry, discovery, fetch and the /print pipeline

    A shallow embedding of the core of [src/main.js]: the printer registry
    ([printers], [settings.selectedPrinter]), [setSelectedPrinter],
    [refreshPrinters], [downloadPdf], [ensurePrinterAvailable] and the
    [/print] and [/printers/select] request handlers.

    The JavaScript module state becomes a [World] record that is threaded
    through a state-and-exception monad; the operating-system capabilities
    (printer enumeration, network, file system faults, spooler, settings
    file) are an [Env] of oracles indexed by a call counter; every
    capability call and every HTTP response is appended to a trace.

    A handler is run from its first line to its last without another
    request in between: the statements are about one request at a time.
    An [await] that never settles is not modelled. *)

From Stdlib Require Import ZArith String Ascii List Bool Lia.
From stdpp Require Import base option gmap strings list pretty.
Import ListNotations.

Local Open Scope string_scope.
Local Open Scope Z_scope.

(** Outcome of a call: a value, or an exception (a rejection, for an
    awaited call) carrying [error.message]. *)
Inductive Result (A : Type) : Type :=
| Ok (a : A)
| Throw (message : string).
Arguments Ok {A} a.
Arguments Throw {A} message.

(** ** JavaScript values

    Strings are sequences of code units below 256 (Rocq's [string]).
    A number of a JSON body is [JNum z] when its literal is the integer
    [z]: the value is the double nearest to [z]. Any other finite number
    that is not zero is [JDec neg s n], given by what [Number::toString]
    works from: its significant digits [s] and the position [n] of the
    decimal point, the value being [0.s * 10^n], negated when [neg]. *)

Module Js.

#[warnings="-register-all"]
Inductive JsVal : Type :=
| JUndefined
| JNull
| JBool (b : bool)
| JNum (z : Z)
| JDec (neg : bool) (digits : positive) (point : Z)
| JStr (s : string)
| JArr (elems : list JsVal)
| JObj (fields : list (string * JsVal)).

(** The result of [Number.parseInt]: an IEEE double holding an integer,
    an infinity, or [NaN]. *)
Inductive JsNumber : Type :=
| NaN
| Num (z : Z)
| PosInfinity
| NegInfinity.

(** [!!v] in JavaScript. *)
Definition truthy (v : JsVal) : bool :=
  match v with
  | JUndefined | JNull => false
  | JBool b => b
  | JNum z => negb (z =? 0)
  | JDec _ _ _ => true
  | JStr s => negb (String.eqb s "")
  | JArr _ | JObj _ => true
  end.

(** [typeof v === 'string'] *)
Definition is_string (v : JsVal) : bool :=
  match v with JStr _ => true | _ => false end.

(** [a || b] *)
Definition js_or (a b : JsVal) : JsVal := if truthy a then a else b.

(** Property read [v[k]] for the keys the handlers destructure; only plain
    objects carry them. [JObj] holds a parsed object, so a key occurs
    once. *)
Fixpoint assoc (k : string) (fields : list (string * JsVal)) : JsVal :=
  match fields with
  | [] => JUndefined
  | (k', v) :: rest => if String.eqb k k' then v else assoc k rest
  end.

Definition get_prop (k : string) (v : JsVal) : JsVal :=
  match v with
  | JObj fields => assoc k fields
  | _ => JUndefined
  end.

(** [Object.hasOwn(v, k)] on the fields of a parsed object. *)
Definition has_own (k : string) (fields : list (string * JsVal)) : bool :=
  existsb (fun kv => String.eqb k kv.1) fields.

(** White space and line terminators among the code units below 256:
    TAB, LF, VT, FF, CR, SP and NBSP. *)
Definition is_white_space (c : ascii) : bool :=
  let n := nat_of_ascii c in
  ((9 <=? n) && (n <=? 13) || (n =? 32) || (n =? 160))%nat.

Fixpoint trimStart (s : string) : string :=
  match s with
  | EmptyString => EmptyString
  | String c rest => if is_white_space c then trimStart rest else s
  end.

Fixpoint trimEnd (s : string) : string :=
  match s with
  | EmptyString => EmptyString
  | String c rest =>
      match trimEnd rest with
      | EmptyString => if is_white_space c then EmptyString else String c EmptyString
      | rest' => String c rest'
      end
  end.

(** [String.prototype.trim] *)
Definition trim (s : string) : string := trimEnd (trimStart s).

(** Canonicalisation of a code unit under the [i] flag of a non-unicode
    regular expression, restricted to what can match an ASCII letter. *)
Definition upper (c : ascii) : ascii :=
  let n := nat_of_ascii c in
  if ((97 <=? n) && (n <=? 122))%nat then ascii_of_nat (n - 32) else c.

(** [new RegExp('^' + pat, 'i').test(s)] for a literal pattern [pat]. *)
Fixpoint starts_with_ci (pat s : string) : bool :=
  match pat, s with
  | EmptyString, _ => true
  | String p pat', String c s' => Ascii.eqb (upper p) (upper c) && starts_with_ci pat' s'
  | String _ _, EmptyString => false
  end.

(** [/^https?:\/\//i.test(s)] *)
Definition http_scheme_test (s : string) : bool :=
  starts_with_ci "http://" s || starts_with_ci "https://" s.

(** *** Doubles that hold integers *)

(** The double nearest to a positive integer (ties to even); integers of
    1025 bits and more, and those that round up to [2^1024], overflow. *)
Definition round_to_double (n : Z) : JsNumber :=
  let bits := Z.log2 n + 1 in
  if bits <=? 53 then Num n
  else
    let sh := bits - 53 in
    let q := Z.shiftr n sh in
    let r := Z.land n (Z.ones sh) in
    let half := Z.shiftl 1 (sh - 1) in
    let q' := if (half <? r) || ((r =? half) && Z.odd q) then q + 1 else q in
    let v := Z.shiftl q' sh in
    if 2 ^ 1024 <=? v then PosInfinity else Num v.

Definition negate (x : JsNumber) : JsNumber :=
  match x with
  | NaN => NaN
  | Num z => Num (- z)
  | PosInfinity => NegInfinity
  | NegInfinity => PosInfinity
  end.

(** The Number a JSON integer literal parses to. *)
Definition double_of (z : Z) : JsNumber :=
  if z <? 0 then negate (round_to_double (- z)) else round_to_double z.

(** *** [Number::toString] *)

(** Whether the integer [c] rounds to the double [d = q * 2^sh], [d] of
    more than 53 bits: [c] lies between the midpoints to the neighbours of
    [d], the midpoints themselves counting when [q] is even. The
    comparison is made on four times the values, the lower midpoint of a
    power of two being a quarter of a step away. *)
Definition rounds_to (d c : Z) : bool :=
  let sh := Z.log2 d + 1 - 53 in
  let q := Z.shiftr d sh in
  let hi4 := 4 * d + 2 ^ (sh + 1) in
  let lo4 := if q =? 2 ^ 52 then 4 * d - 2 ^ sh else 4 * d - 2 ^ (sh + 1) in
  if Z.even q then (lo4 <=? 4 * c) && (4 * c <=? hi4)
  else (lo4 <? 4 * c) && (4 * c <? hi4).

(** The decimal with the fewest significant digits that rounds to [d], and
    among those the nearest to [d]: tried with [k], [k + 1], ... digits,
    [len] being the number of digits of [d]. *)
Fixpoint fewest_digits (fuel : nat) (d len k : Z) : Z :=
  match fuel with
  | O => d
  | S fuel' =>
      if len <=? k then d
      else
        let u := 10 ^ (len - k) in
        let c1 := d / u * u in
        let c2 := c1 + u in
        match rounds_to d c1, rounds_to d c2 with
        | true, true =>
            if d - c1 <? c2 - d then c1
            else if c2 - d <? d - c1 then c2
            else if Z.even (c1 / u) then c1 else c2
        | true, false => c1
        | false, true => c2
        | false, false => fewest_digits fuel' d len (k + 1)
        end
  end.

(** The integer whose digits [Number::toString] prints for a positive
    integer double [d]: [d] itself up to [2^53], where every integer is a
    double. No double needs more than 17 digits. *)
Definition shortest (d : Z) : Z :=
  if Z.log2 d + 1 <=? 53 then d
  else fewest_digits 17 d (Z.of_nat (String.length (pretty d))) 1.

Fixpoint strip_zeros (s : string) : string :=
  match s with
  | EmptyString => EmptyString
  | String c rest =>
      match strip_zeros rest with
      | EmptyString => if Ascii.eqb c "0" then EmptyString else String c EmptyString
      | rest' => String c rest'
      end
  end.

Fixpoint zeros (n : nat) : string :=
  match n with
  | O => EmptyString
  | S n' => String "0" (zeros n')
  end.

(** Steps 6 to 10 of [Number::toString] in radix 10, for a number whose
    value is [0.ds * 10^n], [ds] being its significant digits: plain
    digits, a decimal point, or the exponent form from [1e21] up and below
    [1e-6]. *)
Definition number_text (ds : string) (n : Z) : string :=
  let k := Z.of_nat (String.length ds) in
  if (k <=? n) && (n <=? 21) then ds ++ zeros (Z.to_nat (n - k))
  else if (0 <? n) && (n <=? 21) then
    substring 0 (Z.to_nat n) ds ++ "." ++ substring (Z.to_nat n) (Z.to_nat (k - n)) ds
  else if (-6 <? n) && (n <=? 0) then "0." ++ zeros (Z.to_nat (- n)) ++ ds
  else
    let e := n - 1 in
    let exponent := (if 0 <=? e then "e+" else "e-") ++ pretty (Z.abs e) in
    match ds with
    | String d EmptyString => String d exponent
    | String d rest => String d ("." ++ rest ++ exponent)
    | EmptyString => EmptyString
    end.

(** [String(x)] for a double that holds an integer. *)
Definition Number_toString (x : JsNumber) : string :=
  match x with
  | NaN => "NaN"
  | PosInfinity => "Infinity"
  | NegInfinity => "-Infinity"
  | Num z =>
      if z =? 0 then "0"
      else
        let v := pretty (shortest (Z.abs z)) in
        (if z <? 0 then "-" else "")
          ++ number_text (strip_zeros v) (Z.of_nat (String.length v))
  end.

(** *** [ToString] *)

(** The first exception of a list of conversions, or all their texts. *)
Definition all_texts (rs : list (Result string)) : Result (list string) :=
  List.fold_right
    (fun r acc => match r, acc with
                  | Ok s, Ok ss => Ok (s :: ss)
                  | Throw e, _ => Throw e
                  | Ok _, Throw e => Throw e
                  end) (Ok []) rs.

(** [ToString]. An array is joined with commas, [null] and [undefined]
    elements giving the empty string. A parsed object prints as
    [[object Object]] through the inherited [toString], unless it has a
    property [toString] of its own: no JSON value is callable, so neither
    that property nor [valueOf] yields a primitive and the conversion
    throws a [TypeError]. *)
Fixpoint ToString (v : JsVal) : Result string :=
  match v with
  | JUndefined => Ok "undefined"
  | JNull => Ok "null"
  | JBool true => Ok "true"
  | JBool false => Ok "false"
  | JNum z => Ok (Number_toString (double_of z))
  | JDec neg s n =>
      Ok ((if neg then "-" else "") ++ number_text (strip_zeros (pretty (Z.pos s))) n)
  | JStr s => Ok s
  | JArr elems =>
      match all_texts
              (List.map (fun x => match x with
                                  | JUndefined | JNull => Ok ""
                                  | _ => ToString x
                                  end) elems) with
      | Ok parts => Ok (String.concat "," parts)
      | Throw e => Throw e
      end
  | JObj fields =>
      if has_own "toString" fields
      then Throw "Cannot convert object to primitive value"
      else Ok "[object Object]"
  end.

(** *** [Number.parseInt(v, 10)] *)

Definition digit_value (c : ascii) : option Z :=
  let n := nat_of_ascii c in
  if ((48 <=? n) && (n <=? 57))%nat then Some (Z.of_nat n - 48) else None.

(** The longest prefix of decimal digits, read left to right: [None] when
    there is no digit at all. *)
Fixpoint read_digits (acc : option Z) (s : string) : option Z :=
  match s with
  | EmptyString => acc
  | String c rest =>
      match digit_value c with
      | Some d => read_digits (Some (10 * default 0 acc + d)) rest
      | None => acc
      end
  end.

(** [Number.parseInt] from its second step on: the text with leading
    white space dropped, an optional sign, the leading digits. *)
Definition parseInt_text (text : string) : JsNumber :=
  let s := trimStart text in
  let '(neg, s) :=
    match s with
    | String "-" rest => (true, rest)
    | String "+" rest => (false, rest)
    | _ => (false, s)
    end in
  match read_digits None s with
  | None => NaN
  | Some m =>
      if neg then negate (round_to_double m) else round_to_double m
  end.

(** [Number.parseInt(v, 10)]: [ToString(v)], which may throw, then the
    reading of the text. *)
Definition parseInt10 (v : JsVal) : Result JsNumber :=
  match ToString v with
  | Ok text => Ok (parseInt_text text)
  | Throw e => Throw e
  end.

(** [Number.isFinite] *)
Definition isFinite (x : JsNumber) : bool :=
  match x with Num _ => true | _ => false end.

(** [x > 0] *)
Definition gt0 (x : JsNumber) : bool :=
  match x with
  | Num z => 0 <? z
  | PosInfinity => true
  | NaN | NegInfinity => false
  end.

End Js.

Import Js.

(** ** Data model *)

(** A printer as reported by [webContents.getPrintersAsync]. *)
Record Printer : Type := mkPrinter {
  name : string;
  displayName : string;
  description : string;
  status : Z;
  isDefault : bool
}.

(** [settings]: [selectedPrinter] is [null] ([None]) or a string. *)
Record Settings : Type := mkSettings {
  selectedPrinter : option string;
  serverPort : Z
}.

(** The options object handed to [print]: [copies] is set only when the
    handler assigns it. *)
Record PrintOptions : Type := mkPrintOptions {
  printer : string;
  copies : option Z
}.

(** What [fetchImpl(url)] resolves to: [response.status] and the outcome
    of [response.arrayBuffer()]. *)
Record FetchResponse : Type := mkResponse {
  resp_status : Z;
  resp_body : Result (list Byte.byte)
}.

(** [response.ok]: the status is in the range 200-299. *)
Definition resp_ok (r : FetchResponse) : bool :=
  (200 <=? resp_status r) && (resp_status r <=? 299).

Inductive MenuItem : Type :=
| Radio (label : string) (checked : bool)
| Disabled (label : string).

(** JSON bodies the handlers send. *)
Inductive ResponseBody : Type :=
| BodyError (error : string)
| BodyPrinted (printer : string)
| BodySelected (selected : string).

(** Entries of the file system below [os.tmpdir()]. *)
Inductive Node : Type :=
| Dir
| File (data : list Byte.byte).

(** Every capability call and every response a handler makes, in order. *)
Inductive Event : Type :=
| EvGetPrinters (r : Result (list Printer))
| EvFetch (url : string) (r : Result FetchResponse)
| EvMkdtemp (pfx : string) (r : Result string)
| EvWriteFile (path : string) (data : list Byte.byte) (fault : option string)
| EvPrint (path : string) (opts : PrintOptions) (fault : option string)
| EvRm (path : string) (fault : option string)
| EvWriteSettings (s : Settings) (fault : option string)
| EvTrayMenu (header : string) (items : list MenuItem)
| EvNotify (body : string)
| EvConsoleError (label detail : string)
| EvResponse (code : Z) (body : ResponseBody).

(** An answer sent with [res.json]. *)
Definition is_response (e : Event) : bool :=
  match e with EvResponse _ _ => true | _ => false end.

(** The environment of one run of the process. Each oracle is asked with
    the number of capability calls made so far, so that successive calls
    may answer differently. *)
Record Env : Type := mkEnv {
  fetch_available : bool;          (* typeof fetch === 'function' *)
  notifications_supported : bool;  (* Notification.isSupported() *)
  os_tmpdir : string;              (* os.tmpdir() *)
  getPrintersAsync : nat -> Result (list Printer);
  fetch : nat -> string -> Result FetchResponse;
  mkdtemp_suffix : nat -> Result string;
  writeFile_fault : nat -> string -> option string;
  print_fault : nat -> string -> PrintOptions -> option string;
  writeFileSync_fault : nat -> option string;
  rm_fault : nat -> string -> option string;
  rm_removed : nat -> string -> bool (* the entries a refused removal had removed *)
}.

(** The module-level variables of [main.js] that the core reads or writes,
    the temporary part of the file system, and the history of effects. *)
Record World : Type := mkWorld {
  printers : list Printer;
  settings : Settings;
  hiddenWindow : bool;             (* hiddenWindow !== null *)
  tray : bool;                     (* tray !== null *)
  tmpfs : gmap string Node;
  ticks : nat;
  trace : list Event
}.

Definition set_printers (ps : list Printer) (w : World) : World :=
  mkWorld ps (settings w) (hiddenWindow w) (tray w) (tmpfs w) (ticks w) (trace w).

Definition set_selectedPrinter (sel : option string) (w : World) : World :=
  mkWorld (printers w) (mkSettings sel (serverPort (settings w)))
    (hiddenWindow w) (tray w) (tmpfs w) (ticks w) (trace w).

Definition set_tmpfs (fs : gmap string Node) (w : World) : World :=
  mkWorld (printers w) (settings w) (hiddenWindow w) (tray w) fs (ticks w) (trace w).

Definition tick (w : World) : World :=
  mkWorld (printers w) (settings w) (hiddenWindow w) (tray w) (tmpfs w)
    (S (ticks w)) (trace w).

Definition record (e : Event) (w : World) : World :=
  mkWorld (printers w) (settings w) (hiddenWindow w) (tray w) (tmpfs w)
    (ticks w) (trace w ++ [e]).

(** ** The monad of handlers: state and exceptions *)

Definition M (A : Type) : Type := World -> Result A * World.

Definition ret {A} (a : A) : M A := fun w => (Ok a, w).

Definition bind {A B} (m : M A) (k : A -> M B) : M B :=
  fun w =>
    match m w with
    | (Ok a, w') => k a w'
    | (Throw e, w') => (Throw e, w')
    end.

Definition throw {A} (message : string) : M A := fun w => (Throw message, w).

(** [try { m } catch (error) { h error.message }] *)
Definition try_catch {A} (m : M A) (h : string -> M A) : M A :=
  fun w =>
    match m w with
    | (Ok a, w') => (Ok a, w')
    | (Throw e, w') => h e w'
    end.

(** [try { m } finally { f }]: [f] runs on both exits; a rejection of [f]
    replaces the outcome of [m]. *)
Definition try_finally {A} (m : M A) (f : M unit) : M A :=
  fun w =>
    match m w with
    | (r, w') =>
        match f w' with
        | (Ok _, w'') => (r, w'')
        | (Throw e, w'') => (Throw e, w'')
        end
    end.

Definition gets {A} (f : World -> A) : M A := fun w => (Ok (f w), w).
Definition modify (f : World -> World) : M unit := fun w => (Ok tt, f w).
Definition emit (e : Event) : M unit := modify (record e).

(** Ask an oracle and advance the call counter. *)
Definition ask {A} (f : nat -> A) : M A := fun w => (Ok (f (ticks w)), tick w).

(** Resume after an [await]: the value, or the rejection rethrown. *)
Definition await {A} (r : Result A) : M A :=
  match r with
  | Ok a => ret a
  | Throw e => throw e
  end.

(** A call that returns at once: its value, or its exception. *)
Definition call {A} (r : Result A) : M A :=
  match r with
  | Ok a => ret a
  | Throw e => throw e
  end.

Declare Scope js_scope.
Delimit Scope js_scope with js.
Notation "x <- m ;; k" := (bind m (fun x => k))
  (at level 100, m at next level, right associativity) : js_scope.
Notation "m ;; k" := (bind m (fun _ => k))
  (at level 100, right associativity) : js_scope.
Local Open Scope js_scope.

(** The task [downloadPdf] resolves to. *)
Record DownloadTask : Type := mkTask {
  filePath : string;
  cleanup : M unit
}.

(** [path.join(a, b)] on two components that need no normalisation. *)
Definition path_join (a b : string) : string := a ++ "/" ++ b.

(** A double quote, for messages that contain one. *)
Definition dquote : string := String (ascii_of_nat 34) EmptyString.

(** ** The program *)

Section Program.

Variable E : Env.

(** *** File-system capabilities *)

(** [p] is [path] itself or lies below it. *)
Definition below (path p : string) : bool :=
  String.eqb p path || String.prefix (path ++ "/") p.

(** What is left of the file system once [path] and everything below it
    are gone. *)
Definition remove_tree (path : string) (fs : gmap string Node) : gmap string Node :=
  filter (fun kv : string * Node => below path kv.1 = false) fs.

(** What is left when the removal of [path] is given up part of the way:
    the entries at or below [path] that were [gone] by then are missing,
    the others are still there. *)
Definition remove_some (gone : string -> bool) (path : string) (fs : gmap string Node) :
    gmap string Node :=
  filter (fun kv : string * Node => below path kv.1 && gone kv.1 = false) fs.

(** [fs.promises.rm(path, { recursive: true, force: true })]: the entry and
    everything below it go away; with [force] a missing path is not an
    error. The system may still refuse the removal (an entry that is busy
    or protected): the call then rejects, having removed part of the tree
    at most. *)
Definition rm (path : string) : M unit :=
  n <- gets ticks;;
  fault <- ask (fun n => rm_fault E n path);;
  emit (EvRm path fault);;
  match fault with
  | None => modify (fun w => set_tmpfs (remove_tree path (tmpfs w)) w)
  | Some e =>
      modify (fun w => set_tmpfs (remove_some (rm_removed E n) path (tmpfs w)) w);;
      throw e
  end.

(** [fs.promises.mkdtemp(pfx)]: a new directory whose name is [pfx]
    followed by a suffix chosen by the system; never an existing entry. *)
Definition mkdtemp_outcome (r : Result string) (fs : gmap string Node) (pfx : string) :
    Result string :=
  match r with
  | Ok suffix =>
      match fs !! (pfx ++ suffix) with
      | None => Ok (pfx ++ suffix)
      | Some _ => Throw "EEXIST: file already exists, mkdtemp"
      end
  | Throw e => Throw e
  end.

Definition mkdtemp (pfx : string) : M string :=
  r <- ask (mkdtemp_suffix E);;
  fs <- gets tmpfs;;
  let r' := mkdtemp_outcome r fs pfx in
  emit (EvMkdtemp pfx r');;
  match r' with
  | Ok dir => modify (fun w => set_tmpfs (<[dir := Dir]> (tmpfs w)) w);; ret dir
  | Throw e => throw e
  end.

(** [fs.promises.writeFile(path, data)] *)
Definition writeFile (path : string) (data : list Byte.byte) : M unit :=
  fault <- ask (fun n => writeFile_fault E n path);;
  emit (EvWriteFile path data fault);;
  match fault with
  | None => modify (fun w => set_tmpfs (<[path := File data]> (tmpfs w)) w)
  | Some e => throw e
  end.

(** [print(filePath, options)] of pdf-to-printer. *)
Definition print (path : string) (opts : PrintOptions) : M unit :=
  fault <- ask (fun n => print_fault E n path opts);;
  emit (EvPrint path opts fault);;
  match fault with
  | None => ret tt
  | Some e => throw e
  end.

(** *** Desktop shell *)

Definition notify (body : string) : M unit :=
  if notifications_supported E then emit (EvNotify body) else ret tt.

Definition persistSettings : M unit :=
  s <- gets settings;;
  fault <- ask (writeFileSync_fault E);;
  emit (EvWriteSettings s fault);;
  match fault with
  | None => ret tt
  | Some e => emit (EvConsoleError "Failed to write settings:" e)
  end.

(** [a || b] on strings. *)
Definition or_string (a b : string) : string :=
  if String.eqb a "" then b else a.

Definition getPrinterDisplayName (printerName : option string) (ps : list Printer) : string :=
  match printerName with
  | None => "Not selected"
  | Some n =>
      if String.eqb n "" then "Not selected"
      else
        match List.find (fun entry => String.eqb (name entry) n || String.eqb (displayName entry) n) ps with
        | None => n
        | Some p => or_string (displayName p) (name p)
        end
  end.

(** The printer part of the tray menu template (the server lines and the
    fixed entries are left out). *)
Definition updateTrayMenu : M unit :=
  t <- gets tray;;
  if negb t then ret tt
  else
    ps <- gets printers;;
    sel <- gets (fun w => selectedPrinter (settings w));;
    let printerItems :=
      match ps with
      | [] => [Disabled "No printers detected"]
      | _ => List.map (fun p => Radio (or_string (displayName p) (name p))
                                  (bool_decide (sel = Some (name p)))) ps
      end in
    emit (EvTrayMenu ("Printer: " ++ getPrinterDisplayName sel ps) printerItems).

(** *** Printer registry *)

Definition setSelectedPrinter (printerName : string) (persist silent : bool) : M unit :=
  sel <- gets (fun w => selectedPrinter (settings w));;
  if String.eqb printerName "" || bool_decide (sel = Some printerName) then ret tt
  else
    modify (set_selectedPrinter (Some printerName));;
    (if persist then persistSettings else ret tt);;
    updateTrayMenu;;
    if negb silent then
      ps <- gets printers;;
      notify ("Selected printer: " ++ getPrinterDisplayName (Some printerName) ps)
    else ret tt.

(** [!settings.selectedPrinter] *)
Definition nothing_selected (sel : option string) : bool :=
  match sel with
  | None => true
  | Some n => String.eqb n ""
  end.

(** [printers.find((printer) => printer.isDefault) || printers[0]] *)
Definition preferred (ps : list Printer) : option Printer :=
  match List.find isDefault ps with
  | Some p => Some p
  | None => List.head ps
  end.

(** *** Discovery *)

Definition refreshPrinters : M (list Printer) :=
  hw <- gets hiddenWindow;;
  if negb hw then gets printers
  else
    try_catch
      (r <- ask (getPrintersAsync E);;
       emit (EvGetPrinters r);;
       ps <- await r;;
       modify (set_printers ps);;
       sel <- gets (fun w => selectedPrinter (settings w));;
       if nothing_selected sel && negb (Nat.eqb (List.length ps) 0) then
         match preferred ps with
         | Some p => setSelectedPrinter (name p) true true
         | None => ret tt
         end
       else ret tt)
      (fun e => emit (EvConsoleError "Failed to fetch printers" e));;
    updateTrayMenu;;
    notify "Refreshed printers";;
    gets printers.

(** *** Document fetcher *)

Definition downloadPdf (fileUrl : string) : M DownloadTask :=
  if negb (fetch_available E) then
    throw "Fetch API is not available in this version of Electron."
  else
    r <- ask (fun n => fetch E n fileUrl);;
    emit (EvFetch fileUrl r);;
    response <- await r;;
    if negb (resp_ok response) then
      throw ("Download failed: HTTP " ++ pretty (resp_status response))
    else
      buffer <- await (resp_body response);;
      if Nat.eqb (List.length buffer) 0 then throw "Downloaded file is empty."
      else
        tempDir <- mkdtemp (path_join (os_tmpdir E) "printer-ws-");;
        let filePath := path_join tempDir "document.pdf" in
        writeFile filePath buffer;;
        ret {| filePath := filePath; cleanup := rm tempDir |}.

(** *** Print dispatcher *)

Definition has_printer (target : string) (ps : list Printer) : bool :=
  List.existsb (fun p => String.eqb (name p) target) ps.

Definition ensurePrinterAvailable (targetPrinter : string) : M bool :=
  ps <- gets printers;;
  if has_printer targetPrinter ps then ret true
  else
    refreshPrinters;;
    ps' <- gets printers;;
    ret (has_printer targetPrinter ps').

(** [res.headersSent]. The handler gets a new [res] with each request;
    it is told apart by [since], the length of the history when the
    request began: the headers are sent once an answer was. *)
Definition headersSent (since : nat) (w : World) : bool :=
  existsb is_response (List.skipn since (trace w)).

(** The message of [ERR_HTTP_HEADERS_SENT]. *)
Definition headers_sent_error : string :=
  "Cannot set headers after they are sent to the client".

(** [res.status(code).json(body)]; a second answer on one [res] throws
    [ERR_HTTP_HEADERS_SENT] when it comes to set the headers. *)
Definition respond (since : nat) (code : Z) (body : ResponseBody) : M unit :=
  sent <- gets (headersSent since);;
  if sent then throw headers_sent_error
  else emit (EvResponse code body).

(** [settings.selectedPrinter] as a JavaScript value. *)
Definition js_of_selected (sel : option string) : JsVal :=
  match sel with
  | None => JNull
  | Some n => JStr n
  end.

(** [v.trim()], where [expr] is the source text of [v]: a method only
    strings have, so the call throws a [TypeError] on anything else. *)
Definition call_trim (expr : string) (v : JsVal) : M string :=
  match v with
  | JStr s => ret (trim s)
  | _ => throw (expr ++ ".trim is not a function")
  end.

(** Lines 291-293: [copies] is set when [copiesValue] is finite and above
    zero. *)
Definition positive_copies (copiesValue : JsNumber) : option Z :=
  if isFinite copiesValue && gt0 copiesValue then
    match copiesValue with
    | Num z => Some z
    | _ => None
    end
  else None.

(** Lines 294-307 of the [/print] handler: download, print, clean up,
    and report a failure of either step as a 500. *)
Definition print_job (since : nat) (normalizedUrl targetPrinter : string)
    (printOptions : PrintOptions) : M unit :=
  try_catch
    (task <- downloadPdf normalizedUrl;;
     try_finally
       (print (filePath task) printOptions;;
        respond since 200 (BodyPrinted targetPrinter);;
        ps <- gets printers;;
        notify ("Sent document to " ++ getPrinterDisplayName (Some targetPrinter) ps))
       (cleanup task))
    (fun e =>
       emit (EvConsoleError "Print job failed" e);;
       respond since 500 (BodyError e);;
       notify ("Print failed: " ++ e)).

(** [serverApp.post('/print', ...)] *)
Definition print_handler (req_body : JsVal) : M unit :=
  since <- gets (fun w => List.length (trace w));;
  let body := js_or req_body (JObj []) in
  let url := get_prop "url" body in
  let printerName := get_prop "printerName" body in
  let copies := get_prop "copies" body in
  if negb (truthy url) || negb (is_string url) then
    respond since 400 (BodyError ("Field " ++ dquote ++ "url" ++ dquote ++ " is required."))
  else
    normalizedUrl <- call_trim "url" url;;
    if negb (http_scheme_test normalizedUrl) then
      respond since 400 (BodyError "Only http/https URLs are supported.")
    else
      sel <- gets (fun w => selectedPrinter (settings w));;
      targetPrinter <-
        call_trim "(printerName || settings.selectedPrinter || '')"
          (js_or (js_or printerName (js_of_selected sel)) (JStr ""));;
      if String.eqb targetPrinter "" then
        respond since 400 (BodyError "No printer selected.")
      else
        printerReady <- ensurePrinterAvailable targetPrinter;;
        if negb printerReady then
          respond since 404 (BodyError "Selected printer is not available.")
        else
          copiesValue <- call (parseInt10 copies);;
          let printOptions := mkPrintOptions targetPrinter (positive_copies copiesValue) in
          print_job since normalizedUrl targetPrinter printOptions.

(** [serverApp.post('/printers/select', ...)] *)
Definition select_handler (req_body : JsVal) : M unit :=
  since <- gets (fun w => List.length (trace w));;
  let body := js_or req_body (JObj []) in
  let name_ := get_prop "name" body in
  if negb (truthy name_) || negb (is_string name_) then
    respond since 400 (BodyError ("Printer " ++ dquote ++ "name" ++ dquote ++ " is required."))
  else
    wanted <- call_trim "name" name_;;
    ps <- gets printers;;
    match List.find (fun p => String.eqb (name p) wanted) ps with
    | Some _ => ret tt
    | None => refreshPrinters;; ret tt
    end;;
    ps' <- gets printers;;
    match List.find (fun p => String.eqb (name p) wanted) ps' with
    | None => respond since 404 (BodyError "Printer not found.")
    | Some finalPrinter =>
        setSelectedPrinter (name finalPrinter) true false;;
        respond since 200 (BodySelected (name finalPrinter))
    end.

(** [appState]: what the tray and [/status] show of the server. *)
Record AppState : Type := mkAppState {
  serverStatus : string;
  app_serverPort : Z
}.

(** The object [/status] passes to [res.json] ([ok: true] is left
    implicit). Each printer of the list is copied field by field, which on
    [Printer] is the identity. *)
Record StatusBody : Type := mkStatusBody {
  server_host : string;
  server_port : Z;
  server_status : string;
  status_selectedPrinter : option string;
  status_printers : list Printer
}.

(** [serverApp.get('/status', ...)], with [HOST] and [appState] as the
    process has them. The value of the run is the object sent with
    [res.json]; the notification follows it. *)
Definition status_handler (host : string) (app : AppState) : M StatusBody :=
  sel <- gets (fun w => selectedPrinter (settings w));;
  ps <- gets printers;;
  let sent :=
    mkStatusBody host (app_serverPort app) (serverStatus app) sel
      (List.map (fun p => mkPrinter (name p) (displayName p) (description p)
                            (status p) (isDefault p)) ps) in
  notify "DTF Gangsheet Printer Bridge started.";;
  ret sent.

(** [serverApp.post('/printers/refresh', ...)]: the value of the run is
    the [printers] array sent with [res.json] beside [ok: true]. *)
Definition refresh_handler : M (list Printer) :=
  refreshPrinters;;
  ps <- gets printers;;
  ret (List.map (fun p => mkPrinter (name p) (displayName p) (description p)
                            (status p) (isDefault p)) ps).

End Program.

(** ** Start-up: the port and the settings file *)

Module Startup.

(** [x || d] on the result of [Number.parseInt]: [NaN] and zero are
    falsy. *)
Definition number_or (x : JsNumber) (d : Z) : JsNumber :=
  match x with
  | NaN => Num d
  | Num z => if z =? 0 then Num d else Num z
  | PosInfinity => PosInfinity
  | NegInfinity => NegInfinity
  end.

Definition DEFAULT_PORT : Z := 3321.

(** Line 22: [Number.parseInt(process.env.PRINTER_BRIDGE_PORT || '', 10)
    || DEFAULT_PORT], where [env] is the variable, [None] when unset. *)
Definition initial_serverPort (env : option string) : JsNumber :=
  let text := match env with
              | Some s => if String.eqb s "" then "" else s
              | None => ""
              end in
  number_or (parseInt_text text) DEFAULT_PORT.

(** The own enumerable properties that [{ ...v }] copies: those of an
    object; the indexed elements of an array and the characters of a
    string; nothing for the other values. *)
Fixpoint indexed {A} (f : A -> JsVal) (i : nat) (l : list A) : list (string * JsVal) :=
  match l with
  | [] => []
  | x :: rest => (pretty i, f x) :: indexed f (S i) rest
  end.

Definition own_props (v : JsVal) : gmap string JsVal :=
  match v with
  | JObj fields => list_to_map fields
  | JArr elems => list_to_map (indexed (fun x => x) 0 elems)
  | JStr s => list_to_map (indexed (fun c => JStr (String c EmptyString)) 0 (list_ascii_of_string s))
  | _ => ∅
  end.

(** What [loadSettings] finds on disk: whether [mkdirSync] throws,
    whether the file exists, and what [JSON.parse(readFileSync(...))]
    gives (a rejection for an unreadable file or a syntax error). *)
Record Disk : Type := mkDisk {
  mkdir_fault : option string;
  file_exists : bool;
  parsed : Result JsVal
}.

(** The variables [loadSettings] writes: the [settings] object as a map
    from keys to values, [appState.serverPort], and what it logged. *)
Record Boot : Type := mkBoot {
  boot_settings : gmap string JsVal;
  boot_port : JsVal;
  boot_log : list Event
}.

(** [loadSettings] *)
Definition loadSettings (disk : Disk) (b : Boot) : Boot :=
  match mkdir_fault disk with
  | Some e => mkBoot (boot_settings b) (boot_port b)
                (boot_log b ++ [EvConsoleError "Failed to read settings:" e])
  | None =>
      if file_exists disk then
        match parsed disk with
        | Ok stored =>
            let merged := own_props stored ∪ boot_settings b in
            mkBoot merged
              (js_or (default JUndefined (merged !! "serverPort")) (JNum DEFAULT_PORT))
              (boot_log b)
        | Throw e => mkBoot (boot_settings b) (boot_port b)
                       (boot_log b ++ [EvConsoleError "Failed to read settings:" e])
        end
      else b
  end.

(** The [settings] object of a typed [Settings], as [persistSettings]
    serialises it. *)
Definition settings_object (s : Settings) : JsVal :=
  JObj [("selectedPrinter", js_of_selected (selectedPrinter s));
        ("serverPort", JNum (serverPort s))].

End Startup.

(** ** Concrete environments, used to exercise the theorems *)

Module Demo.

Definition office : Printer := mkPrinter "Office-Printer" "Office Printer" "" 0 false.
Definition label : Printer := mkPrinter "Zebra" "" "" 0 true.

Definition pdf : list Byte.byte := [Byte.x25; Byte.x50; Byte.x44; Byte.x46].

(** Every capability answers; the system reports two printers. *)
Definition env : Env :=
  mkEnv true true "/tmp"
    (fun _ => Ok [office; label])
    (fun _ _ => Ok (mkResponse 200 (Ok pdf)))
    (fun _ => Ok "abc123")
    (fun _ _ => None)
    (fun _ _ _ => None)
    (fun _ => None)
    (fun _ _ => None) (fun _ _ => false).

(** As [env], but printer enumeration rejects. *)
Definition env_no_enumeration : Env :=
  mkEnv true true "/tmp"
    (fun _ => Throw "enumeration failed")
    (fun _ _ => Ok (mkResponse 200 (Ok pdf)))
    (fun _ => Ok "abc123")
    (fun _ _ => None)
    (fun _ _ _ => None)
    (fun _ => None)
    (fun _ _ => None) (fun _ _ => false).

(** As [env], but writing the document rejects. *)
Definition env_disk_full : Env :=
  mkEnv true true "/tmp"
    (fun _ => Ok [office; label])
    (fun _ _ => Ok (mkResponse 200 (Ok pdf)))
    (fun _ => Ok "abc123")
    (fun _ _ => Some "ENOSPC: no space left on device, write")
    (fun _ _ _ => None)
    (fun _ => None)
    (fun _ _ => None) (fun _ _ => false).

(** As [env], but the spooler rejects the document. *)
Definition env_spooler_down : Env :=
  mkEnv true true "/tmp"
    (fun _ => Ok [office; label])
    (fun _ _ => Ok (mkResponse 200 (Ok pdf)))
    (fun _ => Ok "abc123")
    (fun _ _ => None)
    (fun _ _ _ => Some "Operation failed")
    (fun _ => None)
    (fun _ _ => None) (fun _ _ => false).

(** The process right after [createHiddenWindow] and [createTray]. *)
Definition fresh : World := mkWorld [] (mkSettings None 3321) true true ∅ 0 [].

(** Both printers known, the office printer selected. *)
Definition ready : World :=
  mkWorld [office; label] (mkSettings (Some "Office-Printer") 3321) true true ∅ 0 [].

(** As [env], but the settings file cannot be written. *)
Definition env_settings_readonly : Env :=
  mkEnv true true "/tmp"
    (fun _ => Ok [office; label])
    (fun _ _ => Ok (mkResponse 200 (Ok pdf)))
    (fun _ => Ok "abc123")
    (fun _ _ => None)
    (fun _ _ _ => None)
    (fun _ => Some "EACCES: permission denied")
    (fun _ _ => None) (fun _ _ => false).

(** As [env], but the system reports the label printer only. *)
Definition env_label_only : Env :=
  mkEnv true true "/tmp"
    (fun _ => Ok [label])
    (fun _ _ => Ok (mkResponse 200 (Ok pdf)))
    (fun _ => Ok "abc123")
    (fun _ _ => None)
    (fun _ _ _ => None)
    (fun _ => None)
    (fun _ _ => None) (fun _ _ => false).

(** As [env], but the document is still in use when the directory is to be
    removed: the removal is refused and nothing is removed. *)
Definition env_busy : Env :=
  mkEnv true true "/tmp"
    (fun _ => Ok [office; label])
    (fun _ _ => Ok (mkResponse 200 (Ok pdf)))
    (fun _ => Ok "abc123")
    (fun _ _ => None)
    (fun _ _ _ => None)
    (fun _ => None)
    (fun _ _ => Some "EBUSY: resource busy or locked, rmdir") (fun _ _ => false).

(** As [env_busy], and the spooler rejects the document as well. *)
Definition env_busy_spooler_down : Env :=
  mkEnv true true "/tmp"
    (fun _ => Ok [office; label])
    (fun _ _ => Ok (mkResponse 200 (Ok pdf)))
    (fun _ => Ok "abc123")
    (fun _ _ => None)
    (fun _ _ _ => Some "Operation failed")
    (fun _ => None)
    (fun _ _ => Some "EBUSY: resource busy or locked, rmdir") (fun _ _ => false).

(** A /print body that asks for two copies on the selected printer. *)
Definition print_request (url : string) : JsVal :=
  JObj [("url", JStr url); ("copies", JNum 2)].

End Demo.

(** ** Vocabulary of the statements *)

Local Open Scope list_scope.

Section Vocabulary.

Variable E : Env.

(** [m] run from [w] ends with [r] in [w'], having appended [evs] to the
    trace. *)
Definition runs {A} (m : M A) (w : World) (r : Result A) (w' : World)
    (evs : list Event) : Prop :=
  m w = (r, w') /\ trace w' = trace w ++ evs.

(** Events of the desktop shell and the settings file: none of them
    touches the network, the temporary directory or the spooler. *)
Definition shell_event (e : Event) : bool :=
  match e with
  | EvWriteSettings _ _ | EvTrayMenu _ _ | EvNotify _ | EvConsoleError _ _ => true
  | _ => false
  end.

(** A call of [getPrintersAsync]. *)
Definition is_enumeration (e : Event) : bool :=
  match e with EvGetPrinters _ => true | _ => false end.

(** A call of [persistSettings]. *)
Definition is_settings_write (e : Event) : bool :=
  match e with EvWriteSettings _ _ => true | _ => false end.

(** [post m w Q]: the run of [m] from [w] satisfies [Q]. Handlers are
    total and deterministic, so this is both "some run" and "every run". *)
Definition post {A} (m : M A) (w : World)
    (Q : Result A -> World -> list Event -> Prop) : Prop :=
  exists r w' evs, runs m w r w' evs /\ Q r w' evs.

(** A run read off by computation: the final trace is the initial one
    followed by the events found. *)
Definition outcome_post {A} (log : list Event)
    (Q : Result A -> World -> list Event -> Prop) (x : Result A * World) : Prop :=
  exists evs, trace x.2 = log ++ evs /\ Q x.1 x.2 evs.

(** The temporary files are as before. *)
Definition same_files (w w' : World) : Prop := tmpfs w' = tmpfs w.

(** The list of printers and the settings are as before. *)
Definition same_registry (w w' : World) : Prop :=
  printers w' = printers w /\ settings w' = settings w.

(** The window and tray handles are as before. *)
Definition same_shell (w w' : World) : Prop :=
  hiddenWindow w' = hiddenWindow w /\ tray w' = tray w.

(** What one call of [setSelectedPrinter] does to the world. *)
Definition selection_step (printerName : string) (persist silent : bool)
    (w w' : World) (evs : list Event) : Prop :=
  printers w' = printers w /\
  serverPort (settings w') = serverPort (settings w) /\
  same_shell w w' /\ same_files w w' /\
  forallb shell_event evs = true /\
  (silent = true -> forall b, ~ In (EvNotify b) evs) /\
  if String.eqb printerName "" || bool_decide (selectedPrinter (settings w) = Some printerName)
  then w' = w /\ evs = []
  else
    selectedPrinter (settings w') = Some printerName /\
    if persist
    then exists fault rest,
        evs = EvWriteSettings (settings w') fault :: rest /\
        forallb (fun e => negb (is_settings_write e)) rest = true
    else forallb (fun e => negb (is_settings_write e)) evs = true.

(** A step that leaves registry, shell handles and files alone. *)
Definition quiet_step (w w' : World) : Prop :=
  same_registry w w' /\ same_shell w w' /\ same_files w w'.

(** None of the events is a write of the settings file. *)
Definition no_settings_write (evs : list Event) : Prop :=
  forallb (fun e => negb (is_settings_write e)) evs = true.

(** What one call of [refreshPrinters] does to the world. *)
Definition refresh_step (w w' : World) (evs : list Event) : Prop :=
  same_shell w w' /\ same_files w w' /\
  serverPort (settings w') = serverPort (settings w) /\
  if hiddenWindow w then
    exists shell,
      evs = EvGetPrinters (getPrintersAsync E (ticks w)) :: shell /\
      forallb shell_event shell = true /\
      (forall b, In (EvNotify b) shell -> b = "Refreshed printers") /\
      match getPrintersAsync E (ticks w) with
      | Ok ps =>
          printers w' = ps /\
          if nothing_selected (selectedPrinter (settings w)) && negb (Nat.eqb (List.length ps) 0)
          then exists p,
              preferred ps = Some p /\
              if String.eqb (name p) ""
              then settings w' = settings w /\ no_settings_write shell
              else selectedPrinter (settings w') = Some (name p) /\
                   exists fault rest,
                     shell = EvWriteSettings (settings w') fault :: rest /\
                     no_settings_write rest
          else settings w' = settings w /\ no_settings_write shell
      | Throw e =>
          printers w' = printers w /\ settings w' = settings w /\
          In (EvConsoleError "Failed to fetch printers" e) shell /\
          no_settings_write shell
      end
  else w' = w /\ evs = [].

(** What one call of [downloadPdf] does to the world, case by case in the
    order of the source. *)
Definition download_step (fileUrl : string) (w : World) (r : Result DownloadTask)
    (w' : World) (evs : list Event) : Prop :=
  same_registry w w' /\ same_shell w w' /\
  if negb (fetch_available E) then
    r = Throw "Fetch API is not available in this version of Electron." /\
    evs = [] /\ same_files w w'
  else
    let f := fetch E (ticks w) fileUrl in
    match f with
    | Throw e => r = Throw e /\ evs = [EvFetch fileUrl f] /\ same_files w w'
    | Ok response =>
        if negb (resp_ok response) then
          r = Throw ("Download failed: HTTP " ++ pretty (resp_status response))%string /\
          evs = [EvFetch fileUrl f] /\ same_files w w'
        else
          match resp_body response with
          | Throw e => r = Throw e /\ evs = [EvFetch fileUrl f] /\ same_files w w'
          | Ok buffer =>
              if Nat.eqb (List.length buffer) 0 then
                r = Throw "Downloaded file is empty." /\
                evs = [EvFetch fileUrl f] /\ same_files w w'
              else
                let pfx := path_join (os_tmpdir E) "printer-ws-" in
                let made := mkdtemp_outcome (mkdtemp_suffix E (S (ticks w))) (tmpfs w) pfx in
                match made with
                | Throw e =>
                    r = Throw e /\
                    evs = [EvFetch fileUrl f; EvMkdtemp pfx made] /\ same_files w w'
                | Ok tempDir =>
                    let path := path_join tempDir "document.pdf" in
                    let fault := writeFile_fault E (S (S (ticks w))) path in
                    evs = [EvFetch fileUrl f; EvMkdtemp pfx made; EvWriteFile path buffer fault] /\
                    match fault with
                    | Some e =>
                        r = Throw e /\ tmpfs w' = <[tempDir := Dir]> (tmpfs w)
                    | None =>
                        r = Ok {| filePath := path; cleanup := rm E tempDir |} /\
                        tmpfs w' = <[path := File buffer]> (<[tempDir := Dir]> (tmpfs w))
                    end
                end
          end
    end.

(** The three ways a download ends: refused before anything is on disk,
    a directory created but the document not written, or done. *)
Inductive DownloadRun (fileUrl : string) (w : World) :
    Result DownloadTask -> World -> list Event -> Prop :=
| download_refused e w' evs :
    same_files w w' ->
    (forall ev, In ev evs ->
       (exists r, ev = EvFetch fileUrl r) \/ (exists pfx e', ev = EvMkdtemp pfx (Throw e'))) ->
    DownloadRun fileUrl w (Throw e) w' evs
| download_unwritten e response pfx tempDir data w' :
    tmpfs w !! tempDir = None ->
    tmpfs w' = <[tempDir := Dir]> (tmpfs w) ->
    resp_ok response = true -> resp_body response = Ok data -> data <> [] ->
    DownloadRun fileUrl w (Throw e) w'
      [EvFetch fileUrl (Ok response); EvMkdtemp pfx (Ok tempDir);
       EvWriteFile (path_join tempDir "document.pdf") data (Some e)]
| download_done response pfx tempDir data w' :
    tmpfs w' = <[path_join tempDir "document.pdf" := File data]> (<[tempDir := Dir]> (tmpfs w)) ->
    resp_ok response = true -> resp_body response = Ok data -> data <> [] ->
    DownloadRun fileUrl w
      (Ok {| filePath := path_join tempDir "document.pdf"; cleanup := rm E tempDir |}) w'
      [EvFetch fileUrl (Ok response); EvMkdtemp pfx (Ok tempDir);
       EvWriteFile (path_join tempDir "document.pdf") data None].

(** What one call of [ensurePrinterAvailable] does: nothing when the
    printer is cached, else one refresh and a second look. *)
Definition ensure_step (targetPrinter : string) (w : World) (ready : bool)
    (w' : World) (evs : list Event) : Prop :=
  if has_printer targetPrinter (printers w)
  then ready = true /\ w' = w /\ evs = []
  else ready = has_printer targetPrinter (printers w') /\ refresh_step w w' evs.

(** The events of one [notify]: the notification, or nothing when
    notifications are not supported. *)
Definition maybe_notified (body : string) (shell : list Event) : Prop :=
  shell = [] \/ shell = [EvNotify body].

(** The ways lines 294-307 end: the download failed; the document was
    printed and the directory removed; it was printed but the removal was
    refused, and the report of that failure throws because the 200 is
    already sent; the spooler rejected it and the directory was removed;
    the spooler rejected it and the removal was refused as well, whose
    error then replaces the spooler's. *)
Inductive JobRun (fileUrl targetPrinter : string) (opts : PrintOptions) (w : World) :
    Result unit -> World -> list Event -> Prop :=
| job_download_failed e wd evd w' shell :
    DownloadRun fileUrl w (Throw e) wd evd ->
    tmpfs w' = tmpfs wd ->
    maybe_notified ("Print failed: " ++ e)%string shell ->
    JobRun fileUrl targetPrinter opts w (Ok tt) w'
      (evd ++ EvConsoleError "Print job failed" e :: EvResponse 500 (BodyError e) :: shell)
| job_printed response pfx tempDir data wd w' shell :
    tmpfs wd = <[path_join tempDir "document.pdf" := File data]> (<[tempDir := Dir]> (tmpfs w)) ->
    tmpfs w' = remove_tree tempDir (tmpfs wd) ->
    maybe_notified
      ("Sent document to " ++ getPrinterDisplayName (Some targetPrinter) (printers w))%string shell ->
    JobRun fileUrl targetPrinter opts w (Ok tt) w'
      (EvFetch fileUrl (Ok response) :: EvMkdtemp pfx (Ok tempDir)
         :: EvWriteFile (path_join tempDir "document.pdf") data None
         :: EvPrint (path_join tempDir "document.pdf") opts None
         :: EvResponse 200 (BodyPrinted targetPrinter) :: shell ++ [EvRm tempDir None])
| job_printed_not_cleaned e gone response pfx tempDir data wd w' shell :
    tmpfs wd = <[path_join tempDir "document.pdf" := File data]> (<[tempDir := Dir]> (tmpfs w)) ->
    tmpfs w' = remove_some gone tempDir (tmpfs wd) ->
    maybe_notified
      ("Sent document to " ++ getPrinterDisplayName (Some targetPrinter) (printers w))%string shell ->
    JobRun fileUrl targetPrinter opts w (Throw headers_sent_error) w'
      (EvFetch fileUrl (Ok response) :: EvMkdtemp pfx (Ok tempDir)
         :: EvWriteFile (path_join tempDir "document.pdf") data None
         :: EvPrint (path_join tempDir "document.pdf") opts None
         :: EvResponse 200 (BodyPrinted targetPrinter)
         :: shell ++ [EvRm tempDir (Some e); EvConsoleError "Print job failed" e])
| job_print_failed e response pfx tempDir data wd w' shell :
    tmpfs wd = <[path_join tempDir "document.pdf" := File data]> (<[tempDir := Dir]> (tmpfs w)) ->
    tmpfs w' = remove_tree tempDir (tmpfs wd) ->
    maybe_notified ("Print failed: " ++ e)%string shell ->
    JobRun fileUrl targetPrinter opts w (Ok tt) w'
      (EvFetch fileUrl (Ok response) :: EvMkdtemp pfx (Ok tempDir)
         :: EvWriteFile (path_join tempDir "document.pdf") data None
         :: EvPrint (path_join tempDir "document.pdf") opts (Some e)
         :: EvRm tempDir None :: EvConsoleError "Print job failed" e
         :: EvResponse 500 (BodyError e) :: shell)
| job_print_failed_not_cleaned e e' gone response pfx tempDir data wd w' shell :
    tmpfs wd = <[path_join tempDir "document.pdf" := File data]> (<[tempDir := Dir]> (tmpfs w)) ->
    tmpfs w' = remove_some gone tempDir (tmpfs wd) ->
    maybe_notified ("Print failed: " ++ e')%string shell ->
    JobRun fileUrl targetPrinter opts w (Ok tt) w'
      (EvFetch fileUrl (Ok response) :: EvMkdtemp pfx (Ok tempDir)
         :: EvWriteFile (path_join tempDir "document.pdf") data None
         :: EvPrint (path_join tempDir "document.pdf") opts (Some e)
         :: EvRm tempDir (Some e') :: EvConsoleError "Print job failed" e'
         :: EvResponse 500 (BodyError e') :: shell).

(** The three fields the handler destructures from [req.body || {}]. *)
Definition req_url (body : JsVal) : JsVal := get_prop "url" (js_or body (JObj [])).
Definition req_printerName (body : JsVal) : JsVal := get_prop "printerName" (js_or body (JObj [])).
Definition req_copies (body : JsVal) : JsVal := get_prop "copies" (js_or body (JObj [])).

(** The tests of lines 269 and 275 taken together: the field is missing,
    falsy or not a string, or its trimmed text fails the scheme test. *)
Definition url_rejected (url : JsVal) : bool :=
  match url with
  | JStr s => negb (http_scheme_test (trim s))
  | _ => true
  end.

(** [normalizedUrl] of a string field. *)
Definition url_text (url : JsVal) : string :=
  match url with
  | JStr s => trim s
  | _ => ""
  end.

(** [copies] of the options object after lines 289-293, or the exception
    [Number.parseInt] throws on line 290. *)
Definition copies_option (copies : JsVal) : Result (option Z) :=
  match parseInt10 copies with
  | Ok copiesValue => Ok (positive_copies copiesValue)
  | Throw e => Throw e
  end.

(** Line 279: [(printerName || settings.selectedPrinter || '').trim()],
    [None] when the value reached is not a string. *)
Definition resolve_target (printerName : JsVal) (sel : option string) : option string :=
  match js_or (js_or printerName (js_of_selected sel)) (JStr "") with
  | JStr s => Some (trim s)
  | _ => None
  end.

(** The answers of lines 286 and 281. *)
Definition not_available : Event :=
  EvResponse 404 (BodyError "Selected printer is not available.").

Definition no_printer_selected : Event :=
  EvResponse 400 (BodyError "No printer selected.").

(** The six ways a /print request ends. *)
Inductive PrintRun (body : JsVal) (w : World) :
    Result unit -> World -> list Event -> Prop :=
| print_bad_url msg :
    url_rejected (req_url body) = true ->
    PrintRun body w (Ok tt) (record (EvResponse 400 (BodyError msg)) w)
      [EvResponse 400 (BodyError msg)]
| print_type_error e :
    url_rejected (req_url body) = false ->
    resolve_target (req_printerName body) (selectedPrinter (settings w)) = None ->
    PrintRun body w (Throw e) w []
| print_no_printer :
    url_rejected (req_url body) = false ->
    resolve_target (req_printerName body) (selectedPrinter (settings w)) = Some "" ->
    PrintRun body w (Ok tt) (record no_printer_selected w) [no_printer_selected]
| print_unavailable targetPrinter w1 evs1 :
    url_rejected (req_url body) = false ->
    resolve_target (req_printerName body) (selectedPrinter (settings w)) = Some targetPrinter ->
    targetPrinter <> "" ->
    ensure_step targetPrinter w false w1 evs1 ->
    PrintRun body w (Ok tt) (record not_available w1) (evs1 ++ [not_available])
| print_copies_throw targetPrinter w1 evs1 e :
    url_rejected (req_url body) = false ->
    resolve_target (req_printerName body) (selectedPrinter (settings w)) = Some targetPrinter ->
    targetPrinter <> "" ->
    ensure_step targetPrinter w true w1 evs1 ->
    copies_option (req_copies body) = Throw e ->
    PrintRun body w (Throw e) w1 evs1
| print_dispatched targetPrinter w1 evs1 copiesOption r w' evs2 :
    url_rejected (req_url body) = false ->
    resolve_target (req_printerName body) (selectedPrinter (settings w)) = Some targetPrinter ->
    targetPrinter <> "" ->
    ensure_step targetPrinter w true w1 evs1 ->
    copies_option (req_copies body) = Ok copiesOption ->
    same_registry w1 w' -> same_shell w1 w' ->
    JobRun (url_text (req_url body)) targetPrinter
      (mkPrintOptions targetPrinter copiesOption) w1 r w' evs2 ->
    PrintRun body w r w' (evs1 ++ evs2).


(** The causes of failure the specification lists: no [fetch] in this
    runtime, a status outside 200-299, or an empty body. *)
Definition listed_failure (fileUrl : string) (w : World) : Prop :=
  fetch_available E = false \/
  exists response,
    fetch E (ticks w) fileUrl = Ok response /\
    (resp_ok response = false \/ resp_body response = Ok []).

(** The other awaited calls of [downloadPdf] that may reject: the request,
    reading the body, creating the directory, writing the document. *)
Definition request_rejected (fileUrl : string) (w : World) : Prop :=
  exists e, fetch E (ticks w) fileUrl = Throw e.

Definition body_unreadable (fileUrl : string) (w : World) : Prop :=
  exists response e, fetch E (ticks w) fileUrl = Ok response /\ resp_body response = Throw e.

Definition temp_dir_outcome (w : World) : Result string :=
  mkdtemp_outcome (mkdtemp_suffix E (S (ticks w))) (tmpfs w)
    (path_join (os_tmpdir E) "printer-ws-").

Definition temp_dir_refused (w : World) : Prop :=
  exists e, temp_dir_outcome w = Throw e.

Definition write_refused (w : World) : Prop :=
  exists tempDir e,
    temp_dir_outcome w = Ok tempDir /\
    writeFile_fault E (S (S (ticks w))) (path_join tempDir "document.pdf") = Some e.

(** Events of the registry: an enumeration or a shell event. *)
Definition registry_event (e : Event) : bool :=
  is_enumeration e || shell_event e.

(** How many times the printers were enumerated. *)
Definition enumerations (evs : list Event) : nat :=
  List.length (List.filter is_enumeration evs).

(** What the specification says of a bad [url]: missing, not a string, or
    not beginning with the scheme (the text taken as sent). *)
Definition url_rejected_as_stated (url : JsVal) : bool :=
  match url with
  | JStr s => negb (http_scheme_test s)
  | _ => true
  end.

(** The field [/printers/select] destructures from [req.body || {}]. *)
Definition req_name (body : JsVal) : JsVal := get_prop "name" (js_or body (JObj [])).

(** The test of line 236: the field is missing, falsy or not a string. *)
Definition name_rejected (v : JsVal) : bool :=
  match v with
  | JStr s => String.eqb s ""
  | _ => true
  end.

(** [name.trim()] of a string field. *)
Definition name_text (v : JsVal) : string :=
  match v with
  | JStr s => trim s
  | _ => ""
  end.

(** [printers.find((printer) => printer.name === wanted)] *)
Definition find_printer (wanted : string) (ps : list Printer) : option Printer :=
  List.find (fun p => String.eqb (name p) wanted) ps.

Definition name_required : Event :=
  EvResponse 400 (BodyError ("Printer " ++ dquote ++ "name" ++ dquote ++ " is required."))%string.

Definition printer_not_found : Event :=
  EvResponse 404 (BodyError "Printer not found.").

(** Lines 240-243: nothing when the printer is cached, else one refresh. *)
Definition select_lookup_step (wanted : string) (w w' : World) (evs : list Event) : Prop :=
  match find_printer wanted (printers w) with
  | Some _ => w' = w /\ evs = []
  | None => refresh_step w w' evs
  end.

(** The three ways a /printers/select request ends. *)
Inductive SelectRun (body : JsVal) (w : World) :
    Result unit -> World -> list Event -> Prop :=
| select_bad_name :
    name_rejected (req_name body) = true ->
    SelectRun body w (Ok tt) (record name_required w) [name_required]
| select_not_found w1 evs1 :
    name_rejected (req_name body) = false ->
    select_lookup_step (name_text (req_name body)) w w1 evs1 ->
    find_printer (name_text (req_name body)) (printers w1) = None ->
    SelectRun body w (Ok tt) (record printer_not_found w1) (evs1 ++ [printer_not_found])
| select_done finalPrinter w1 evs1 w2 evs2 :
    name_rejected (req_name body) = false ->
    select_lookup_step (name_text (req_name body)) w w1 evs1 ->
    find_printer (name_text (req_name body)) (printers w1) = Some finalPrinter ->
    selection_step (name finalPrinter) true false w1 w2 evs2 ->
    SelectRun body w (Ok tt)
      (record (EvResponse 200 (BodySelected (name finalPrinter))) w2)
      (evs1 ++ evs2 ++ [EvResponse 200 (BodySelected (name finalPrinter))]).

(** No answer was sent yet on the request that began at [since]. *)
Definition unanswered (since : nat) (w : World) : Prop :=
  (since <= List.length (trace w))%nat /\ headersSent since w = false.

(** How many answers were sent. *)
Definition responses (evs : list Event) : nat :=
  List.length (List.filter is_response evs).

(** A call of [print], and how many were made. *)
Definition is_print (e : Event) : bool :=
  match e with EvPrint _ _ _ => true | _ => false end.

Definition prints (evs : list Event) : nat :=
  List.length (List.filter is_print evs).

(** The radio items of a menu that are checked. *)
Definition is_checked (item : MenuItem) : bool :=
  match item with
  | Radio _ c => c
  | Disabled _ => false
  end.

Definition checked_items (items : list MenuItem) : nat :=
  List.length (List.filter is_checked items).

(** The value of the selection is the name of a cached printer. *)
Definition selection_listed (w : World) : bool :=
  match selectedPrinter (settings w) with
  | Some n => has_printer n (printers w)
  | None => false
  end.

End Vocabulary.

(** ** Reasoning about runs *)

(** *** The primitives on examples *)

Example trim_example : trim "  https://example.com/a.pdf " = "https://example.com/a.pdf".
Proof. reflexivity. Qed.

Example http_scheme_test_examples :
  http_scheme_test "HtTpS://example.com" = true /\
  http_scheme_test "http://x" = true /\
  http_scheme_test "ftp://x" = false /\
  http_scheme_test "not a url" = false /\
  http_scheme_test " http://x" = false.
Proof. repeat split. Qed.

Example ToString_examples :
  ToString (JNum 9007199254740993) = Ok "9007199254740992" /\
  ToString (JNum (2 ^ 64)) = Ok "18446744073709552000" /\
  ToString (JNum 999999999999999999999) = Ok "1e+21" /\
  ToString (JNum (2 ^ 70)) = Ok "1.1805916207174113e+21" /\
  ToString (JNum (- 10 ^ 22)) = Ok "-1e+22" /\
  ToString (JNum (2 ^ 1024 - 2 ^ 971)) = Ok "1.7976931348623157e+308" /\
  ToString (JNum (2 ^ 1024)) = Ok "Infinity" /\
  ToString (JDec false 25 1) = Ok "2.5" /\
  ToString (JDec true 15 0) = Ok "-0.15" /\
  ToString (JDec false 1 (-5)) = Ok "0.000001" /\
  ToString (JDec false 5 (-6)) = Ok "5e-7" /\
  ToString (JArr [JNum 1; JNull; JArr [JNum 2; JStr "x"]; JObj []]) = Ok "1,,2,x,[object Object]" /\
  ToString (JObj [("toString", JNum 0)]) = Throw "Cannot convert object to primitive value" /\
  ToString (JArr [JNum 1; JObj [("toString", JStr "x")]])
    = Throw "Cannot convert object to primitive value".
Proof. vm_compute. repeat split. Qed.

Example parseInt10_examples :
  parseInt10 (JNum 2) = Ok (Num 2) /\
  parseInt10 (JStr " 12px") = Ok (Num 12) /\
  parseInt10 (JStr "-3") = Ok (Num (-3)) /\
  parseInt10 (JNum 0) = Ok (Num 0) /\
  parseInt10 (JStr "many") = Ok NaN /\
  parseInt10 JUndefined = Ok NaN /\
  parseInt10 (JBool true) = Ok NaN /\
  parseInt10 (JArr [JNum 7; JNum 8]) = Ok (Num 7) /\
  parseInt10 (JStr "9007199254740993") = Ok (Num 9007199254740992) /\
  parseInt10 (JDec false 25 1) = Ok (Num 2) /\
  parseInt10 (JDec false 5 (-6)) = Ok (Num 5) /\
  parseInt10 (JNum (10 ^ 21)) = Ok (Num 1) /\
  parseInt10 (JObj []) = Ok NaN /\
  parseInt10 (JObj [("toString", JNum 0)]) = Throw "Cannot convert object to primitive value".
Proof. vm_compute. repeat split. Qed.

Example copies_option_examples :
  copies_option (JNum 2) = Ok (Some 2) /\
  copies_option (JStr "3") = Ok (Some 3) /\
  copies_option (JDec false 25 1) = Ok (Some 2) /\
  copies_option (JNum 0) = Ok None /\
  copies_option (JNum (-1)) = Ok None /\
  copies_option (JStr "many") = Ok None /\
  copies_option JNull = Ok None /\
  copies_option (JObj [("toString", JNum 0)]) = Throw "Cannot convert object to primitive value".
Proof. vm_compute. repeat split. Qed.

(** A request served from start to end: the office printer is cached and
    selected, the document is fetched, printed with two copies, and the
    directory removed. *)
Example print_handler_example :
  let run := print_handler Demo.env (Demo.print_request "https://example.com/a.pdf") Demo.ready in
  run.1 = Ok tt /\
  tmpfs run.2 = ∅ /\
  trace run.2 =
    [EvFetch "https://example.com/a.pdf" (Ok (mkResponse 200 (Ok Demo.pdf)));
     EvMkdtemp "/tmp/printer-ws-" (Ok "/tmp/printer-ws-abc123");
     EvWriteFile "/tmp/printer-ws-abc123/document.pdf" Demo.pdf None;
     EvPrint "/tmp/printer-ws-abc123/document.pdf" (mkPrintOptions "Office-Printer" (Some 2)) None;
     EvResponse 200 (BodyPrinted "Office-Printer");
     EvNotify "Sent document to Office Printer";
     EvRm "/tmp/printer-ws-abc123" None].
Proof. vm_compute. repeat split. Qed.

(** The same request when the system refuses to remove the directory: the
    200 is sent, the refusal is caught and logged, and the second answer
    the handler attempts throws; the directory is still there. *)
Example print_handler_refused_removal_example :
  let run := print_handler Demo.env_busy (Demo.print_request "https://example.com/a.pdf") Demo.ready in
  run.1 = Throw headers_sent_error /\
  tmpfs run.2 !! "/tmp/printer-ws-abc123" = Some Dir /\
  trace run.2 =
    [EvFetch "https://example.com/a.pdf" (Ok (mkResponse 200 (Ok Demo.pdf)));
     EvMkdtemp "/tmp/printer-ws-" (Ok "/tmp/printer-ws-abc123");
     EvWriteFile "/tmp/printer-ws-abc123/document.pdf" Demo.pdf None;
     EvPrint "/tmp/printer-ws-abc123/document.pdf" (mkPrintOptions "Office-Printer" (Some 2)) None;
     EvResponse 200 (BodyPrinted "Office-Printer");
     EvNotify "Sent document to Office Printer";
     EvRm "/tmp/printer-ws-abc123" (Some "EBUSY: resource busy or locked, rmdir");
     EvConsoleError "Print job failed" "EBUSY: resource busy or locked, rmdir"].
Proof. vm_compute. repeat split. Qed.

(** A [copies] that cannot be converted, in a process that has not listed
    its printers yet: the printer is found by a refresh, then line 290
    throws and the request is left without an answer. *)
Example print_handler_unconvertible_copies_example :
  let run := print_handler Demo.env
               (JObj [("url", JStr "https://example.com/a.pdf"); ("printerName", JStr "Zebra");
                      ("copies", JObj [("toString", JNum 0)])])
               (set_selectedPrinter (Some "Zebra") Demo.fresh) in
  run.1 = Throw "Cannot convert object to primitive value" /\
  trace run.2 =
    [EvGetPrinters (Ok [Demo.office; Demo.label]);
     EvTrayMenu "Printer: Zebra" [Radio "Office Printer" false; Radio "Zebra" true];
     EvNotify "Refreshed printers"].
Proof. vm_compute. repeat split. Qed.

(** *** Tactics *)

Ltac unfold_monad :=
  unfold emit, await, call, bind, ret, gets, modify, ask, throw, try_catch, try_finally,
    set_printers, set_selectedPrinter, set_tmpfs, tick, record;
  cbn [printers settings hiddenWindow tray tmpfs ticks trace
       selectedPrinter serverPort fst snd].

Ltac destruct_world w :=
  let ps := fresh "ps" in let st := fresh "st" in let hw := fresh "hw" in
  let tr := fresh "tr" in let fs := fresh "fs" in let n := fresh "n" in
  let log := fresh "log" in let sel := fresh "sel" in let port := fresh "port" in
  destruct w as [ps [sel port] hw tr fs n log].

(** *** Rules for runs *)

Lemma post_elim {A} (m : M A) w Q r w' evs :
  post m w Q -> runs m w r w' evs -> Q r w' evs.
Proof.
  intros (r0 & w0 & evs0 & [Hm Ht] & HQ) [Hm' Ht'].
  rewrite Hm in Hm'. injection Hm' as -> ->.
  rewrite Ht in Ht'. apply List.app_inv_head in Ht'. now subst.
Qed.

Lemma post_ret {A} (a : A) w (Q : Result A -> World -> list Event -> Prop) :
  Q (Ok a) w [] -> post (ret a) w Q.
Proof.
  intros HQ. exists (Ok a), w, []. repeat split; auto. now rewrite List.app_nil_r.
Qed.

Lemma post_throw {A} e w (Q : Result A -> World -> list Event -> Prop) :
  Q (Throw e) w [] -> post (throw e) w Q.
Proof.
  intros HQ. exists (Throw e), w, []. repeat split; auto. now rewrite List.app_nil_r.
Qed.

Lemma post_bind {A B} (m : M A) (k : A -> M B) w
    (Q : Result B -> World -> list Event -> Prop) :
  post m w (fun r1 w1 evs1 =>
              match r1 with
              | Ok a => post (k a) w1 (fun r w' evs2 => Q r w' (evs1 ++ evs2))
              | Throw e => Q (Throw e) w1 evs1
              end) ->
  post (bind m k) w Q.
Proof.
  intros (r1 & w1 & evs1 & [Hm Ht] & H). destruct r1 as [a | e].
  - destruct H as (r & w' & evs2 & [Hk Ht2] & HQ).
    exists r, w', (evs1 ++ evs2). repeat split; auto.
    + unfold bind. now rewrite Hm.
    + now rewrite Ht2, Ht, List.app_assoc.
  - exists (Throw e), w1, evs1. repeat split; auto.
    unfold bind. now rewrite Hm.
Qed.

Lemma post_try_catch {A} (m : M A) (h : string -> M A) w
    (Q : Result A -> World -> list Event -> Prop) :
  post m w (fun r1 w1 evs1 =>
              match r1 with
              | Ok a => Q (Ok a) w1 evs1
              | Throw e => post (h e) w1 (fun r w' evs2 => Q r w' (evs1 ++ evs2))
              end) ->
  post (try_catch m h) w Q.
Proof.
  intros (r1 & w1 & evs1 & [Hm Ht] & H). destruct r1 as [a | e].
  - exists (Ok a), w1, evs1. repeat split; auto.
    unfold try_catch. now rewrite Hm.
  - destruct H as (r & w' & evs2 & [Hk Ht2] & HQ).
    exists r, w', (evs1 ++ evs2). repeat split; auto.
    + unfold try_catch. now rewrite Hm.
    + now rewrite Ht2, Ht, List.app_assoc.
Qed.

Lemma post_try_finally {A} (m : M A) (f : M unit) w
    (Q : Result A -> World -> list Event -> Prop) :
  post m w (fun r1 w1 evs1 =>
              post f w1 (fun r2 w' evs2 =>
                           match r2 with
                           | Ok _ => Q r1 w' (evs1 ++ evs2)
                           | Throw e => Q (Throw e) w' (evs1 ++ evs2)
                           end)) ->
  post (try_finally m f) w Q.
Proof.
  intros (r1 & w1 & evs1 & [Hm Ht] & (r2 & w' & evs2 & [Hf Ht2] & HQ)).
  assert (Htr : trace w' = trace w ++ evs1 ++ evs2)
    by now rewrite Ht2, Ht, List.app_assoc.
  destruct r2 as [u | e].
  - exists r1, w', (evs1 ++ evs2). repeat split; auto.
    unfold try_finally. now rewrite Hm, Hf.
  - exists (Throw e), w', (evs1 ++ evs2). repeat split; auto.
    unfold try_finally. now rewrite Hm, Hf.
Qed.

Lemma post_eval {A} (m : M A) w (Q : Result A -> World -> list Event -> Prop) :
  outcome_post (trace w) Q (m w) -> post m w Q.
Proof.
  intros (evs & Ht & HQ). exists (m w).1, (m w).2, evs.
  repeat split; auto. now destruct (m w).
Qed.

Lemma post_gets {A} (f : World -> A) w (Q : Result A -> World -> list Event -> Prop) :
  Q (Ok (f w)) w [] -> post (gets f) w Q.
Proof. apply post_ret. Qed.

Lemma post_modify (f : World -> World) w (Q : Result unit -> World -> list Event -> Prop) :
  trace (f w) = trace w -> Q (Ok tt) (f w) [] -> post (modify f) w Q.
Proof.
  intros Ht HQ. exists (Ok tt), (f w), []. repeat split; auto.
  now rewrite List.app_nil_r.
Qed.

Lemma post_ask {A} (f : nat -> A) w (Q : Result A -> World -> list Event -> Prop) :
  Q (Ok (f (ticks w))) (tick w) [] -> post (ask f) w Q.
Proof.
  intros HQ. exists (Ok (f (ticks w))), (tick w), []. repeat split; auto.
  cbn. now rewrite List.app_nil_r.
Qed.

Lemma post_emit e w (Q : Result unit -> World -> list Event -> Prop) :
  Q (Ok tt) (record e w) [e] -> post (emit e) w Q.
Proof. intros HQ. exists (Ok tt), (record e w), [e]. repeat split; auto. Qed.

(** The events of a run are what it appended to the history. *)
Lemma post_trace {A} (m : M A) w (Q : Result A -> World -> list Event -> Prop) :
  post m w (fun r w' evs => trace w' = trace w ++ evs -> Q r w' evs) -> post m w Q.
Proof.
  intros (r & w' & evs & [Hm Ht] & HQ). exists r, w', evs. repeat split; auto.
Qed.

(** *** Answers *)

Lemma headersSent_start w : headersSent (List.length (trace w)) w = false.
Proof. unfold headersSent. now rewrite List.skipn_all. Qed.

Lemma headersSent_after since w w' evs :
  (since <= List.length (trace w))%nat -> headersSent since w = false ->
  trace w' = trace w ++ evs ->
  headersSent since w' = existsb is_response evs.
Proof.
  unfold headersSent. intros Hle Hnone Ht.
  rewrite Ht, List.skipn_app, List.existsb_app, Hnone.
  replace (since - List.length (trace w))%nat with 0%nat by lia. reflexivity.
Qed.

Lemma unanswered_start w : unanswered (List.length (trace w)) w.
Proof. split; [reflexivity | apply headersSent_start]. Qed.

Lemma unanswered_step since w w' evs :
  unanswered since w -> trace w' = trace w ++ evs -> existsb is_response evs = false ->
  unanswered since w'.
Proof.
  intros [Hle Hnone] Ht Hevs. split.
  - rewrite Ht, List.length_app. lia.
  - now rewrite (headersSent_after _ _ _ _ Hle Hnone Ht).
Qed.

Lemma answered_step since w w' evs :
  unanswered since w -> trace w' = trace w ++ evs -> existsb is_response evs = true ->
  headersSent since w' = true.
Proof.
  intros [Hle Hnone] Ht Hevs. now rewrite (headersSent_after _ _ _ _ Hle Hnone Ht).
Qed.

Lemma respond_post since code body w (Q : Result unit -> World -> list Event -> Prop) :
  unanswered since w ->
  Q (Ok tt) (record (EvResponse code body) w) [EvResponse code body] ->
  post (respond since code body) w Q.
Proof.
  intros [_ Hnone] HQ. unfold respond. apply post_bind, post_gets.
  rewrite Hnone. now apply post_emit.
Qed.

Lemma respond_again_post since code body w (Q : Result unit -> World -> list Event -> Prop) :
  headersSent since w = true ->
  Q (Throw headers_sent_error) w [] ->
  post (respond since code body) w Q.
Proof.
  intros Hsent HQ. unfold respond. apply post_bind, post_gets.
  rewrite Hsent. now apply post_throw.
Qed.

Lemma existsb_none {A} (f : A -> bool) (l : list A) :
  (forall x, In x l -> f x = false) -> existsb f l = false.
Proof.
  induction l as [| x l IH]; intros H; [reflexivity |].
  cbn. rewrite (H x (or_introl eq_refl)). apply IH. intros y Hy. apply H. now right.
Qed.

Ltac trace_eq :=
  cbn [trace];
  match goal with
  | |- _ = ?log ++ _ => repeat rewrite <- (List.app_assoc log)
  end;
  first [ reflexivity | symmetry; apply List.app_nil_r ].

(** Close a goal [outcome_post log Q (r, w')] whose run is fully
    evaluated, leaving [Q]. *)
Ltac found :=
  unfold outcome_post; cbn [fst snd]; eexists; split; [ trace_eq | ].

Ltac eval_run w :=
  apply post_eval; destruct_world w; unfold_monad.

(** Split on whatever test or oracle answer blocks the evaluation of a
    run. *)
Ltac case_run :=
  repeat (unfold_monad; cbn [negb];
          match goal with
          | |- context [match ?c with Some _ => _ | None => _ end] => destruct c eqn:?
          | |- context [match ?c with Ok _ => _ | Throw _ => _ end] => destruct c eqn:?
          | |- context [if ?c then _ else _] => destruct c eqn:?
          end);
  unfold_monad; cbn [negb].

Ltac simpl_world :=
  cbn [set_printers set_selectedPrinter set_tmpfs tick record
       printers settings hiddenWindow tray tmpfs ticks trace
       selectedPrinter serverPort List.app].

(** One step of a run in sequence: peel the first action of a [bind]. *)
Ltac wp_head :=
  lazymatch goal with
  | |- post (bind _ _) _ _ => apply post_bind; wp_head
  | |- post (gets _) _ _ => apply post_gets
  | |- post (modify _) _ _ => apply post_modify; [ reflexivity | ]
  | |- post (ask _) _ _ => apply post_ask
  | |- post (emit _) _ _ => apply post_emit
  | |- post (ret _) _ _ => apply post_ret
  | |- post (throw _) _ _ => apply post_throw
  | |- post (await ?r) _ _ => destruct r eqn:?; cbn [await]; wp_head
  | |- post (call ?r) _ _ => destruct r eqn:?; cbn [call]; wp_head
  | |- post (try_catch _ _) _ _ => apply post_try_catch; wp_head
  | |- post (try_finally _ _) _ _ => apply post_try_finally; wp_head
  end.

Ltac wp := repeat (wp_head; lazy beta iota; simpl_world).

Section Steps.

Variable E : Env.

Lemma notify_post body w (Q : Result unit -> World -> list Event -> Prop) :
  (forall evs, (evs = [] \/ evs = [EvNotify body]) ->
     Q (Ok tt) (mkWorld (printers w) (settings w) (hiddenWindow w) (tray w)
                  (tmpfs w) (ticks w) (trace w ++ evs)) evs) ->
  post (notify E body) w Q.
Proof.
  intros HQ. unfold notify. destruct (notifications_supported E).
  - apply post_emit. apply (HQ [EvNotify body]). auto.
  - apply post_ret. specialize (HQ [] (or_introl eq_refl)).
    rewrite List.app_nil_r in HQ. now destruct w.
Qed.

Lemma setSelectedPrinter_post printerName persist silent w
    (Q : Result unit -> World -> list Event -> Prop) :
  (forall w' evs, selection_step printerName persist silent w w' evs -> Q (Ok tt) w' evs) ->
  post (setSelectedPrinter E printerName persist silent) w Q.
Proof.
  intros HQ.
  unfold selection_step, same_shell, same_files in HQ.
  unfold setSelectedPrinter, persistSettings, updateTrayMenu, notify.
  eval_run w. cbn [printers settings hiddenWindow tray tmpfs trace selectedPrinter serverPort] in HQ.
  destruct (String.eqb printerName "" || bool_decide (sel = Some printerName)) eqn:Hnoop.
  - found. apply HQ. repeat split; auto.
  - destruct persist, silent; case_run;
      (found; apply HQ; cbn [forallb shell_event is_settings_write negb andb In List.app];
       repeat split; eauto; try discriminate; try (intros _ b; intuition congruence)).
Qed.

Lemma quiet_refl w : quiet_step w w.
Proof. repeat split. Qed.

Lemma quiet_trans w1 w2 w3 : quiet_step w1 w2 -> quiet_step w2 w3 -> quiet_step w1 w3.
Proof.
  unfold quiet_step, same_registry, same_shell, same_files.
  intros ((Ha & Hb) & (Hc & Hd) & He) ((Ha' & Hb') & (Hc' & Hd') & He').
  repeat split; congruence.
Qed.

Lemma notify_step body w (Q : Result unit -> World -> list Event -> Prop) :
  (forall w' evs, quiet_step w w' -> evs = [] \/ evs = [EvNotify body] -> Q (Ok tt) w' evs) ->
  post (notify E body) w Q.
Proof.
  intros HQ. apply notify_post. intros evs Hevs. apply HQ; auto. repeat split.
Qed.

Lemma updateTrayMenu_post w (Q : Result unit -> World -> list Event -> Prop) :
  (forall w' evs, quiet_step w w' ->
     evs = [] \/ (exists header items, evs = [EvTrayMenu header items]) ->
     Q (Ok tt) w' evs) ->
  post updateTrayMenu w Q.
Proof.
  intros HQ. unfold updateTrayMenu. wp.
  destruct (tray w); cbn [negb]; wp.
  - apply HQ; [repeat split | eauto].
  - apply HQ; [repeat split | auto].
Qed.

Lemma preferred_nonempty (ps : list Printer) :
  negb (Nat.eqb (List.length ps) 0) = true -> exists p, preferred ps = Some p.
Proof.
  unfold preferred. destruct (List.find isDefault ps); eauto.
  destruct ps; [discriminate | eauto].
Qed.

Lemma refresh_tail_post w (Q : Result (list Printer) -> World -> list Event -> Prop) :
  (forall w' evs, quiet_step w w' ->
     forallb shell_event evs = true -> no_settings_write evs ->
     (forall b, In (EvNotify b) evs -> b = "Refreshed printers") ->
     Q (Ok (printers w')) w' evs) ->
  post (updateTrayMenu;; notify E "Refreshed printers";; gets printers) w Q.
Proof.
  intros HQ. apply post_bind, updateTrayMenu_post. intros w1 evs1 Hq1 Hevs1.
  apply post_bind, notify_step. intros w2 evs2 Hq2 Hevs2. apply post_gets.
  apply HQ; [ eapply quiet_trans; eassumption | | | ];
    destruct Hevs1 as [-> | (h & items & ->)], Hevs2 as [-> | ->];
    try reflexivity; cbn; intuition congruence.
Qed.

Ltac use_quiet H :=
  let Hp := fresh "Hprinters" in let Hs := fresh "Hsettings" in
  let Hh := fresh "Hhidden" in let Ht := fresh "Htray" in let Hf := fresh "Hfiles" in
  destruct H as ((Hp & Hs) & (Hh & Ht) & Hf); unfold same_files in Hf;
  simpl_world; cbn [set_printers set_selectedPrinter set_tmpfs tick record
                    printers settings hiddenWindow tray tmpfs] in Hp, Hs, Hh, Ht, Hf.

Lemma refreshPrinters_post w (Q : Result (list Printer) -> World -> list Event -> Prop) :
  (forall w' evs, refresh_step E w w' evs -> Q (Ok (printers w')) w' evs) ->
  post (refreshPrinters E) w Q.
Proof.
  intros HQ. unfold refreshPrinters. wp.
  unfold refresh_step, same_shell, same_files in HQ.
  destruct (hiddenWindow w) eqn:Hhw; cbn [negb].
  2: { wp. apply HQ. repeat split; auto. }
  apply post_bind, post_try_catch. wp.
  - (* the enumeration resolved *)
    rename a into ps.
    destruct (nothing_selected (selectedPrinter (settings w)) && negb (Nat.eqb (List.length ps) 0)) eqn:Hauto.
    + apply andb_prop in Hauto as [Hnone Hlen].
      destruct (preferred_nonempty ps Hlen) as [p Hp]. rewrite Hp.
      apply setSelectedPrinter_post. intros w1 evs1 Hstep.
      apply refresh_tail_post. intros w2 evs2 Hq Hshell Hnw Hnotify.
      use_quiet Hq.
      destruct Hstep as (Hps & Hport & (Hh1 & Ht1) & Hf1 & Hsh1 & Hsilent & Hsel).
      unfold same_files in Hf1. simpl_world.
      cbn [set_printers tick record printers settings hiddenWindow tray tmpfs selectedPrinter serverPort]
        in Hps, Hport, Hh1, Ht1, Hf1, Hsel.
      apply HQ. rewrite ?Hhidden, ?Htray, ?Hfiles, ?Hsettings, ?Hprinters.
      split_and?; try congruence.
      exists (evs1 ++ evs2). split; [reflexivity |].
      split; [rewrite forallb_app, Hsh1, Hshell; reflexivity |].
      split.
      { intros b [Hb | Hb]%in_app_or; [ now apply (Hsilent eq_refl) in Hb | auto ]. }
      split; [congruence |].
      exists p. split; [exact Hp |].
      assert (Hnoop : bool_decide (selectedPrinter (settings w) = Some (name p)) = true ->
                      String.eqb (name p) "" = true).
      { intros Hd%bool_decide_eq_true. rewrite Hd in Hnone. exact Hnone. }
      destruct (String.eqb (name p) "") eqn:Hname; cbn [orb] in Hsel.
      * destruct Hsel as [Hw1 ->].
        split; [rewrite Hw1; reflexivity | exact Hnw].
      * destruct (bool_decide (selectedPrinter (settings w) = Some (name p))) eqn:Hd;
          [ now specialize (Hnoop eq_refl) |].
        destruct Hsel as (Hnew & fault & rest & -> & Hrest).
        split; [exact Hnew |]. exists fault, (rest ++ evs2).
        split; [reflexivity |]. unfold no_settings_write in *.
        now rewrite forallb_app, Hrest, Hnw.
    + wp. apply refresh_tail_post. intros w2 evs2 Hq Hshell Hnw Hnotify.
      use_quiet Hq. apply HQ. rewrite ?Hhidden, ?Htray, ?Hfiles, ?Hsettings, ?Hprinters.
      split_and?; auto. exists evs2. split_and?; auto.
  - (* the enumeration rejected *)
    rename message into e.
    apply refresh_tail_post. intros w2 evs2 Hq Hshell Hnw Hnotify.
    use_quiet Hq. apply HQ. rewrite ?Hhidden, ?Htray, ?Hfiles, ?Hsettings, ?Hprinters.
    split_and?; auto. exists (EvConsoleError "Failed to fetch printers" e :: evs2).
    split_and?; auto.
    + intros b [Hb | Hb]; [discriminate | auto].
    + now left.
Qed.

(** *** Files *)

Lemma remove_tree_below path p fs :
  below path p = true -> remove_tree path fs !! p = None.
Proof.
  intros Hb. unfold remove_tree. apply map_lookup_filter_None.
  right. intros x _. cbn. rewrite Hb. discriminate.
Qed.

Lemma remove_tree_other path p fs :
  below path p = false -> remove_tree path fs !! p = fs !! p.
Proof.
  intros Hb. unfold remove_tree.
  destruct (fs !! p) as [x |] eqn:Hp.
  - apply map_lookup_filter_Some. split; [exact Hp | exact Hb].
  - apply map_lookup_filter_None. now left.
Qed.

Lemma below_self path : below path path = true.
Proof. unfold below. now rewrite String.eqb_refl. Qed.

Lemma remove_some_other gone path p fs :
  below path p = false -> remove_some gone path fs !! p = fs !! p.
Proof.
  intros Hb. unfold remove_some.
  destruct (fs !! p) as [x |] eqn:Hp.
  - apply map_lookup_filter_Some. split; [exact Hp | cbn; now rewrite Hb].
  - apply map_lookup_filter_None. now left.
Qed.

Lemma remove_some_was_there gone path p fs x :
  remove_some gone path fs !! p = Some x -> fs !! p = Some x.
Proof. unfold remove_some. intros H. now apply map_lookup_filter_Some in H. Qed.

Lemma rm_post path w (Q : Result unit -> World -> list Event -> Prop) :
  (forall w' fault, same_registry w w' -> same_shell w w' ->
     match fault with
     | None => tmpfs w' = remove_tree path (tmpfs w)
     | Some _ => exists gone, tmpfs w' = remove_some gone path (tmpfs w)
     end ->
     Q (match fault with None => Ok tt | Some e => Throw e end) w' [EvRm path fault]) ->
  post (rm E path) w Q.
Proof.
  intros HQ. unfold rm. wp.
  destruct (rm_fault E (ticks w) path) as [e |] eqn:Hf; wp.
  - apply (HQ _ (Some e)); repeat split. eauto.
  - apply (HQ _ None); repeat split.
Qed.

Lemma print_post path opts w (Q : Result unit -> World -> list Event -> Prop) :
  (forall w' fault, quiet_step w w' ->
     Q (match fault with None => Ok tt | Some e => Throw e end) w' [EvPrint path opts fault]) ->
  post (print E path opts) w Q.
Proof.
  intros HQ. unfold print. wp.
  destruct (print_fault E (ticks w) path opts) as [e |] eqn:Hf; wp.
  - apply (HQ _ (Some e)). repeat split.
  - apply (HQ _ None). repeat split.
Qed.

Ltac rewrite_tests :=
  repeat match goal with
         | H : ?x = _ |- context [?x] => rewrite H
         end.

Lemma downloadPdf_post fileUrl w (Q : Result DownloadTask -> World -> list Event -> Prop) :
  (forall r w' evs, download_step E fileUrl w r w' evs -> Q r w' evs) ->
  post (downloadPdf E fileUrl) w Q.
Proof.
  intros HQ. unfold downloadPdf, mkdtemp, writeFile.
  apply post_eval. unfold download_step, same_registry, same_shell, same_files in HQ.
  destruct_world w. cbn [printers settings hiddenWindow tray tmpfs ticks] in HQ.
  case_run; (found; apply HQ; rewrite_tests; cbn [negb]; split_and?; reflexivity).
Qed.

Lemma mkdtemp_outcome_fresh r fs pfx dir :
  mkdtemp_outcome r fs pfx = Ok dir -> fs !! dir = None.
Proof.
  unfold mkdtemp_outcome. destruct r as [suffix | e]; [| discriminate].
  destruct (fs !! (pfx ++ suffix)%string) eqn:Hfs; [discriminate |].
  now intros [= <-].
Qed.

Lemma length_nonzero {A} (l : list A) : Nat.eqb (List.length l) 0 = false -> l <> [].
Proof. now destruct l. Qed.

Lemma download_step_run fileUrl w r w' evs :
  download_step E fileUrl w r w' evs -> DownloadRun E fileUrl w r w' evs.
Proof.
  unfold download_step. intros (_ & _ & H).
  destruct (negb (fetch_available E)).
  { destruct H as (-> & -> & Hf). constructor; [exact Hf | intros ev []]. }
  cbv zeta in H.
  destruct (fetch E (ticks w) fileUrl) as [response | e] eqn:Hfetch.
  2: { destruct H as (-> & -> & Hf). constructor; [exact Hf |].
       intros ev [<- | []]. left. eauto. }
  destruct (negb (resp_ok response)) eqn:Hok.
  { destruct H as (-> & -> & Hf). constructor; [exact Hf |].
    intros ev [<- | []]. left. eauto. }
  apply negb_false_iff in Hok.
  destruct (resp_body response) as [buffer | e] eqn:Hbody.
  2: { destruct H as (-> & -> & Hf). constructor; [exact Hf |].
       intros ev [<- | []]. left. eauto. }
  destruct (Nat.eqb (List.length buffer) 0) eqn:Hlen.
  { destruct H as (-> & -> & Hf). constructor; [exact Hf |].
    intros ev [<- | []]. left. eauto. }
  apply length_nonzero in Hlen.
  destruct (mkdtemp_outcome _ _ _) as [tempDir | e] eqn:Hmk.
  2: { destruct H as (-> & -> & Hf). constructor; [exact Hf |].
       intros ev [<- | [<- | []]]; [left | right]; eauto. }
  apply mkdtemp_outcome_fresh in Hmk.
  destruct H as (-> & H).
  destruct (writeFile_fault E _ _) as [e |]; destruct H as (-> & Htmp).
  - now apply download_unwritten.
  - now apply download_done.
Qed.

(** *** Availability *)

Lemma ensurePrinterAvailable_post targetPrinter w
    (Q : Result bool -> World -> list Event -> Prop) :
  (forall ready w' evs, ensure_step E targetPrinter w ready w' evs -> Q (Ok ready) w' evs) ->
  post (ensurePrinterAvailable E targetPrinter) w Q.
Proof.
  intros HQ. unfold ensurePrinterAvailable, ensure_step in *. wp.
  destruct (has_printer targetPrinter (printers w)) eqn:Hhas; wp.
  - apply HQ. auto.
  - apply post_bind, refreshPrinters_post. intros w1 evs1 Hstep. wp.
    rewrite List.app_nil_r. apply HQ. auto.
Qed.

(** *** The print job *)

Lemma failure_report_post since e w (Q : Result unit -> World -> list Event -> Prop) :
  unanswered since w ->
  (forall w' shell, quiet_step w w' ->
     maybe_notified ("Print failed: " ++ e)%string shell ->
     Q (Ok tt) w'
       (EvConsoleError "Print job failed" e :: EvResponse 500 (BodyError e) :: shell)) ->
  post (emit (EvConsoleError "Print job failed" e);;
        respond since 500 (BodyError e);;
        notify E ("Print failed: " ++ e)%string) w Q.
Proof.
  intros Hun HQ. wp. apply post_bind, respond_post.
  { apply (unanswered_step _ _ _ [EvConsoleError "Print job failed" e] Hun); reflexivity. }
  apply notify_step. intros w' shell Hq Hshell.
  apply HQ; [| exact Hshell]. use_quiet Hq. repeat split; assumption.
Qed.

Lemma refused_unanswered fileUrl (evd : list Event) :
  (forall ev, In ev evd ->
     (exists r, ev = EvFetch fileUrl r) \/ (exists pfx e', ev = EvMkdtemp pfx (Throw e'))) ->
  existsb is_response evd = false.
Proof.
  intros H. apply existsb_none. intros ev Hin.
  destruct (H ev Hin) as [(r & ->) | (pfx & e' & ->)]; reflexivity.
Qed.

Lemma download_unanswered fileUrl w r w' evs :
  DownloadRun E fileUrl w r w' evs -> existsb is_response evs = false.
Proof.
  intros Hrun. inversion Hrun; subst; [now apply (refused_unanswered fileUrl) | reflexivity..].
Qed.

Lemma maybe_notified_unanswered body shell :
  maybe_notified body shell -> existsb is_response shell = false.
Proof. now intros [-> | ->]. Qed.

Lemma print_job_post since fileUrl targetPrinter opts w
    (Q : Result unit -> World -> list Event -> Prop) :
  unanswered since w ->
  (forall r w' evs, same_registry w w' -> same_shell w w' ->
     JobRun E fileUrl targetPrinter opts w r w' evs -> Q r w' evs) ->
  post (print_job E since fileUrl targetPrinter opts) w Q.
Proof.
  intros Hun HQ. unfold print_job.
  apply post_try_catch, post_bind, post_trace, downloadPdf_post. intros rd wd evd Hstep Htrd.
  pose proof (download_step_run _ _ _ _ _ Hstep) as Hrun.
  pose proof (unanswered_step _ _ _ _ Hun Htrd (download_unanswered _ _ _ _ _ Hrun)) as Hund.
  destruct Hstep as ((Hps & Hst) & (Hhw & Htr) & _).
  destruct rd as [task | e].
  - inversion Hrun as [ | | response pfx tempDir data w0 Htmp Hok Hbody Hdata Htask ]; subst.
    cbn [filePath cleanup].
    apply post_try_finally, post_bind, post_trace, print_post. intros w1 fault Hq1 Htr1.
    assert (Hun1 : unanswered since w1) by (apply (unanswered_step _ _ _ _ Hund Htr1); reflexivity).
    use_quiet Hq1.
    destruct fault as [e |].
    + (* the spooler rejected the document *)
      apply post_trace, rm_post. intros w2 removal (Hps2 & Hst2) (Hhw2 & Htr2) Htmp2 Htrace2.
      assert (Hun2 : unanswered since w2)
        by (apply (unanswered_step _ _ _ _ Hun1 Htrace2); reflexivity).
      destruct removal as [e' |].
      * destruct Htmp2 as [gone Htmp2].
        apply failure_report_post; [exact Hun2 |]. intros w3 shell Hq3 Hshell. use_quiet Hq3.
        cbn [List.app].
        apply (HQ _ w3 _); [split; congruence | split; congruence |].
        apply job_print_failed_not_cleaned with (gone := gone) (wd := wd);
          [exact Htmp | congruence | exact Hshell].
      * apply failure_report_post; [exact Hun2 |]. intros w3 shell Hq3 Hshell. use_quiet Hq3.
        cbn [List.app].
        apply (HQ _ w3 _); [split; congruence | split; congruence |].
        apply job_print_failed with (wd := wd); [exact Htmp | congruence | exact Hshell].
    + apply post_bind, respond_post; [exact Hun1 |]. wp.
      apply post_trace, notify_step. intros w2 shell Hq2 Hshell Htr2. use_quiet Hq2.
      apply post_trace, rm_post. intros w3 removal (Hps3 & Hst3) (Hhw3 & Htr3) Htmp3 Htrace3.
      destruct removal as [e |].
      * (* the removal was refused after the 200 *)
        destruct Htmp3 as [gone Htmp3]. wp.
        apply post_bind, respond_again_post.
        { apply (answered_step since w1 _
                   (EvResponse 200 (BodyPrinted targetPrinter) :: shell
                      ++ [EvRm tempDir (Some e); EvConsoleError "Print job failed" e]) Hun1);
            [| reflexivity].
          cbn [trace record]. rewrite Htrace3, Htr2. cbn [trace record].
          now rewrite <- !List.app_assoc. }
        cbn [List.app]. rewrite ?List.app_nil_r.
        apply (HQ _ _ _); [split; cbn; congruence | split; cbn; congruence |].
        rewrite <- List.app_assoc. cbn [List.app].
        apply job_printed_not_cleaned with (gone := gone) (wd := wd);
          [exact Htmp | cbn; congruence |].
        rewrite <- Hps, <- Hprinters. exact Hshell.
      * cbn [List.app].
        apply (HQ _ w3 _); [split; congruence | split; congruence |].
        apply job_printed with (wd := wd); [exact Htmp | congruence |].
        rewrite <- Hps, <- Hprinters. exact Hshell.
  - apply failure_report_post; [exact Hund |]. intros w3 shell Hq3 Hshell. use_quiet Hq3.
    apply (HQ _ w3 _); [split; congruence | split; congruence |].
    apply job_download_failed with (wd := wd); [exact Hrun | congruence | exact Hshell].
Qed.

(** *** The /print handler *)

Lemma ensure_unanswered targetPrinter w ready w1 evs1 :
  ensure_step E targetPrinter w ready w1 evs1 -> existsb is_response evs1 = false.
Proof.
  unfold ensure_step. destruct (has_printer targetPrinter (printers w)).
  - now intros (_ & _ & ->).
  - intros (_ & _ & _ & _ & Hstep). destruct (hiddenWindow w).
    + destruct Hstep as (shell & -> & Hshell & _). cbn [existsb is_response orb].
      apply existsb_none. intros ev Hin. rewrite forallb_forall in Hshell.
      apply Hshell in Hin. now destruct ev.
    + now destruct Hstep as [_ ->].
Qed.

Lemma print_handler_post body w (Q : Result unit -> World -> list Event -> Prop) :
  (forall r w' evs, PrintRun E body w r w' evs -> Q r w' evs) ->
  post (print_handler E body) w Q.
Proof.
  intros HQ. unfold print_handler. wp.
  pose proof (unanswered_start w) as Hun.
  fold (req_url body) (req_printerName body) (req_copies body).
  destruct (req_url body) as [ | | b | z | neg ds pt | s | l | f ] eqn:Hurl;
    cbn [is_string negb]; rewrite ?orb_true_r;
    try (apply respond_post; [exact Hun |]; apply HQ; apply print_bad_url; now rewrite Hurl).
  rewrite orb_false_r. cbn [truthy]. rewrite negb_involutive.
  destruct (String.eqb s "") eqn:Hs.
  { apply respond_post; [exact Hun |]. apply HQ. apply print_bad_url. rewrite Hurl.
    apply String.eqb_eq in Hs. now subst. }
  cbn [call_trim]. wp.
  destruct (negb (http_scheme_test (trim s))) eqn:Hscheme.
  { apply respond_post; [exact Hun |]. apply HQ. apply print_bad_url. now rewrite Hurl. }
  assert (Hvalid : url_rejected (req_url body) = false) by now rewrite Hurl.
  wp.
  destruct (js_or (js_or (req_printerName body)
                     (js_of_selected (selectedPrinter (settings w)))) (JStr ""))
    as [ | | | | | t | | ] eqn:Htarget;
    cbn [call_trim]; wp;
    try (apply HQ; apply print_type_error; [exact Hvalid | unfold resolve_target; now rewrite Htarget]).
  assert (Hres : resolve_target (req_printerName body) (selectedPrinter (settings w)) = Some (trim t))
    by (unfold resolve_target; now rewrite Htarget).
  destruct (String.eqb (trim t) "") eqn:Hempty.
  { apply respond_post; [exact Hun |]. apply String.eqb_eq in Hempty. rewrite Hempty in Hres.
    apply HQ. now apply print_no_printer. }
  apply String.eqb_neq in Hempty.
  apply post_bind, post_trace, ensurePrinterAvailable_post. intros ready w1 evs1 Hensure Htr1.
  pose proof (unanswered_step _ _ _ _ Hun Htr1 (ensure_unanswered _ _ _ _ _ Hensure)) as Hun1.
  destruct ready; cbn [negb].
  - destruct (parseInt10 (req_copies body)) as [copiesValue | e] eqn:Hparse; cbn [call]; wp.
    + assert (Hcopies : copies_option (req_copies body) = Ok (positive_copies copiesValue))
        by (unfold copies_option; now rewrite Hparse).
      apply print_job_post; [exact Hun1 |]. intros r w' evs2 Hreg Hshell Hjob.
      apply HQ. eapply print_dispatched; eauto.
      rewrite Hurl. exact Hjob.
    + assert (Hcopies : copies_option (req_copies body) = Throw e)
        by (unfold copies_option; now rewrite Hparse).
      rewrite List.app_nil_r. apply HQ. now apply print_copies_throw with (targetPrinter := trim t).
  - apply respond_post; [exact Hun1 |]. apply HQ.
    now apply print_unavailable with (targetPrinter := trim t).
Qed.

(** Every run of the handler is one of the six. *)
Lemma print_handler_run body w r w' evs :
  runs (print_handler E body) w r w' evs -> PrintRun E body w r w' evs.
Proof.
  apply (post_elim _ _ (PrintRun E body w)). apply print_handler_post. auto.
Qed.

End Steps.

(** ** Registry: selecting a printer *)



(** ** Discovery *)

Lemma refreshPrinters_run (E : Env) w r w' evs :
  runs (refreshPrinters E) w r w' evs ->
  r = Ok (printers w') /\ refresh_step E w w' evs.
Proof.
  apply (post_elim _ _ (fun r w' evs => r = Ok (printers w') /\ refresh_step E w w' evs)).
  apply refreshPrinters_post. auto.
Qed.

Lemma shell_not_enumeration shell r :
  forallb shell_event shell = true -> ~ In (EvGetPrinters r) shell.
Proof.
  intros Hall Hin. rewrite forallb_forall in Hall. now apply Hall in Hin.
Qed.

Lemma preferred_in (ps : list Printer) p : preferred ps = Some p -> In p ps.
Proof.
  unfold preferred. destruct (List.find isDefault ps) as [d |] eqn:Hfind.
  - intros [= <-]. now apply List.find_some in Hfind.
  - destruct ps as [| q qs]; [discriminate |]. intros [= <-]. now left.
Qed.




(** C8. When the enumeration rejects during a refresh, the rejection
    is logged, the refresh still returns the list it had, and neither the
    list nor the settings change. The list changes only when an enumeration
    resolved, and then it is exactly what the system reported. *)
Theorem refresh_failure_keeps_registry (E : Env) (w : World) r w' evs :
  runs (refreshPrinters E) w r w' evs ->
  (forall e, In (EvGetPrinters (Throw e)) evs ->
     printers w' = printers w /\ settings w' = settings w /\
     r = Ok (printers w) /\
     In (EvConsoleError "Failed to fetch printers" e) evs) /\
  (printers w' <> printers w ->
     exists ps, In (EvGetPrinters (Ok ps)) evs /\ printers w' = ps).
Proof.
  intros Hrun.
  apply refreshPrinters_run in Hrun as [-> (_ & _ & _ & Hstep)].
  destruct (hiddenWindow w).
  2: { destruct Hstep as [-> ->]. split; [intros e [] | congruence]. }
  destruct Hstep as (shell & -> & Hshell & _ & Hstep).
  split.
  - intros e [Hin | Hin]; [| now apply shell_not_enumeration in Hin].
    injection Hin as Hos. rewrite Hos in Hstep.
    destruct Hstep as (Hps & Hst & Hlog & _).
    rewrite Hps. split_and?; auto. now right.
  - intros Hchanged.
    destruct (getPrintersAsync E (ticks w)) as [ps | e].
    + exists ps. split; [now left | apply Hstep].
    + now destruct Hstep as (Hps & _).
Qed.

Lemma refresh_failure_keeps_registry_witness :
  let w' := (refreshPrinters Demo.env_no_enumeration Demo.ready).2 in
  printers w' = [Demo.office; Demo.label] /\
  settings w' = mkSettings (Some "Office-Printer") 3321 /\
  (refreshPrinters Demo.env_no_enumeration Demo.ready).1 = Ok [Demo.office; Demo.label] /\
  In (EvConsoleError "Failed to fetch printers" "enumeration failed") (trace w').
Proof.
  apply (proj1 (refresh_failure_keeps_registry Demo.env_no_enumeration Demo.ready
                  (refreshPrinters Demo.env_no_enumeration Demo.ready).1
                  (refreshPrinters Demo.env_no_enumeration Demo.ready).2
                  (trace (refreshPrinters Demo.env_no_enumeration Demo.ready).2)
                  ltac:(split; reflexivity))
           "enumeration failed").
  left. reflexivity.
Defined.

(** ** Document fetcher *)

Lemma downloadPdf_run (E : Env) fileUrl w r w' evs :
  runs (downloadPdf E fileUrl) w r w' evs -> download_step E fileUrl w r w' evs.
Proof.
  apply (post_elim _ _ (download_step E fileUrl w)).
  apply downloadPdf_post. auto.
Qed.

(** [rm] does not look at what is there: unless the system refuses the
    removal it resolves, whatever the state of the directory, and leaves
    nothing at or below it; when the system refuses, it rejects with the
    system's error. *)
Lemma rm_outcome (E : Env) path w :
  match rm_fault E (ticks w) path with
  | None =>
      exists w', rm E path w = (Ok tt, w') /\
        forall p, below path p = true -> tmpfs w' !! p = None
  | Some e => exists w', rm E path w = (Throw e, w')
  end.
Proof.
  unfold rm. unfold_monad. destruct (rm_fault E (ticks w) path) as [e |]; unfold_monad.
  - eexists. reflexivity.
  - eexists. split; [reflexivity |]. intros p Hp. cbn. now apply remove_tree_below.
Qed.

(** C4, as amended. [downloadPdf] rejects exactly when one of the
    listed causes holds or one of its other awaited calls rejects. When it
    resolves, the task holds the path of [document.pdf] in a directory that
    did not exist before and exists now with the body written in it, and
    its [cleanup] is [rm] of that directory: from any state, the directory
    already gone included, it resolves and leaves nothing at or below the
    directory, unless the system refuses the removal, in which case it
    rejects with the system's error. *)
Theorem downloadPdf_outcome (E : Env) (fileUrl : string) (w : World) r w' evs :
  runs (downloadPdf E fileUrl) w r w' evs ->
  ((exists e, r = Throw e) <->
     listed_failure E fileUrl w \/ request_rejected E fileUrl w \/
     body_unreadable E fileUrl w \/ temp_dir_refused E w \/ write_refused E w) /\
  (forall task, r = Ok task ->
     exists tempDir response data,
       filePath task = path_join tempDir "document.pdf" /\
       cleanup task = rm E tempDir /\
       fetch E (ticks w) fileUrl = Ok response /\ resp_body response = Ok data /\
       tmpfs w !! tempDir = None /\
       tmpfs w' = <[filePath task := File data]> (<[tempDir := Dir]> (tmpfs w)) /\
       forall w2,
         match rm_fault E (ticks w2) tempDir with
         | None =>
             exists w3, cleanup task w2 = (Ok tt, w3) /\
               forall p, below tempDir p = true -> tmpfs w3 !! p = None
         | Some e => exists w3, cleanup task w2 = (Throw e, w3)
         end).
Proof.
  intros Hrun. apply downloadPdf_run in Hrun.
  unfold download_step in Hrun. destruct Hrun as (_ & _ & H).
  unfold listed_failure, request_rejected, body_unreadable, temp_dir_refused,
    write_refused, temp_dir_outcome.
  destruct (fetch_available E); cbn [negb] in H.
  2: { destruct H as (-> & _). split; [| discriminate]. split; eauto. }
  cbv zeta in H.
  destruct (fetch E (ticks w) fileUrl) as [response | e] eqn:Hfetch.
  2: { destruct H as (-> & _). split; [| discriminate]. split; eauto 6. }
  destruct (resp_ok response) eqn:Hok; cbn [negb] in H.
  2: { destruct H as (-> & _). split; [| discriminate]. split; eauto 8. }
  destruct (resp_body response) as [buffer | e] eqn:Hbody.
  2: { destruct H as (-> & _). split; [| discriminate]. split; eauto 8. }
  destruct buffer as [| b buffer]; cbn [List.length Nat.eqb] in H.
  { destruct H as (-> & _). split; [| discriminate]. split; eauto 8. }
  destruct (mkdtemp_outcome _ _ _) as [tempDir | e] eqn:Hmk.
  2: { destruct H as (-> & _). split; [| discriminate]. split; eauto 8. }
  destruct H as (_ & H).
  destruct (writeFile_fault E _ _) as [e |] eqn:Hwrite; destruct H as (-> & Htmp).
  { split; [| discriminate]. split; eauto 10. }
  split.
  - split; [intros [e He]; discriminate |].
    intros [[Hf | (resp & [= <-] & [Hf | Hf])] | [(e & Hf) | [(resp & e & [= <-] & Hf) | [(e & Hf) | (d & e & [= <-] & Hf)]]]];
      congruence.
  - intros task [= <-]. cbn [filePath cleanup].
    exists tempDir, response, (b :: buffer). split_and?; auto.
    + now apply mkdtemp_outcome_fresh in Hmk.
    + intros w2. apply rm_outcome.
Qed.

Lemma downloadPdf_outcome_witness :
  let run := downloadPdf Demo.env "https://example.com/a.pdf" Demo.ready in
  ((exists e, run.1 = Throw e) <->
     listed_failure Demo.env "https://example.com/a.pdf" Demo.ready \/
     request_rejected Demo.env "https://example.com/a.pdf" Demo.ready \/
     body_unreadable Demo.env "https://example.com/a.pdf" Demo.ready \/
     temp_dir_refused Demo.env Demo.ready \/ write_refused Demo.env Demo.ready) /\
  (forall task, run.1 = Ok task ->
     exists tempDir response data,
       filePath task = path_join tempDir "document.pdf" /\
       cleanup task = rm Demo.env tempDir /\
       fetch Demo.env (ticks Demo.ready) "https://example.com/a.pdf" = Ok response /\
       resp_body response = Ok data /\
       tmpfs Demo.ready !! tempDir = None /\
       tmpfs run.2 = <[filePath task := File data]> (<[tempDir := Dir]> (tmpfs Demo.ready)) /\
       forall w2,
         match rm_fault Demo.env (ticks w2) tempDir with
         | None =>
             exists w3, cleanup task w2 = (Ok tt, w3) /\
               forall p, below tempDir p = true -> tmpfs w3 !! p = None
         | Some e => exists w3, cleanup task w2 = (Throw e, w3)
         end).
Proof.
  apply (downloadPdf_outcome Demo.env "https://example.com/a.pdf" Demo.ready
           (downloadPdf Demo.env "https://example.com/a.pdf" Demo.ready).1
           (downloadPdf Demo.env "https://example.com/a.pdf" Demo.ready).2
           (trace (downloadPdf Demo.env "https://example.com/a.pdf" Demo.ready).2)).
  split; reflexivity.
Defined.

(** C4 as the specification states it, with the listed causes as the
    only ones, fails: when the document cannot be written, none of the
    listed causes holds and yet [downloadPdf] rejects. *)
Lemma downloadPdf_listed_causes_incomplete :
  ~ (forall (E : Env) (fileUrl : string) (w : World) r w' evs,
       runs (downloadPdf E fileUrl) w r w' evs ->
       ((exists e, r = Throw e) <-> listed_failure E fileUrl w)).
Proof.
  intros H.
  specialize (H Demo.env_disk_full "https://example.com/a.pdf" Demo.ready
                (downloadPdf Demo.env_disk_full "https://example.com/a.pdf" Demo.ready).1
                (downloadPdf Demo.env_disk_full "https://example.com/a.pdf" Demo.ready).2
                (trace (downloadPdf Demo.env_disk_full "https://example.com/a.pdf" Demo.ready).2)
                ltac:(split; reflexivity)).
  destruct H as [H _].
  destruct H as [Hf | (response & Hfetch & Hbad)].
  - eexists. reflexivity.
  - discriminate Hf.
  - injection Hfetch as <-. destruct Hbad as [Hbad | Hbad]; discriminate Hbad.
Qed.

(** ** The /print pipeline *)

Lemma enumerations_app evs1 evs2 :
  enumerations (evs1 ++ evs2) = (enumerations evs1 + enumerations evs2)%nat.
Proof. unfold enumerations. now rewrite List.filter_app, List.length_app. Qed.

Lemma enumerations_none evs :
  (forall ev, In ev evs -> is_enumeration ev = false) -> enumerations evs = 0%nat.
Proof.
  unfold enumerations. induction evs as [| ev evs IH]; intros H; [reflexivity |].
  cbn. rewrite (H ev (or_introl eq_refl)). apply IH. intros ev' Hin. apply H. now right.
Qed.

Lemma shell_events_spec shell ev :
  forallb shell_event shell = true -> In ev shell -> shell_event ev = true.
Proof. intros Hall Hin. rewrite forallb_forall in Hall. auto. Qed.

Lemma maybe_notified_shell body shell ev :
  maybe_notified body shell -> In ev shell -> ev = EvNotify body.
Proof. intros [-> | ->] Hin; [destruct Hin | now destruct Hin as [<- | []]]. Qed.

Section Pipeline.

Variable E : Env.

Lemma print_handler_classified body w :
  exists r w' evs, runs (print_handler E body) w r w' evs /\ PrintRun E body w r w' evs.
Proof. apply print_handler_post. auto. Qed.

(** What the availability check leaves behind. *)
Lemma ensure_step_facts targetPrinter w ready w1 evs1 :
  ensure_step E targetPrinter w ready w1 evs1 ->
  tmpfs w1 = tmpfs w /\
  ready = has_printer targetPrinter (printers w1) /\
  if has_printer targetPrinter (printers w) then evs1 = []
  else if hiddenWindow w
       then exists shell,
           evs1 = EvGetPrinters (getPrintersAsync E (ticks w)) :: shell /\
           forallb shell_event shell = true
       else evs1 = [].
Proof.
  unfold ensure_step. destruct (has_printer targetPrinter (printers w)) eqn:Hhas.
  - intros (-> & -> & ->). auto.
  - intros (-> & _ & Hfiles & _ & Hstep). split; [exact Hfiles |]. split; [reflexivity |].
    destruct (hiddenWindow w).
    + destruct Hstep as (shell & -> & Hshell & _). eauto.
    + now destruct Hstep as [_ ->].
Qed.

Lemma ensure_events targetPrinter w ready w1 evs1 ev :
  ensure_step E targetPrinter w ready w1 evs1 -> In ev evs1 -> registry_event ev = true.
Proof.
  intros Hstep Hin. apply ensure_step_facts in Hstep as (_ & _ & Hevs).
  destruct (has_printer targetPrinter (printers w)); [subst; destruct Hin |].
  destruct (hiddenWindow w); [| subst; destruct Hin].
  destruct Hevs as (shell & -> & Hshell). destruct Hin as [<- | Hin]; [reflexivity |].
  unfold registry_event. rewrite (shell_events_spec _ _ Hshell Hin). apply orb_true_r.
Qed.

(** A download that rejected before creating anything emitted only the
    request and, at most, the refused directory creation. *)
Lemma refused_events fileUrl (evd : list Event) ev :
  (forall ev, In ev evd ->
     (exists r, ev = EvFetch fileUrl r) \/ (exists pfx e', ev = EvMkdtemp pfx (Throw e'))) ->
  In ev evd ->
  is_enumeration ev = false /\
  (forall p d f, ev <> EvWriteFile p d f) /\
  (forall p f, ev <> EvRm p f) /\
  (forall p o f, ev <> EvPrint p o f) /\
  (forall c b, ev <> EvResponse c b) /\
  (forall pfx d, ev <> EvMkdtemp pfx (Ok d)).
Proof.
  intros H Hin. destruct (H ev Hin) as [(r & ->) | (pfx & e' & ->)];
    split_and?; try reflexivity; intros; discriminate.
Qed.

End Pipeline.

(** Decide where an event sits in a trace assembled from known pieces. *)
Ltac in_cases H :=
  repeat first
    [ apply List.in_app_or in H
    | progress cbn [In] in H
    | destruct H as [H | H] ];
  try discriminate H; try contradiction.

(** A download resolves exactly when its trace shows the document
    written. *)
Lemma downloadPdf_resolves_iff_written (E : Env) fileUrl w r w' evs :
  runs (downloadPdf E fileUrl) w r w' evs ->
  ((exists task, r = Ok task) <-> exists path data, In (EvWriteFile path data None) evs).
Proof.
  intros Hrun. apply downloadPdf_run, download_step_run in Hrun.
  inversion Hrun as [ e w0 evs0 Hfiles Hevs | e response pfx tempDir data w0 | response pfx tempDir data w0 ];
    subst; split.
  - intros [task Ht]. discriminate Ht.
  - intros (path & data & Hin).
    destruct (refused_events _ _ _ Hevs Hin) as (_ & Hw & _). now destruct (Hw path data None).
  - intros [task Ht]. discriminate Ht.
  - intros (path & data' & Hin). in_cases Hin.
  - intros _. exists (path_join tempDir "document.pdf"), data. cbn. auto.
  - intros _. eauto.
Qed.

(** Decide where an event sits in the trace of a print job. *)
Ltac in_job H Hnote :=
  in_cases H;
  try (apply (maybe_notified_shell _ _ _ Hnote) in H; try discriminate H).

(** C1, as amended. In every /print request whose download wrote the
    document (that is, whose fetch resolved:
    [downloadPdf_resolves_iff_written]), the handler then calls [print] on
    it and, whatever [print] answers, afterwards calls [rm] on the
    directory that was created for it. When that removal is not refused,
    nothing exists at or below the directory when the handler ends; when
    it is refused, the refusal is logged. *)
Theorem print_cleans_up_after_fetch (E : Env) (body : JsVal) (w : World) r w' evs
    (path : string) (data : list Byte.byte) :
  runs (print_handler E body) w r w' evs ->
  In (EvWriteFile path data None) evs ->
  exists tempDir pfx pre opts fault mid removal post,
    path = path_join tempDir "document.pdf" /\
    evs = pre ++ EvMkdtemp pfx (Ok tempDir) :: EvWriteFile path data None
              :: EvPrint path opts fault :: mid ++ EvRm tempDir removal :: post /\
    (removal = None ->
     tmpfs w' !! tempDir = None /\
     forall p, below tempDir p = true -> tmpfs w' !! p = None) /\
    (forall e, removal = Some e -> In (EvConsoleError "Print job failed" e) post).
Proof.
  intros Hrun Hin. apply print_handler_run in Hrun.
  inversion Hrun as [ msg Hurl | e Hurl Hres | Hurl Hres
                    | target w1 evs1 Hurl Hres Hne Hensure
                    | target w1 evs1 e Hurl Hres Hne Hensure Hcopies
                    | target w1 evs1 c r2 w2 evs2 Hurl Hres Hne Hensure Hcopies Hreg Hshell Hjob ];
    subst; try solve [in_cases Hin].
  - apply List.in_app_or in Hin as [Hin | Hin]; [| in_cases Hin].
    apply (ensure_events _ _ _ _ _ _ _ Hensure) in Hin. discriminate Hin.
  - apply (ensure_events _ _ _ _ _ _ _ Hensure) in Hin. discriminate Hin.
  - apply List.in_app_or in Hin as [Hin | Hin].
    { apply (ensure_events _ _ _ _ _ _ _ Hensure) in Hin. discriminate Hin. }
    inversion Hjob as [ e wd evd w0 shell Hdl Htmp Hnote
                      | response pfx tempDir data0 wd w0 shell Hwd Htmp Hnote
                      | e gone response pfx tempDir data0 wd w0 shell Hwd Htmp Hnote
                      | e response pfx tempDir data0 wd w0 shell Hwd Htmp Hnote
                      | e e' gone response pfx tempDir data0 wd w0 shell Hwd Htmp Hnote ]; subst.
    + (* the download rejected: no document was written *)
      exfalso. apply List.in_app_or in Hin as [Hin | Hin].
      * inversion Hdl as [ e0 w0 evs0 Hfiles Hevs | e0 response pfx tempDir data0 w0 | ]; subst.
        -- destruct (refused_events _ _ _ Hevs Hin) as (_ & Hw & _). now destruct (Hw path data None).
        -- in_cases Hin.
      * in_job Hin Hnote.
    + (* printed, directory removed *)
      in_job Hin Hnote. injection Hin as <- <-.
      exists tempDir, pfx, (evs1 ++ [EvFetch (url_text (req_url body)) (Ok response)]).
      exists (mkPrintOptions target c), None.
      exists (EvResponse 200 (BodyPrinted target) :: shell), None, [].
      split; [reflexivity |]. split_and?.
      * rewrite <- List.app_assoc. reflexivity.
      * intros _. rewrite Htmp. split; [apply remove_tree_below, below_self |].
        intros p Hp. now apply remove_tree_below.
      * discriminate.
    + (* printed, removal refused *)
      in_job Hin Hnote. injection Hin as <- <-.
      exists tempDir, pfx, (evs1 ++ [EvFetch (url_text (req_url body)) (Ok response)]).
      exists (mkPrintOptions target c), None.
      exists (EvResponse 200 (BodyPrinted target) :: shell), (Some e),
        [EvConsoleError "Print job failed" e].
      split; [reflexivity |]. split_and?.
      * rewrite <- List.app_assoc. reflexivity.
      * discriminate.
      * intros e0 [= <-]. now left.
    + (* the spooler rejected the document, directory removed *)
      in_job Hin Hnote. injection Hin as <- <-.
      exists tempDir, pfx, (evs1 ++ [EvFetch (url_text (req_url body)) (Ok response)]).
      exists (mkPrintOptions target c), (Some e).
      exists [], None, (EvConsoleError "Print job failed" e :: EvResponse 500 (BodyError e) :: shell).
      split; [reflexivity |]. split_and?.
      * rewrite <- List.app_assoc. reflexivity.
      * intros _. rewrite Htmp. split; [apply remove_tree_below, below_self |].
        intros p Hp. now apply remove_tree_below.
      * discriminate.
    + (* the spooler rejected the document, removal refused *)
      in_job Hin Hnote. injection Hin as <- <-.
      exists tempDir, pfx, (evs1 ++ [EvFetch (url_text (req_url body)) (Ok response)]).
      exists (mkPrintOptions target c), (Some e).
      exists [], (Some e'),
        (EvConsoleError "Print job failed" e' :: EvResponse 500 (BodyError e') :: shell).
      split; [reflexivity |]. split_and?.
      * rewrite <- List.app_assoc. reflexivity.
      * discriminate.
      * intros e0 [= <-]. now left.
Qed.

Ltac find_event := repeat first [ left; reflexivity | right ].

Lemma print_cleans_up_after_fetch_witness :
  let run := print_handler Demo.env_spooler_down (Demo.print_request "https://example.com/a.pdf") Demo.ready in
  exists tempDir pfx pre opts fault mid removal post,
    "/tmp/printer-ws-abc123/document.pdf" = path_join tempDir "document.pdf" /\
    trace run.2 =
      pre ++ EvMkdtemp pfx (Ok tempDir)
          :: EvWriteFile "/tmp/printer-ws-abc123/document.pdf" Demo.pdf None
          :: EvPrint "/tmp/printer-ws-abc123/document.pdf" opts fault
          :: mid ++ EvRm tempDir removal :: post /\
    (removal = None ->
     tmpfs run.2 !! tempDir = None /\
     forall p, below tempDir p = true -> tmpfs run.2 !! p = None) /\
    (forall e, removal = Some e -> In (EvConsoleError "Print job failed" e) post).
Proof.
  apply (print_cleans_up_after_fetch Demo.env_spooler_down
           (Demo.print_request "https://example.com/a.pdf") Demo.ready
           (print_handler Demo.env_spooler_down (Demo.print_request "https://example.com/a.pdf") Demo.ready).1
           (print_handler Demo.env_spooler_down (Demo.print_request "https://example.com/a.pdf") Demo.ready).2
           (trace (print_handler Demo.env_spooler_down (Demo.print_request "https://example.com/a.pdf") Demo.ready).2)).
  - split; vm_compute; reflexivity.
  - vm_compute. find_event.
Defined.

(** C1 as the specification states it, with the directory gone after
    every request whose fetch succeeded, fails: when the system refuses the
    removal (the document still in use), [cleanup] was called and the
    directory is still there when the request ends. *)
Lemma print_cleanup_refused_leaves_directory :
  ~ (forall (E : Env) (body : JsVal) (w : World) r w' evs path data pfx tempDir,
       runs (print_handler E body) w r w' evs ->
       In (EvWriteFile path data None) evs ->
       In (EvMkdtemp pfx (Ok tempDir)) evs ->
       tmpfs w' !! tempDir = None).
Proof.
  intros H.
  specialize (H Demo.env_busy (Demo.print_request "https://example.com/a.pdf") Demo.ready
                (print_handler Demo.env_busy (Demo.print_request "https://example.com/a.pdf") Demo.ready).1
                (print_handler Demo.env_busy (Demo.print_request "https://example.com/a.pdf") Demo.ready).2
                (trace (print_handler Demo.env_busy (Demo.print_request "https://example.com/a.pdf") Demo.ready).2)
                "/tmp/printer-ws-abc123/document.pdf" Demo.pdf
                "/tmp/printer-ws-" "/tmp/printer-ws-abc123").
  assert (Hleft : tmpfs (print_handler Demo.env_busy
                           (Demo.print_request "https://example.com/a.pdf") Demo.ready).2
                  !! "/tmp/printer-ws-abc123" = Some Dir) by (vm_compute; reflexivity).
  rewrite H in Hleft; [discriminate Hleft | | |].
  - split; vm_compute; reflexivity.
  - vm_compute. find_event.
  - vm_compute. find_event.
Qed.

(** C10. If the document cannot be written into the directory that
    [downloadPdf] has just created, then [downloadPdf] rejects with the
    write error: the request had resolved with a success status and a
    non-empty body, no task (and so no [cleanup]) is returned, and the
    directory exists afterwards. In a /print request where this happens,
    the handler answers 500 with that error, never calls [rm], and the
    directory still exists when it ends. *)
Theorem write_failure_leaves_temp_dir (E : Env) :
  (forall fileUrl w r w' evs path data e,
     runs (downloadPdf E fileUrl) w r w' evs ->
     In (EvWriteFile path data (Some e)) evs ->
     r = Throw e /\
     exists tempDir response pfx,
       path = path_join tempDir "document.pdf" /\
       evs = [EvFetch fileUrl (Ok response); EvMkdtemp pfx (Ok tempDir);
              EvWriteFile path data (Some e)] /\
       resp_ok response = true /\ resp_body response = Ok data /\ data <> [] /\
       tmpfs w !! tempDir = None /\ tmpfs w' !! tempDir = Some Dir) /\
  (forall body w r w' evs path data e,
     runs (print_handler E body) w r w' evs ->
     In (EvWriteFile path data (Some e)) evs ->
     exists tempDir pfx,
       path = path_join tempDir "document.pdf" /\
       In (EvMkdtemp pfx (Ok tempDir)) evs /\
       In (EvResponse 500 (BodyError e)) evs /\
       (forall p f, ~ In (EvRm p f) evs) /\
       tmpfs w' !! tempDir = Some Dir).
Proof.
  split.
  - intros fileUrl w r w' evs path data e Hrun Hin.
    apply downloadPdf_run, download_step_run in Hrun.
    inversion Hrun as [ e0 w0 evs0 Hfiles Hevs
                      | e0 response pfx tempDir data0 w0 Hfresh Htmp Hok Hbody Hdata
                      | response pfx tempDir data0 w0 ]; subst.
    + destruct (refused_events _ _ _ Hevs Hin) as (_ & Hw & _). now destruct (Hw path data (Some e)).
    + destruct Hin as [Hin | [Hin | [Hin | []]]]; try discriminate Hin.
      injection Hin as <- <- <-. split; [reflexivity |].
      exists tempDir, response, pfx. split_and?; auto.
      rewrite Htmp. apply lookup_insert_eq.
    + in_cases Hin.
  - intros body w r w' evs path data e Hrun Hin. apply print_handler_run in Hrun.
    inversion Hrun as [ msg Hurl | e1 Hurl Hres | Hurl Hres
                      | target w1 evs1 Hurl Hres Hne Hensure
                      | target w1 evs1 e1 Hurl Hres Hne Hensure Hcopies
                      | target w1 evs1 c r2 w2 evs2 Hurl Hres Hne Hensure Hcopies Hreg Hshell Hjob ];
      subst; try solve [in_cases Hin].
    + apply List.in_app_or in Hin as [Hin | Hin]; [| in_cases Hin].
      apply (ensure_events _ _ _ _ _ _ _ Hensure) in Hin. discriminate Hin.
    + apply (ensure_events _ _ _ _ _ _ _ Hensure) in Hin. discriminate Hin.
    + apply List.in_app_or in Hin as [Hin | Hin].
      { apply (ensure_events _ _ _ _ _ _ _ Hensure) in Hin. discriminate Hin. }
      inversion Hjob as [ e1 wd evd w0 shell Hdl Htmp Hnote
                        | response pfx tempDir data0 wd w0 shell Hwd Htmp Hnote
                        | e1 gone response pfx tempDir data0 wd w0 shell Hwd Htmp Hnote
                        | e1 response pfx tempDir data0 wd w0 shell Hwd Htmp Hnote
                        | e1 e' gone response pfx tempDir data0 wd w0 shell Hwd Htmp Hnote ];
        subst; try solve [exfalso; in_job Hin Hnote].
      apply List.in_app_or in Hin as [Hin | Hin]; [| exfalso; in_job Hin Hnote].
      inversion Hdl as [ e0 w0 evs0 Hfiles Hevs
                       | e0 response pfx tempDir data0 w0 Hfresh Hwd Hok Hbody Hdata | ]; subst.
      { destruct (refused_events _ _ _ Hevs Hin) as (_ & Hw & _). now destruct (Hw path data (Some e)). }
      destruct Hin as [Hin | [Hin | [Hin | []]]]; try discriminate Hin.
      injection Hin as <- <- <-.
      exists tempDir, pfx. split; [reflexivity |]. split_and?.
      * apply List.in_or_app. right. cbn. auto.
      * apply List.in_or_app. right. cbn. auto 10.
      * intros p f Hrm. apply List.in_app_or in Hrm as [Hrm | Hrm].
        { apply (ensure_events _ _ _ _ _ _ _ Hensure) in Hrm. discriminate Hrm. }
        in_job Hrm Hnote.
      * rewrite Htmp, Hwd. apply lookup_insert_eq.
Qed.

Lemma write_failure_leaves_temp_dir_witness :
  let run := print_handler Demo.env_disk_full (Demo.print_request "https://example.com/a.pdf") Demo.ready in
  exists tempDir pfx,
    "/tmp/printer-ws-abc123/document.pdf" = path_join tempDir "document.pdf" /\
    In (EvMkdtemp pfx (Ok tempDir)) (trace run.2) /\
    In (EvResponse 500 (BodyError "ENOSPC: no space left on device, write")) (trace run.2) /\
    (forall p f, ~ In (EvRm p f) (trace run.2)) /\
    tmpfs run.2 !! tempDir = Some Dir.
Proof.
  apply (proj2 (write_failure_leaves_temp_dir Demo.env_disk_full)
           (Demo.print_request "https://example.com/a.pdf") Demo.ready
           (print_handler Demo.env_disk_full (Demo.print_request "https://example.com/a.pdf") Demo.ready).1
           (print_handler Demo.env_disk_full (Demo.print_request "https://example.com/a.pdf") Demo.ready).2
           (trace (print_handler Demo.env_disk_full (Demo.print_request "https://example.com/a.pdf") Demo.ready).2)
           "/tmp/printer-ws-abc123/document.pdf" Demo.pdf).
  - split; vm_compute; reflexivity.
  - vm_compute. find_event.
Defined.

(** No event of a print job is an enumeration or a 4xx answer, and every
    [print] call carries the options of the job. *)
Lemma job_events {E fileUrl target opts w r w' evs} ev :
  JobRun E fileUrl target opts w r w' evs -> In ev evs ->
  is_enumeration ev = false /\
  (forall b, ev <> EvResponse 400 b) /\ (forall b, ev <> EvResponse 404 b) /\
  (forall p o f, ev = EvPrint p o f -> o = opts).
Proof.
  intros Hjob Hin.
  inversion Hjob as [ e wd evd w0 shell Hdl Htmp Hnote
                    | response pfx tempDir data wd w0 shell Hwd Htmp Hnote
                    | e gone response pfx tempDir data wd w0 shell Hwd Htmp Hnote
                    | e response pfx tempDir data wd w0 shell Hwd Htmp Hnote
                    | e e' gone response pfx tempDir data wd w0 shell Hwd Htmp Hnote ]; subst.
  - apply List.in_app_or in Hin as [Hin | Hin].
    + inversion Hdl as [ e0 w0 evs0 Hfiles Hevs | e0 response pfx tempDir data w0 | ]; subst.
      * destruct (refused_events _ _ _ Hevs Hin) as (Hen & _ & _ & Hp & Hr & _).
        split_and?; auto; intros; try apply Hr. now destruct (Hp p o f).
      * destruct Hin as [<- | [<- | [<- | []]]]; split_and?; try reflexivity; intros; discriminate.
    + in_cases Hin; try (apply (maybe_notified_shell _ _ _ Hnote) in Hin); subst;
        split_and?; try reflexivity; intros; discriminate.
  - in_cases Hin; try (apply (maybe_notified_shell _ _ _ Hnote) in Hin); subst;
      split_and?; try reflexivity; intros; try discriminate; congruence.
  - in_cases Hin; try (apply (maybe_notified_shell _ _ _ Hnote) in Hin); subst;
      split_and?; try reflexivity; intros; try discriminate; congruence.
  - in_cases Hin; try (apply (maybe_notified_shell _ _ _ Hnote) in Hin); subst;
      split_and?; try reflexivity; intros; try discriminate; congruence.
  - in_cases Hin; try (apply (maybe_notified_shell _ _ _ Hnote) in Hin); subst;
      split_and?; try reflexivity; intros; try discriminate; congruence.
Qed.




(** ** Validation of the request *)

(** C3, as amended. When [url] is missing, falsy or not a string, or
    when its text with the surrounding white space trimmed does not start
    with [http://] or [https://] in any letter case, the handler answers
    400 and does nothing else: the world is the one it started from plus
    that response, so no request was sent and no directory created. *)
Theorem print_rejects_invalid_url (E : Env) (body : JsVal) (w : World) :
  url_rejected (req_url body) = true ->
  exists msg,
    print_handler E body w = (Ok tt, record (EvResponse 400 (BodyError msg)) w).
Proof.
  intros Hbad.
  destruct (print_handler_classified E body w) as (r & w' & evs & [Hrun _] & Hcase).
  inversion Hcase; subst; try congruence. eauto.
Qed.

Lemma print_rejects_invalid_url_witness :
  exists msg,
    print_handler Demo.env (JObj [("url", JStr "ftp://x")]) Demo.ready
    = (Ok tt, record (EvResponse 400 (BodyError msg)) Demo.ready).
Proof.
  apply (print_rejects_invalid_url Demo.env (JObj [("url", JStr "ftp://x")]) Demo.ready).
  reflexivity.
Defined.

(** C3 as the specification states it fails: a [url] with white space
    in front of [https://] does not begin with the scheme, yet the handler
    trims it, downloads the document and answers 200. *)
Lemma print_accepts_padded_url :
  ~ (forall (E : Env) (body : JsVal) (w : World),
       url_rejected_as_stated (req_url body) = true ->
       exists msg,
         print_handler E body w = (Ok tt, record (EvResponse 400 (BodyError msg)) w)).
Proof.
  intros H.
  destruct (H Demo.env (JObj [("url", JStr " https://example.com/a.pdf")]) Demo.ready eq_refl)
    as [msg Hrun].
  apply (f_equal (fun x => List.length (trace x.2))) in Hrun.
  vm_compute in Hrun. discriminate Hrun.
Qed.

(** ** Copies *)

Lemma positive_copies_spec (x : JsNumber) (n : Z) :
  positive_copies x = Some n <-> x = Num n /\ 0 < n.
Proof.
  unfold positive_copies. destruct x as [ | z | | ]; cbn [isFinite gt0 andb].
  - split; [discriminate | intros [? _]; discriminate].
  - destruct (Z.ltb_spec 0 z) as [Hpos | Hneg]; split.
    + intros [= <-]. auto.
    + intros [[= <-] _]. reflexivity.
    + discriminate.
    + intros [[= <-] Hpos]. lia.
  - split; [discriminate | intros [? _]; discriminate].
  - split; [discriminate | intros [? _]; discriminate].
Qed.

(** C7, the divergence and what holds beside it. A [copies] that
    cannot be converted to a string (an object with a [toString] entry of
    its own, or an array holding one) makes [Number.parseInt] throw on
    line 290, outside the [try]: with a valid [url] and a cached printer
    the handler throws before it has answered or done anything. For every
    other [copies]: the option is set exactly when [Number.parseInt] of
    the field is a finite integer above zero, and then to that integer;
    every [print] call of the request carries it, and [print] is called
    whenever the document was written; and a request whose [copies] does
    not parse to such an integer runs exactly as the same request with the
    field left out. *)
Theorem print_copies_unconvertible_throws (E : Env) (body : JsVal) (w : World) :
  (forall t e,
     url_rejected (req_url body) = false ->
     resolve_target (req_printerName body) (selectedPrinter (settings w)) = Some t ->
     t <> "" -> has_printer t (printers w) = true ->
     ToString (req_copies body) = Throw e ->
     print_handler E body w = (Throw e, w)) /\
  (forall n, copies_option (req_copies body) = Ok (Some n) <->
             parseInt10 (req_copies body) = Ok (Num n) /\ 0 < n) /\
  (forall c r w' evs,
     copies_option (req_copies body) = Ok c ->
     runs (print_handler E body) w r w' evs ->
     (forall path opts fault, In (EvPrint path opts fault) evs -> copies opts = c) /\
     (forall path data, In (EvWriteFile path data None) evs ->
        exists opts fault, In (EvPrint path opts fault) evs /\ copies opts = c)) /\
  (copies_option (req_copies body) = Ok None ->
   forall body',
     req_url body' = req_url body ->
     req_printerName body' = req_printerName body ->
     req_copies body' = JUndefined ->
     print_handler E body' w = print_handler E body w).
Proof.
  split_and?.
  - intros t e Hurl Hres Hne Hcached Hthrow.
    assert (Hcopies : copies_option (req_copies body) = Throw e)
      by (unfold copies_option, parseInt10; now rewrite Hthrow).
    destruct (print_handler_classified E body w) as (r & w' & evs & [Hrun _] & Hcase).
    rewrite Hrun.
    inversion Hcase as [ msg Hurl' | e' Hurl' Hres' | Hurl' Hres'
                       | target w1 evs1 Hurl' Hres' Hne' Hensure
                       | target w1 evs1 e' Hurl' Hres' Hne' Hensure Hcopies'
                       | target w1 evs1 c r2 w2 evs2 Hurl' Hres' Hne' Hensure Hcopies' Hreg Hshell Hjob ];
      subst; try congruence.
    + assert (target = t) as -> by congruence.
      unfold ensure_step in Hensure. rewrite Hcached in Hensure. now destruct Hensure.
    + assert (target = t) as -> by congruence.
      unfold ensure_step in Hensure. rewrite Hcached in Hensure.
      destruct Hensure as (_ & -> & _). congruence.
  - intros n. unfold copies_option.
    destruct (parseInt10 (req_copies body)) as [x | e].
    + split.
      * intros [= H]. apply positive_copies_spec in H as [-> Hpos]. auto.
      * intros [[= ->] Hpos]. f_equal. apply positive_copies_spec. auto.
    + split; [discriminate | intros [? _]; discriminate].
  - intros c r w' evs Hcopies Hrun. apply print_handler_run in Hrun.
    inversion Hrun as [ msg Hurl | e Hurl Hres | Hurl Hres
                      | target w1 evs1 Hurl Hres Hne Hensure
                      | target w1 evs1 e Hurl Hres Hne Hensure Hcopies'
                      | target w1 evs1 c' r2 w2 evs2 Hurl Hres Hne Hensure Hcopies' Hreg Hshell Hjob ];
      subst; try (split; intros; in_cases H; fail).
    + split; intros;
        (apply List.in_app_or in H as [H | H]; [| in_cases H]);
        apply (ensure_events _ _ _ _ _ _ _ Hensure) in H; discriminate H.
    + congruence.
    + assert (c' = c) as -> by congruence.
      split.
      * intros path opts fault Hin. apply List.in_app_or in Hin as [Hin | Hin].
        { apply (ensure_events _ _ _ _ _ _ _ Hensure) in Hin. discriminate Hin. }
        apply (job_events _ Hjob) in Hin as (_ & _ & _ & Hopts).
        now rewrite (Hopts _ _ _ eq_refl).
      * intros path data Hin. apply List.in_app_or in Hin as [Hin | Hin].
        { apply (ensure_events _ _ _ _ _ _ _ Hensure) in Hin. discriminate Hin. }
        inversion Hjob as [ e wd evd w0 shell Hdl Htmp Hnote
                          | response pfx tempDir data0 wd w0 shell Hwd Htmp Hnote
                          | e gone response pfx tempDir data0 wd w0 shell Hwd Htmp Hnote
                          | e response pfx tempDir data0 wd w0 shell Hwd Htmp Hnote
                          | e e' gone response pfx tempDir data0 wd w0 shell Hwd Htmp Hnote ];
          subst.
        -- exfalso. apply List.in_app_or in Hin as [Hin | Hin]; [| in_job Hin Hnote].
           inversion Hdl as [ e0 w0 evs0 Hfiles Hevs | e0 response pfx tempDir data0 w0 | ]; subst.
           ++ destruct (refused_events _ _ _ Hevs Hin) as (_ & Hw & _).
              now destruct (Hw path data None).
           ++ in_cases Hin.
        -- in_job Hin Hnote. injection Hin as <- <-.
           exists (mkPrintOptions target c), None. split; [| reflexivity].
           apply List.in_or_app. right. cbn. auto.
        -- in_job Hin Hnote. injection Hin as <- <-.
           exists (mkPrintOptions target c), None. split; [| reflexivity].
           apply List.in_or_app. right. cbn. auto.
        -- in_job Hin Hnote. injection Hin as <- <-.
           exists (mkPrintOptions target c), (Some e). split; [| reflexivity].
           apply List.in_or_app. right. cbn. auto.
        -- in_job Hin Hnote. injection Hin as <- <-.
           exists (mkPrintOptions target c), (Some e). split; [| reflexivity].
           apply List.in_or_app. right. cbn. auto.
  - intros Hnone body' Hurl Hname Hcopies. unfold print_handler. cbv zeta.
    fold (req_url body) (req_printerName body) (req_copies body).
    fold (req_url body') (req_printerName body') (req_copies body').
    rewrite Hurl, Hname, Hcopies.
    unfold copies_option in Hnone.
    destruct (parseInt10 (req_copies body)) as [copiesValue | e]; [| discriminate].
    injection Hnone as Hnone.
    replace (parseInt10 JUndefined) with (Ok NaN : Result JsNumber) by reflexivity.
    cbv [call bind ret]. rewrite Hnone. reflexivity.
Qed.

Lemma print_copies_unconvertible_throws_witness :
  print_handler Demo.env
    (JObj [("url", JStr "http://example.com/a.pdf"); ("copies", JObj [("toString", JNum 0)])])
    Demo.ready
  = (Throw "Cannot convert object to primitive value", Demo.ready).
Proof.
  apply (proj1 (print_copies_unconvertible_throws Demo.env
                  (JObj [("url", JStr "http://example.com/a.pdf");
                         ("copies", JObj [("toString", JNum 0)])])
                  Demo.ready)
           "Office-Printer" "Cannot convert object to primitive value");
    [reflexivity | reflexivity | discriminate | reflexivity | reflexivity].
Defined.

(** ** Resolving the target printer *)

(** What line 279 resolves to when [printerName] is absent, falsy or a
    string: the trimmed [printerName] when it is a non-empty string, else
    the trimmed selection, else the empty string. *)
Lemma resolve_target_typed (printerName : JsVal) (sel : option string) :
  truthy printerName = false \/ is_string printerName = true ->
  resolve_target printerName sel =
    Some (match printerName with
          | JStr (String c s) => trim (String c s)
          | _ => match sel with
                 | Some (String c s) => trim (String c s)
                 | _ => ""
                 end
          end).
Proof.
  unfold resolve_target, js_or.
  intros [Hfalsy | Hstring].
  - rewrite Hfalsy.
    destruct printerName as [ | | b | z | neg ds pt | [| c s] | l | f ]; try discriminate Hfalsy;
      destruct sel as [[| c' s'] |]; reflexivity.
  - destruct printerName as [ | | b | z | neg ds pt | [| c s] | l | f ]; try discriminate Hstring;
      [destruct sel as [[| c' s'] |]; reflexivity | reflexivity].
Qed.

(** With a valid URL and no name to print to, the handler answers 400
    and does nothing else. *)
Lemma print_without_target (E : Env) (body : JsVal) (w : World) :
  url_rejected (req_url body) = false ->
  resolve_target (req_printerName body) (selectedPrinter (settings w)) = Some "" ->
  print_handler E body w = (Ok tt, record no_printer_selected w).
Proof.
  intros Hurl Hres.
  destruct (print_handler_classified E body w) as (r & w' & evs & [Hrun _] & Hcase).
  inversion Hcase; subst; congruence.
Qed.

(** C9, the failing input. A [printerName] that is truthy but not a
    string reaches [.trim()] unchecked: the handler throws a [TypeError]
    before it has answered or done anything, whatever the selection is.
    The sibling handler [/printers/select] rejects such a [name] with 400. *)
Theorem print_non_string_printerName_throws (E : Env) (w : World) :
  print_handler E (JObj [("url", JStr "http://example.com/a.pdf"); ("printerName", JNum 5)]) w
  = (Throw "(printerName || settings.selectedPrinter || '').trim is not a function", w)
  /\ select_handler E (JObj [("name", JNum 5)]) w
     = (Ok tt, record (EvResponse 400 (BodyError ("Printer " ++ dquote ++ "name" ++ dquote ++ " is required."))) w).
Proof.
  split; [reflexivity |].
  unfold select_handler, respond, bind, gets. cbn [get_prop js_or truthy assoc String.eqb Ascii.eqb Bool.eqb negb orb is_string Z.eqb].
  rewrite headersSent_start. reflexivity.
Qed.


(** ** Beyond /print: the rest of the registry, the other routes, start-up *)

(** *** Display names and the tray menu *)

(** X1. [getPrinterDisplayName] never returns the empty string: a
    matched printer with an empty [displayName] can only have been matched
    by its [name], which is then the non-empty name asked for. *)
Theorem getPrinterDisplayName_nonempty (printerName : option string) (ps : list Printer) :
  getPrinterDisplayName printerName ps <> "".
Proof.
  unfold getPrinterDisplayName. destruct printerName as [n |]; [| discriminate].
  destruct (String.eqb n "") eqn:Hn; [discriminate |].
  apply String.eqb_neq in Hn.
  destruct (List.find _ ps) as [p |] eqn:Hfind; [| exact Hn].
  apply List.find_some in Hfind as [_ Hmatch].
  unfold or_string. destruct (String.eqb (displayName p) "") eqn:Hd.
  - apply String.eqb_eq in Hd. rewrite Hd in Hmatch.
    apply orb_true_iff in Hmatch as [Hm | Hm]; apply String.eqb_eq in Hm; congruence.
  - now apply String.eqb_neq.
Qed.

Lemma has_printer_in n (ps : list Printer) :
  has_printer n ps = true <-> In n (List.map name ps).
Proof.
  unfold has_printer. rewrite List.existsb_exists, List.in_map_iff. split.
  - intros (p & Hin & Heq). apply String.eqb_eq in Heq. eauto.
  - intros (p & Heq & Hin). exists p. split; [exact Hin | now apply String.eqb_eq].
Qed.

Lemma checked_radio_count (sel : option string) (label : Printer -> string) (ps : list Printer) :
  List.NoDup (List.map name ps) ->
  checked_items (List.map (fun p => Radio (label p) (bool_decide (sel = Some (name p)))) ps)
  = if match sel with Some n => has_printer n ps | None => false end then 1%nat else 0%nat.
Proof.
  unfold checked_items. induction ps as [| p ps IH]; intros Hnd.
  - now destruct sel.
  - cbn [List.map] in Hnd. apply List.NoDup_cons_iff in Hnd as [Hfresh Hnd].
    specialize (IH Hnd). cbn [List.map List.filter is_checked].
    destruct (bool_decide (sel = Some (name p))) eqn:Hsel.
    + apply bool_decide_eq_true in Hsel. subst sel. cbn [List.length]. rewrite IH.
      assert (Hrest : has_printer (name p) ps = false).
      { destruct (has_printer (name p) ps) eqn:Hhas; [| reflexivity].
        now apply has_printer_in in Hhas. }
      rewrite Hrest. unfold has_printer. cbn. now rewrite String.eqb_refl.
    + rewrite IH. destruct sel as [n |]; [| reflexivity].
      apply bool_decide_eq_false in Hsel.
      unfold has_printer. cbn [List.existsb].
      assert (Hne : String.eqb (name p) n = false)
        by (apply String.eqb_neq; congruence).
      now rewrite Hne.
Qed.

(** X2. When the tray exists and the cached printers have distinct
    names, the menu [updateTrayMenu] builds has one radio item per printer
    (or the single disabled entry when there is none), and exactly one of
    them is checked when the selection is the name of a cached printer,
    none otherwise; the header shows the display name of the selection. *)
Theorem tray_menu_checks_selection (w : World) r w' evs (header : string)
    (items : list MenuItem) :
  runs updateTrayMenu w r w' evs ->
  In (EvTrayMenu header items) evs ->
  List.NoDup (List.map name (printers w)) ->
  header = ("Printer: " ++ getPrinterDisplayName (selectedPrinter (settings w)) (printers w))%string /\
  checked_items items = (if selection_listed w then 1 else 0)%nat /\
  (printers w = [] -> items = [Disabled "No printers detected"]) /\
  (printers w <> [] -> List.length items = List.length (printers w)).
Proof.
  intros [Hrun Htrace] Hin Hnd. unfold updateTrayMenu in Hrun.
  unfold emit, bind, ret, gets, modify in Hrun.
  destruct (tray w); cbn [negb] in Hrun.
  - injection Hrun as <- <-. cbn [trace] in Htrace.
    apply List.app_inv_head in Htrace. subst evs.
    destruct Hin as [Hin | []]. injection Hin as <- <-.
    split; [reflexivity |]. unfold selection_listed.
    destruct (printers w) as [| p ps] eqn:Hps.
    + split; [now destruct (selectedPrinter (settings w)) |]. split; [reflexivity | congruence].
    + split; [apply (checked_radio_count _ _ (p :: ps) Hnd) |].
      split; [discriminate |]. intros _. apply List.length_map.
  - injection Hrun as <- <-.
    rewrite <- (List.app_nil_r (trace w)) in Htrace at 1.
    apply List.app_inv_head in Htrace. subst evs. destruct Hin.
Qed.

Lemma tray_menu_checks_selection_witness :
  let run := updateTrayMenu Demo.ready in
  exists header items,
    trace run.2 = [EvTrayMenu header items] /\
    header = "Printer: Office Printer" /\
    checked_items items = 1%nat /\
    List.length items = 2%nat.
Proof.
  exists "Printer: Office Printer", [Radio "Office Printer" true; Radio "Zebra" false].
  split; [reflexivity |].
  destruct (tray_menu_checks_selection Demo.ready (updateTrayMenu Demo.ready).1
              (updateTrayMenu Demo.ready).2 (trace (updateTrayMenu Demo.ready).2)
              "Printer: Office Printer" [Radio "Office Printer" true; Radio "Zebra" false])
    as (Hheader & Hchecked & _ & Hlen).
  - split; vm_compute; reflexivity.
  - left. reflexivity.
  - repeat constructor; cbn; intuition discriminate.
  - split; [reflexivity |]. split; [exact Hchecked |]. apply Hlen. discriminate.
Defined.

(** *** Selection and the settings file *)

(** X3. A settings write that fails does not abort or undo a
    selection: [setSelectedPrinter] still returns normally with the new
    name selected in memory, the settings it tried to write are the new
    ones, and the failure is logged with [console.error]. *)
Theorem failed_settings_write_keeps_selection (E : Env) (printerName : string)
    (persist silent : bool) (w : World) r w' evs (s : Settings) (e : string) :
  runs (setSelectedPrinter E printerName persist silent) w r w' evs ->
  In (EvWriteSettings s (Some e)) evs ->
  r = Ok tt /\
  settings w' = mkSettings (Some printerName) (serverPort (settings w)) /\
  s = settings w' /\
  In (EvConsoleError "Failed to write settings:" e) evs.
Proof.
  intros Hrun. revert s e. pattern r, w', evs.
  eapply post_elim; [| exact Hrun]. clear Hrun.
  unfold setSelectedPrinter, persistSettings, updateTrayMenu, notify.
  eval_run w.
  destruct (String.eqb printerName "" || bool_decide (sel = Some printerName)) eqn:Hnoop.
  { found. intros s e []. }
  destruct persist, silent; case_run; found; intros s0 e0 Hin;
    cbn [In List.app] in Hin;
    repeat match goal with
           | H : _ \/ _ |- _ => destruct H
           | H : False |- _ => destruct H
           end;
    try congruence;
    match goal with
    | H : EvWriteSettings _ _ = EvWriteSettings _ _ |- _ => injection H as <- <-
    end;
    cbn; auto 10.
Qed.

Lemma failed_settings_write_keeps_selection_witness :
  let run := setSelectedPrinter Demo.env_settings_readonly "Zebra" true false Demo.ready in
  run.1 = Ok tt /\
  settings run.2 = mkSettings (Some "Zebra") 3321 /\
  mkSettings (Some "Zebra") 3321 = settings run.2 /\
  In (EvConsoleError "Failed to write settings:" "EACCES: permission denied") (trace run.2).
Proof.
  apply (failed_settings_write_keeps_selection Demo.env_settings_readonly "Zebra" true false
           Demo.ready
           (setSelectedPrinter Demo.env_settings_readonly "Zebra" true false Demo.ready).1
           (setSelectedPrinter Demo.env_settings_readonly "Zebra" true false Demo.ready).2
           (trace (setSelectedPrinter Demo.env_settings_readonly "Zebra" true false Demo.ready).2)
           (mkSettings (Some "Zebra") 3321) "EACCES: permission denied").
  - split; vm_compute; reflexivity.
  - left. reflexivity.
Defined.

(** *** Discovery *)

Lemma enumerations_shell_cons r shell :
  forallb shell_event shell = true -> enumerations (EvGetPrinters r :: shell) = 1%nat.
Proof.
  intros Hshell. change (enumerations (EvGetPrinters r :: shell)) with (S (enumerations shell)).
  rewrite enumerations_none; [reflexivity |].
  intros ev Hin. apply (shell_events_spec _ _ Hshell) in Hin. now destruct ev.
Qed.

(** X4. [refreshPrinters] never rejects, whatever the enumeration
    does: it resolves to the list the registry holds afterwards. It
    enumerates once when the hidden window exists and does nothing at all
    when it does not, and it never touches the temporary files. *)
Theorem refreshPrinters_never_rejects (E : Env) (w : World) r w' evs :
  runs (refreshPrinters E) w r w' evs ->
  r = Ok (printers w') /\
  tmpfs w' = tmpfs w /\
  (if hiddenWindow w then enumerations evs = 1%nat else w' = w /\ evs = []).
Proof.
  intros Hrun. apply refreshPrinters_run in Hrun as [-> (_ & Hfiles & _ & Hstep)].
  split; [reflexivity |]. split; [exact Hfiles |].
  destruct (hiddenWindow w); [| exact Hstep].
  destruct Hstep as (shell & -> & Hshell & _). now apply enumerations_shell_cons.
Qed.

Lemma refreshPrinters_never_rejects_witness :
  let run := refreshPrinters Demo.env_no_enumeration Demo.ready in
  run.1 = Ok (printers run.2) /\
  tmpfs run.2 = tmpfs Demo.ready /\
  enumerations (trace run.2) = 1%nat.
Proof.
  apply (refreshPrinters_never_rejects Demo.env_no_enumeration Demo.ready
           (refreshPrinters Demo.env_no_enumeration Demo.ready).1
           (refreshPrinters Demo.env_no_enumeration Demo.ready).2
           (trace (refreshPrinters Demo.env_no_enumeration Demo.ready).2)).
  split; vm_compute; reflexivity.
Defined.

(** X5. A refresh changes the selection in one way only: from nothing
    selected to the name of a printer of the list it has just fetched. In
    particular a selection that is no longer in the new list is kept. *)
Theorem refresh_selects_only_listed (E : Env) (w : World) r w' evs :
  runs (refreshPrinters E) w r w' evs ->
  settings w' = settings w \/
  (nothing_selected (selectedPrinter (settings w)) = true /\
   exists p, In p (printers w') /\ name p <> "" /\
             settings w' = mkSettings (Some (name p)) (serverPort (settings w))).
Proof.
  intros Hrun. apply refreshPrinters_run in Hrun as [_ (_ & _ & Hport & Hstep)].
  destruct (hiddenWindow w); [| destruct Hstep as [-> _]; now left].
  destruct Hstep as (shell & _ & _ & _ & Hstep).
  destruct (getPrintersAsync E (ticks w)) as [ps | e]; [| left; apply Hstep].
  destruct Hstep as [Hps Hsel].
  destruct (nothing_selected (selectedPrinter (settings w)) && negb (Nat.eqb (List.length ps) 0)) eqn:Hauto;
    [| left; apply Hsel].
  apply andb_prop in Hauto as [Hnone _].
  destruct Hsel as (p & Hp & Hsel).
  destruct (String.eqb (name p) "") eqn:Hname; [left; apply Hsel |].
  right. split; [exact Hnone |]. exists p. rewrite Hps.
  split; [now apply preferred_in |]. split; [now apply String.eqb_neq |].
  destruct Hsel as [Hnew _]. destruct (settings w'); cbn in *. congruence.
Qed.

Lemma refresh_selects_only_listed_witness :
  let run := refreshPrinters Demo.env_label_only Demo.ready in
  printers run.2 = [Demo.label] /\
  settings run.2 = mkSettings (Some "Office-Printer") 3321.
Proof.
  cbv zeta. split; [reflexivity |].
  destruct (refresh_selects_only_listed Demo.env_label_only Demo.ready
              (refreshPrinters Demo.env_label_only Demo.ready).1
              (refreshPrinters Demo.env_label_only Demo.ready).2
              (trace (refreshPrinters Demo.env_label_only Demo.ready).2)
              (conj eq_refl eq_refl)) as [Hsame | [Hnone _]].
  - exact Hsame.
  - discriminate Hnone.
Defined.

(** *** Availability *)

Lemma ensurePrinterAvailable_run (E : Env) targetPrinter w r w' evs :
  runs (ensurePrinterAvailable E targetPrinter) w r w' evs ->
  exists ready, r = Ok ready /\ ensure_step E targetPrinter w ready w' evs.
Proof.
  apply (post_elim _ _ (fun r w' evs =>
           exists ready, r = Ok ready /\ ensure_step E targetPrinter w ready w' evs)).
  apply ensurePrinterAvailable_post. eauto.
Qed.

(** X6. [ensurePrinterAvailable] never rejects and answers whether the
    printer is in the list the registry holds when it returns. A cached
    printer costs nothing: no enumeration, no event, no change. Otherwise
    the printers are enumerated at most once, and the temporary files are
    never touched. *)
Theorem ensurePrinterAvailable_answer (E : Env) (targetPrinter : string) (w : World)
    r w' evs :
  runs (ensurePrinterAvailable E targetPrinter) w r w' evs ->
  r = Ok (has_printer targetPrinter (printers w')) /\
  tmpfs w' = tmpfs w /\
  (enumerations evs <= 1)%nat /\
  (has_printer targetPrinter (printers w) = true -> w' = w /\ evs = []).
Proof.
  intros Hrun. apply ensurePrinterAvailable_run in Hrun as (ready & -> & Hstep).
  pose proof (ensure_step_facts _ _ _ _ _ _ Hstep) as (Hfiles & -> & Hevs).
  split; [reflexivity |]. split; [exact Hfiles |].
  unfold ensure_step in Hstep.
  destruct (has_printer targetPrinter (printers w)).
  - destruct Hstep as (_ & -> & ->). split; [cbn; lia | auto].
  - split; [| discriminate].
    destruct (hiddenWindow w).
    + destruct Hevs as (shell & -> & Hshell). rewrite enumerations_shell_cons; auto.
    + subst evs. cbn. lia.
Qed.

Lemma ensurePrinterAvailable_answer_witness :
  let run := ensurePrinterAvailable Demo.env "Zebra" Demo.fresh in
  run.1 = Ok (has_printer "Zebra" (printers run.2)) /\
  tmpfs run.2 = tmpfs Demo.fresh /\
  (enumerations (trace run.2) <= 1)%nat /\
  (has_printer "Zebra" (printers Demo.fresh) = true -> run.2 = Demo.fresh /\ trace run.2 = []).
Proof.
  apply (ensurePrinterAvailable_answer Demo.env "Zebra" Demo.fresh
           (ensurePrinterAvailable Demo.env "Zebra" Demo.fresh).1
           (ensurePrinterAvailable Demo.env "Zebra" Demo.fresh).2
           (trace (ensurePrinterAvailable Demo.env "Zebra" Demo.fresh).2)).
  split; vm_compute; reflexivity.
Defined.

(** *** /printers/select *)

Section Select.

Variable E : Env.

Lemma find_printer_some wanted ps p :
  find_printer wanted ps = Some p -> name p = wanted /\ has_printer wanted ps = true.
Proof.
  unfold find_printer. intros Hfind. apply List.find_some in Hfind as [Hin Heq].
  apply String.eqb_eq in Heq. split; [exact Heq |].
  apply has_printer_in. rewrite <- Heq. now apply List.in_map.
Qed.

Lemma find_printer_none wanted ps :
  find_printer wanted ps = None -> has_printer wanted ps = false.
Proof.
  unfold find_printer, has_printer. intros Hfind.
  destruct (List.existsb _ ps) eqn:Hex; [| reflexivity].
  apply List.existsb_exists in Hex as (p & Hin & Heq).
  now rewrite (List.find_none _ _ Hfind p Hin) in Heq.
Qed.

Lemma select_lookup_events wanted w w1 evs1 ev :
  select_lookup_step E wanted w w1 evs1 -> In ev evs1 -> registry_event ev = true.
Proof.
  unfold select_lookup_step. destruct (find_printer wanted (printers w)).
  - intros [_ ->] [].
  - intros (_ & _ & _ & Hstep) Hin. destruct (hiddenWindow w).
    + destruct Hstep as (shell & -> & Hshell & _).
      destruct Hin as [<- | Hin]; [reflexivity |].
      unfold registry_event. rewrite (shell_events_spec _ _ Hshell Hin). apply orb_true_r.
    + destruct Hstep as [_ ->]. destruct Hin.
Qed.

Lemma registry_unanswered (evs : list Event) :
  (forall ev, In ev evs -> registry_event ev = true) -> existsb is_response evs = false.
Proof.
  intros H. apply existsb_none. intros ev Hin. apply H in Hin. now destruct ev.
Qed.

Lemma shell_unanswered (shell : list Event) :
  forallb shell_event shell = true -> existsb is_response shell = false.
Proof.
  intros Hshell. apply existsb_none. intros ev Hin.
  apply (shell_events_spec _ _ Hshell) in Hin. now destruct ev.
Qed.

Lemma select_handler_post body w (Q : Result unit -> World -> list Event -> Prop) :
  (forall r w' evs, SelectRun E body w r w' evs -> Q r w' evs) ->
  post (select_handler E body) w Q.
Proof.
  intros HQ. unfold select_handler. wp.
  pose proof (unanswered_start w) as Hun.
  fold (req_name body).
  destruct (req_name body) as [ | | b | z | neg ds pt | s | l | f ] eqn:Hname;
    cbn [is_string negb]; rewrite ?orb_true_r;
    try (apply respond_post; [exact Hun |]; apply HQ; apply select_bad_name; now rewrite Hname).
  rewrite orb_false_r. cbn [truthy]. rewrite negb_involutive.
  destruct (String.eqb s "") eqn:Hs.
  { apply respond_post; [exact Hun |]. apply HQ. apply select_bad_name. now rewrite Hname. }
  assert (Hok : name_rejected (req_name body) = false) by now rewrite Hname.
  assert (Htext : name_text (req_name body) = trim s) by now rewrite Hname.
  cbn [call_trim]. wp.
  fold (find_printer (trim s) (printers w)).
  assert (Hlookup : forall (Q' : Result unit -> World -> list Event -> Prop),
            (forall w1 evs1, select_lookup_step E (trim s) w w1 evs1 ->
               trace w1 = trace w ++ evs1 -> Q' (Ok tt) w1 evs1) ->
            post (match find_printer (trim s) (printers w) with
                  | Some _ => ret tt
                  | None => refreshPrinters E;; ret tt
                  end) w Q').
  { intros Q' HQ'. apply post_trace. unfold select_lookup_step in HQ'.
    destruct (find_printer (trim s) (printers w)).
    - wp. intros Ht. apply HQ'; auto.
    - apply post_bind, refreshPrinters_post. intros w1 evs1 Hstep. wp.
      rewrite List.app_nil_r. intros Ht. now apply HQ'. }
  apply post_bind, Hlookup. intros w1 evs1 Hstep Htr1.
  pose proof (unanswered_step _ _ _ _ Hun Htr1
                (registry_unanswered _ (fun ev => select_lookup_events _ _ _ _ ev Hstep))) as Hun1.
  wp.
  fold (find_printer (trim s) (printers w1)).
  destruct (find_printer (trim s) (printers w1)) as [finalPrinter |] eqn:Hfind.
  - apply post_bind, post_trace, setSelectedPrinter_post. intros w2 evs2 Hsel Htr2.
    assert (Hun2 : unanswered (List.length (trace w)) w2).
    { apply (unanswered_step _ _ _ _ Hun1 Htr2). apply shell_unanswered, Hsel. }
    apply respond_post; [exact Hun2 |].
    apply HQ. apply select_done with (w1 := w1); rewrite ?Htext; auto.
  - apply respond_post; [exact Hun1 |].
    apply HQ. apply select_not_found; rewrite ?Htext; auto.
Qed.

Lemma select_handler_run body w r w' evs :
  runs (select_handler E body) w r w' evs -> SelectRun E body w r w' evs.
Proof.
  apply (post_elim _ _ (SelectRun E body w)). apply select_handler_post. auto.
Qed.

Lemma select_handler_classified body w :
  exists r w' evs, runs (select_handler E body) w r w' evs /\ SelectRun E body w r w' evs.
Proof. apply select_handler_post. auto. Qed.

End Select.

(** [trim] leaves nothing to trim. *)
Lemma trimStart_head s :
  trimStart s = "" \/ exists c r, trimStart s = String c r /\ is_white_space c = false.
Proof.
  induction s as [| c s IH]; [now left |].
  cbn [trimStart]. destruct (is_white_space c) eqn:Hc; [exact IH | right; eauto].
Qed.

Lemma trimEnd_head c r :
  is_white_space c = false -> trimEnd (String c r) = String c (trimEnd r).
Proof. intros Hc. cbn [trimEnd]. rewrite Hc. now destruct (trimEnd r). Qed.

Lemma trimEnd_idempotent s : trimEnd (trimEnd s) = trimEnd s.
Proof.
  induction s as [| c s IH]; [reflexivity |].
  cbn [trimEnd]. destruct (trimEnd s) as [| d t] eqn:Ht.
  - destruct (is_white_space c) eqn:Hc; [reflexivity |].
    cbn [trimEnd]. now rewrite Hc.
  - change (trimEnd (String c (String d t)))
      with (match trimEnd (String d t) with
            | EmptyString => if is_white_space c then EmptyString else String c EmptyString
            | rest' => String c rest'
            end).
    now rewrite IH.
Qed.

Lemma trim_idempotent s : trim (trim s) = trim s.
Proof.
  unfold trim. destruct (trimStart_head s) as [-> | (c & r & -> & Hc)]; [reflexivity |].
  rewrite (trimEnd_head _ _ Hc). cbn [trimStart]. rewrite Hc.
  rewrite <- (trimEnd_head _ _ Hc). apply trimEnd_idempotent.
Qed.

Lemma refresh_step_settings (E : Env) w w' evs :
  refresh_step E w w' evs ->
  nothing_selected (selectedPrinter (settings w)) = false ->
  settings w' = settings w.
Proof.
  intros (_ & _ & _ & Hstep) Hsel. destruct (hiddenWindow w); [| now destruct Hstep as [-> _]].
  destruct Hstep as (shell & _ & _ & _ & Hstep).
  destruct (getPrintersAsync E (ticks w)); [| apply Hstep].
  rewrite Hsel in Hstep. apply Hstep.
Qed.

Lemma refresh_step_enumerations (E : Env) w w' evs :
  refresh_step E w w' evs ->
  enumerations evs = if hiddenWindow w then 1%nat else 0%nat.
Proof.
  intros (_ & _ & _ & Hstep). destruct (hiddenWindow w).
  - destruct Hstep as (shell & -> & Hshell & _). now apply enumerations_shell_cons.
  - now destruct Hstep as [_ ->].
Qed.

(** X7. [/printers/select] answers 400 and does nothing else when
    [name] is missing, falsy or not a string. *)
Theorem select_rejects_missing_name (E : Env) (body : JsVal) (w : World) :
  name_rejected (req_name body) = true ->
  select_handler E body w = (Ok tt, record name_required w).
Proof.
  intros Hbad.
  destruct (select_handler_classified E body w) as (r & w' & evs & [Hrun _] & Hcase).
  inversion Hcase; subst; congruence.
Qed.

Lemma select_rejects_missing_name_witness :
  select_handler Demo.env (JObj [("name", JNum 7)]) Demo.ready
  = (Ok tt, record name_required Demo.ready).
Proof.
  apply (select_rejects_missing_name Demo.env (JObj [("name", JNum 7)]) Demo.ready).
  reflexivity.
Defined.

Lemma select_success_selects_listed_facts (E : Env) (body : JsVal) (w : World) r w' evs
    (n : string) :
  runs (select_handler E body) w r w' evs ->
  In (EvResponse 200 (BodySelected n)) evs ->
  n = name_text (req_name body) /\
  has_printer n (printers w') = true /\
  (n <> "" -> selectedPrinter (settings w') = Some n).
Proof.
  intros Hrun Hin. apply select_handler_run in Hrun.
  inversion Hrun as [ Hbad | w1 evs1 Hok Hlook Hfind
                    | finalPrinter w1 evs1 w2 evs2 Hok Hlook Hfind Hsel ]; subst.
  - in_cases Hin.
  - apply List.in_app_or in Hin as [Hin | Hin]; [| in_cases Hin].
    apply (select_lookup_events _ _ _ _ _ _ Hlook) in Hin. discriminate Hin.
  - apply find_printer_some in Hfind as [Hname Hhas].
    destruct Hsel as (Hps & _ & _ & _ & Hshell & _ & Hchange).
    apply List.in_app_or in Hin as [Hin | Hin].
    { apply (select_lookup_events _ _ _ _ _ _ Hlook) in Hin. discriminate Hin. }
    apply List.in_app_or in Hin as [Hin | Hin].
    { apply (shell_events_spec _ _ Hshell) in Hin. discriminate Hin. }
    destruct Hin as [Hin | []]. injection Hin as <-.
    split; [exact Hname |].
    split; [cbn [printers record]; rewrite Hps, Hname; exact Hhas |].
    intros Hne. cbn [settings record].
    destruct (String.eqb (name finalPrinter) "") eqn:Hempty;
      [apply String.eqb_eq in Hempty; contradiction |].
    cbn [orb] in Hchange.
    destruct (bool_decide (selectedPrinter (settings w1) = Some (name finalPrinter))) eqn:Hd.
    + destruct Hchange as [-> _]. now apply bool_decide_eq_true in Hd.
    + apply Hchange.
Qed.

(** X8. When [/printers/select] answers 200, the name it reports is
    the trimmed [name] of the request, it is the name of a printer in the
    list the registry then holds, and, unless that name is empty, it is the
    selection. *)
Theorem select_success_selects_listed (E : Env) (body : JsVal) (w : World) r w' evs
    (n : string) :
  runs (select_handler E body) w r w' evs ->
  In (EvResponse 200 (BodySelected n)) evs ->
  n = name_text (req_name body) /\ trim n = n /\
  has_printer n (printers w') = true /\
  (n <> "" -> selectedPrinter (settings w') = Some n).
Proof.
  intros Hrun Hin.
  destruct (select_success_selects_listed_facts E body w r w' evs n Hrun Hin)
    as (Hname & Hhas & Hsel).
  split; [exact Hname |]. split; [| auto].
  rewrite Hname. unfold name_text.
  destruct (req_name body); try reflexivity. apply trim_idempotent.
Qed.

Lemma select_success_selects_listed_witness :
  let run := select_handler Demo.env (JObj [("name", JStr " Zebra ")]) Demo.ready in
  "Zebra" = name_text (req_name (JObj [("name", JStr " Zebra ")])) /\ trim "Zebra" = "Zebra" /\
  has_printer "Zebra" (printers run.2) = true /\
  ("Zebra" <> "" -> selectedPrinter (settings run.2) = Some "Zebra").
Proof.
  apply (select_success_selects_listed Demo.env (JObj [("name", JStr " Zebra ")]) Demo.ready
           (select_handler Demo.env (JObj [("name", JStr " Zebra ")]) Demo.ready).1
           (select_handler Demo.env (JObj [("name", JStr " Zebra ")]) Demo.ready).2
           (trace (select_handler Demo.env (JObj [("name", JStr " Zebra ")]) Demo.ready).2)
           "Zebra").
  - split; vm_compute; reflexivity.
  - vm_compute. find_event.
Defined.

(** X9. Selecting again what [/printers/select] has just selected is
    idle work: the same request, run from the state the first one left,
    only sends the same 200 again: no enumeration, no settings write, no
    tray refresh, no notification. *)
Theorem select_twice_is_idle (E : Env) (body : JsVal) (w : World) r w' evs (n : string) :
  runs (select_handler E body) w r w' evs ->
  In (EvResponse 200 (BodySelected n)) evs ->
  select_handler E body w' = (Ok tt, record (EvResponse 200 (BodySelected n)) w').
Proof.
  intros Hrun Hin.
  assert (Hok : name_rejected (req_name body) = false).
  { apply select_handler_run in Hrun.
    inversion Hrun as [ Hbad | | ]; subst; [in_cases Hin | assumption | assumption]. }
  destruct (select_success_selects_listed_facts E body w r w' evs n Hrun Hin)
    as (-> & Hhas & Hsel).
  destruct (select_handler_classified E body w') as (r2 & w2 & evs2 & [Hrun2 _] & Hcase).
  rewrite Hrun2.
  destruct (find_printer (name_text (req_name body)) (printers w')) as [p |] eqn:Hp.
  2: { apply find_printer_none in Hp. congruence. }
  inversion Hcase as [ Hbad | w1 evs1 _ Hlook Hfind
                     | finalPrinter w1 evs1 w3 evs3 _ Hlook Hfind Hstep ]; subst; try congruence.
  - unfold select_lookup_step in Hlook. rewrite Hp in Hlook.
    destruct Hlook as [-> _]. congruence.
  - unfold select_lookup_step in Hlook. rewrite Hp in Hlook.
    destruct Hlook as [-> ->].
    apply find_printer_some in Hfind as [Hfp _].
    destruct Hstep as (_ & _ & _ & _ & _ & _ & Hchange).
    rewrite Hfp in Hchange |- *.
    assert (Hnoop : String.eqb (name_text (req_name body)) ""
                    || bool_decide (selectedPrinter (settings w') = Some (name_text (req_name body)))
                    = true).
    { destruct (String.eqb (name_text (req_name body)) "") eqn:Hempty; [reflexivity |].
      apply String.eqb_neq in Hempty. cbn [orb].
      apply bool_decide_eq_true. auto. }
    rewrite Hnoop in Hchange. now destruct Hchange as [-> ->].
Qed.

Lemma select_twice_is_idle_witness :
  let first := select_handler Demo.env (JObj [("name", JStr "Zebra")]) Demo.ready in
  select_handler Demo.env (JObj [("name", JStr "Zebra")]) first.2
  = (Ok tt, record (EvResponse 200 (BodySelected "Zebra")) first.2).
Proof.
  apply (select_twice_is_idle Demo.env (JObj [("name", JStr "Zebra")]) Demo.ready
           (select_handler Demo.env (JObj [("name", JStr "Zebra")]) Demo.ready).1
           (select_handler Demo.env (JObj [("name", JStr "Zebra")]) Demo.ready).2
           (trace (select_handler Demo.env (JObj [("name", JStr "Zebra")]) Demo.ready).2)
           "Zebra").
  - split; vm_compute; reflexivity.
  - vm_compute. find_event.
Defined.

(** X10. When [/printers/select] answers 404, the trimmed name was not
    cached, the printers were enumerated once (the hidden window
    existing), and the name is not in the list the registry holds
    afterwards. A selection that existed before the request is untouched;
    only when nothing was selected can the refresh have auto-selected a
    printer. *)
Theorem select_not_found_after_refresh (E : Env) (body : JsVal) (w : World) r w' evs :
  runs (select_handler E body) w r w' evs ->
  In printer_not_found evs ->
  has_printer (name_text (req_name body)) (printers w) = false /\
  has_printer (name_text (req_name body)) (printers w') = false /\
  enumerations evs = (if hiddenWindow w then 1 else 0)%nat /\
  tmpfs w' = tmpfs w /\
  (nothing_selected (selectedPrinter (settings w)) = false -> settings w' = settings w).
Proof.
  intros Hrun Hin. apply select_handler_run in Hrun.
  inversion Hrun as [ Hbad | w1 evs1 Hok Hlook Hfind
                    | finalPrinter w1 evs1 w2 evs2 Hok Hlook Hfind Hsel ]; subst.
  - in_cases Hin.
  - unfold select_lookup_step in Hlook.
    destruct (find_printer (name_text (req_name body)) (printers w)) as [p |] eqn:Hcached.
    { destruct Hlook as [-> _]. congruence. }
    apply find_printer_none in Hcached, Hfind.
    split; [exact Hcached |]. split; [exact Hfind |].
    split.
    { rewrite enumerations_app, (refresh_step_enumerations _ _ _ _ Hlook). cbn. lia. }
    split; [apply Hlook |].
    intros Hsel. cbn [settings record]. now apply (refresh_step_settings _ _ _ _ Hlook).
  - exfalso. destruct Hsel as (_ & _ & _ & _ & Hshell & _).
    apply List.in_app_or in Hin as [Hin | Hin].
    { apply (select_lookup_events _ _ _ _ _ _ Hlook) in Hin. discriminate Hin. }
    apply List.in_app_or in Hin as [Hin | Hin].
    { apply (shell_events_spec _ _ Hshell) in Hin. discriminate Hin. }
    in_cases Hin.
Qed.

Lemma select_not_found_after_refresh_witness :
  let run := select_handler Demo.env (JObj [("name", JStr "Plotter")]) Demo.ready in
  has_printer "Plotter" (printers Demo.ready) = false /\
  has_printer "Plotter" (printers run.2) = false /\
  enumerations (trace run.2) = 1%nat /\
  tmpfs run.2 = tmpfs Demo.ready /\
  (nothing_selected (selectedPrinter (settings Demo.ready)) = false ->
   settings run.2 = settings Demo.ready).
Proof.
  apply (select_not_found_after_refresh Demo.env (JObj [("name", JStr "Plotter")]) Demo.ready
           (select_handler Demo.env (JObj [("name", JStr "Plotter")]) Demo.ready).1
           (select_handler Demo.env (JObj [("name", JStr "Plotter")]) Demo.ready).2
           (trace (select_handler Demo.env (JObj [("name", JStr "Plotter")]) Demo.ready).2)).
  - split; vm_compute; reflexivity.
  - vm_compute. find_event.
Defined.

(** X11. A cached printer is selected without consulting the system,
    and the answer is 200 whatever becomes of the settings write: the
    request produces shell events and the 200 only, and the list of
    printers is as before. *)
Theorem select_cached_always_succeeds (E : Env) (body : JsVal) (w : World) r w' evs :
  runs (select_handler E body) w r w' evs ->
  name_rejected (req_name body) = false ->
  has_printer (name_text (req_name body)) (printers w) = true ->
  r = Ok tt /\ printers w' = printers w /\
  exists shell,
    evs = shell ++ [EvResponse 200 (BodySelected (name_text (req_name body)))] /\
    forallb shell_event shell = true.
Proof.
  intros Hrun Hok Hcached. apply select_handler_run in Hrun.
  assert (Hfound : exists p, find_printer (name_text (req_name body)) (printers w) = Some p).
  { destruct (find_printer (name_text (req_name body)) (printers w)) eqn:Hf; [eauto |].
    apply find_printer_none in Hf. congruence. }
  destruct Hfound as (p & Hp).
  inversion Hrun as [ Hbad | w1 evs1 _ Hlook Hfind
                    | finalPrinter w1 evs1 w2 evs2 _ Hlook Hfind Hsel ]; subst; try congruence.
  - unfold select_lookup_step in Hlook. rewrite Hp in Hlook.
    destruct Hlook as [-> _]. congruence.
  - unfold select_lookup_step in Hlook. rewrite Hp in Hlook. destruct Hlook as [-> ->].
    apply find_printer_some in Hfind as [Hname _].
    destruct Hsel as (Hps & _ & _ & _ & Hshell & _).
    split; [reflexivity |]. split; [exact Hps |].
    exists evs2. rewrite Hname. auto.
Qed.

Lemma select_cached_always_succeeds_witness :
  let run := select_handler Demo.env_settings_readonly (JObj [("name", JStr "Zebra")]) Demo.ready in
  run.1 = Ok tt /\ printers run.2 = printers Demo.ready /\
  exists shell,
    trace run.2 = shell ++ [EvResponse 200 (BodySelected "Zebra")] /\
    forallb shell_event shell = true.
Proof.
  apply (select_cached_always_succeeds Demo.env_settings_readonly
           (JObj [("name", JStr "Zebra")]) Demo.ready
           (select_handler Demo.env_settings_readonly (JObj [("name", JStr "Zebra")]) Demo.ready).1
           (select_handler Demo.env_settings_readonly (JObj [("name", JStr "Zebra")]) Demo.ready).2
           (trace (select_handler Demo.env_settings_readonly (JObj [("name", JStr "Zebra")]) Demo.ready).2)).
  - split; vm_compute; reflexivity.
  - reflexivity.
  - reflexivity.
Defined.

(** *** /printers/refresh and /status *)

Lemma copy_printers (ps : list Printer) :
  List.map (fun p => mkPrinter (name p) (displayName p) (description p) (status p) (isDefault p)) ps
  = ps.
Proof.
  induction ps as [| p ps IH]; [reflexivity |].
  cbn [List.map]. rewrite IH. now destruct p.
Qed.

Lemma refresh_step_list (E : Env) w w' evs :
  refresh_step E w w' evs ->
  (forall e, In (EvGetPrinters (Throw e)) evs -> printers w' = printers w) /\
  (forall ps, In (EvGetPrinters (Ok ps)) evs -> printers w' = ps).
Proof.
  intros (_ & _ & _ & Hstep). destruct (hiddenWindow w).
  2: { destruct Hstep as [_ ->]. split; intros ? []. }
  destruct Hstep as (shell & -> & Hshell & _ & Hstep).
  split.
  - intros e [Hin | Hin]; [| now apply shell_not_enumeration in Hin].
    injection Hin as Hos. rewrite Hos in Hstep. apply Hstep.
  - intros ps [Hin | Hin]; [| now apply shell_not_enumeration in Hin].
    injection Hin as Hos. rewrite Hos in Hstep. apply Hstep.
Qed.

(** X12. [/printers/refresh] always answers, and with the list the
    registry holds after the refresh: what the system reported when the
    enumeration resolved, the list as it was when the enumeration rejected.
    The handler itself never rejects. *)
Theorem refresh_route_always_answers (E : Env) (w : World) r w' evs :
  runs (refresh_handler E) w r w' evs ->
  r = Ok (printers w') /\
  (forall e, In (EvGetPrinters (Throw e)) evs -> r = Ok (printers w)) /\
  (forall ps, In (EvGetPrinters (Ok ps)) evs -> r = Ok ps).
Proof.
  intros Hrun. revert Hrun.
  apply (post_elim _ _ (fun r w' evs =>
           r = Ok (printers w') /\
           (forall e, In (EvGetPrinters (Throw e)) evs -> r = Ok (printers w)) /\
           (forall ps, In (EvGetPrinters (Ok ps)) evs -> r = Ok ps))).
  unfold refresh_handler. apply post_bind, refreshPrinters_post. intros w1 evs1 Hstep. wp.
  rewrite List.app_nil_r, copy_printers.
  destruct (refresh_step_list _ _ _ _ Hstep) as [Hfail Hdone].
  split; [reflexivity |]. split.
  - intros e Hin. now rewrite (Hfail e Hin).
  - intros ps Hin. now rewrite (Hdone ps Hin).
Qed.

Lemma refresh_route_always_answers_witness :
  let run := refresh_handler Demo.env_no_enumeration Demo.ready in
  run.1 = Ok (printers run.2) /\ run.1 = Ok [Demo.office; Demo.label].
Proof.
  destruct (refresh_route_always_answers Demo.env_no_enumeration Demo.ready
              (refresh_handler Demo.env_no_enumeration Demo.ready).1
              (refresh_handler Demo.env_no_enumeration Demo.ready).2
              (trace (refresh_handler Demo.env_no_enumeration Demo.ready).2)
              (conj eq_refl eq_refl)) as (Hlist & Hfail & _).
  split; [exact Hlist |].
  apply (Hfail "enumeration failed"). left. reflexivity.
Defined.

(** X13. After [/printers/select] has answered 200 for a non-empty
    name, [/status] reports that name as [selectedPrinter] and lists a
    printer of that name; serving [/status] changes neither the list nor
    the settings nor the files, and enumerates nothing. *)
Theorem status_reflects_selection (E : Env) (body : JsVal) (w : World) r w' evs
    (n host : string) (app : AppState) :
  runs (select_handler E body) w r w' evs ->
  In (EvResponse 200 (BodySelected n)) evs ->
  n <> "" ->
  exists sent w2 evs2,
    runs (status_handler E host app) w' (Ok sent) w2 evs2 /\
    status_selectedPrinter sent = Some n /\
    In n (List.map name (status_printers sent)) /\
    printers w2 = printers w' /\ settings w2 = settings w' /\ tmpfs w2 = tmpfs w' /\
    enumerations evs2 = 0%nat.
Proof.
  intros Hrun Hin Hne.
  destruct (select_success_selects_listed_facts E body w r w' evs n Hrun Hin)
    as (_ & Hhas & Hsel).
  specialize (Hsel Hne). apply has_printer_in in Hhas.
  unfold status_handler, notify, runs. unfold_monad. rewrite copy_printers.
  destruct (notifications_supported E); unfold_monad.
  - eexists _, _, [_]. split; [split; reflexivity |]. cbn. auto 10.
  - eexists _, _, []. split; [split; [reflexivity | now rewrite List.app_nil_r] |].
    cbn. auto 10.
Qed.

Lemma status_reflects_selection_witness :
  let first := select_handler Demo.env (JObj [("name", JStr "Zebra")]) Demo.ready in
  exists sent w2 evs2,
    runs (status_handler Demo.env "127.0.0.1" (mkAppState "Listening" 3321)) first.2 (Ok sent) w2 evs2 /\
    status_selectedPrinter sent = Some "Zebra" /\
    In "Zebra" (List.map name (status_printers sent)) /\
    printers w2 = printers first.2 /\ settings w2 = settings first.2 /\
    tmpfs w2 = tmpfs first.2 /\
    enumerations evs2 = 0%nat.
Proof.
  apply (status_reflects_selection Demo.env (JObj [("name", JStr "Zebra")]) Demo.ready
           (select_handler Demo.env (JObj [("name", JStr "Zebra")]) Demo.ready).1
           (select_handler Demo.env (JObj [("name", JStr "Zebra")]) Demo.ready).2
           (trace (select_handler Demo.env (JObj [("name", JStr "Zebra")]) Demo.ready).2)
           "Zebra" "127.0.0.1" (mkAppState "Listening" 3321)).
  - split; vm_compute; reflexivity.
  - vm_compute. find_event.
  - discriminate.
Defined.

(** *** More on /print *)

Lemma filter_none {A} (f : A -> bool) (l : list A) :
  (forall x, In x l -> f x = false) -> List.filter f l = [].
Proof.
  induction l as [| x l IH]; intros H; [reflexivity |].
  cbn. rewrite (H x (or_introl eq_refl)). apply IH. intros y Hy. apply H. now right.
Qed.

Lemma registry_events_silent evs :
  (forall ev, In ev evs -> registry_event ev = true) ->
  List.filter is_response evs = [] /\ List.filter is_print evs = [].
Proof.
  intros H. split; apply filter_none; intros ev Hin; apply H in Hin; now destruct ev.
Qed.

Lemma refused_silent fileUrl (evd : list Event) :
  (forall ev, In ev evd ->
     (exists r, ev = EvFetch fileUrl r) \/ (exists pfx e', ev = EvMkdtemp pfx (Throw e'))) ->
  List.filter is_response evd = [] /\ List.filter is_print evd = [].
Proof.
  intros H. split; apply filter_none; intros ev Hin;
    destruct (H ev Hin) as [(r & ->) | (pfx & e' & ->)]; reflexivity.
Qed.

(** A download that rejected sent no answer, printed nothing and removed
    nothing. *)
Lemma failed_download_events {E fileUrl w e wd evd} :
  DownloadRun E fileUrl w (Throw e) wd evd ->
  List.filter is_response evd = [] /\ List.filter is_print evd = [] /\
  forall ev, In ev evd ->
    (forall c b, ev <> EvResponse c b) /\ (forall p o f, ev <> EvPrint p o f) /\
    (forall p f, ev <> EvRm p f).
Proof.
  intros Hdl.
  inversion Hdl as [ e0 w0 evs0 Hfiles Hevs | e0 response pfx tempDir data w0 | ]; subst.
  - destruct (refused_silent _ _ Hevs) as [H1 H2]. split_and?; auto.
    intros ev Hin. destruct (refused_events _ _ _ Hevs Hin) as (_ & _ & Hrm & Hp & Hr & _).
    auto.
  - split_and?; try reflexivity.
    intros ev Hin. in_cases Hin; subst; split_and?; intros; discriminate.
Qed.

(** A print job answers once, with 200 or 500, and calls [print] at most
    once; it returns normally unless the removal of its directory was
    refused after the 200. *)
Lemma job_counts {E fileUrl target opts w r w' evs} :
  JobRun E fileUrl target opts w r w' evs ->
  responses evs = 1%nat /\ (prints evs <= 1)%nat /\
  (forall c b, In (EvResponse c b) evs -> c = 200 \/ c = 500) /\
  (r = Ok tt \/
   r = Throw headers_sent_error /\
   exists b dir e, In (EvResponse 200 b) evs /\ In (EvRm dir (Some e)) evs).
Proof.
  intros Hjob. unfold responses, prints.
  inversion Hjob as [ e wd evd w0 shell Hdl Htmp Hnote
                    | response pfx tempDir data wd w0 shell Hwd Htmp Hnote
                    | e gone response pfx tempDir data wd w0 shell Hwd Htmp Hnote
                    | e response pfx tempDir data wd w0 shell Hwd Htmp Hnote
                    | e e' gone response pfx tempDir data wd w0 shell Hwd Htmp Hnote ]; subst.
  - destruct (failed_download_events Hdl) as (Hr & Hp & Hnone).
    rewrite !List.filter_app, Hr, Hp.
    destruct Hnote as [-> | ->]; cbn; split_and?; try lia; auto;
      intros c b Hin; apply List.in_app_or in Hin as [Hin | Hin];
        try (apply Hnone in Hin as (Hin & _); now destruct (Hin c b));
        in_cases Hin; injection Hin as <- _; auto.
  - destruct Hnote as [-> | ->]; cbn; split_and?; try lia; auto;
      intros c b Hin; in_cases Hin; injection Hin as <- _; auto.
  - destruct Hnote as [-> | ->]; cbn; split_and?; try lia;
      try (intros c b Hin; in_cases Hin; injection Hin as <- _; auto);
      right; (split; [reflexivity |]);
      exists (BodyPrinted target), tempDir, e; cbn; auto 10.
  - destruct Hnote as [-> | ->]; cbn; split_and?; try lia; auto;
      intros c b Hin; in_cases Hin; injection Hin as <- _; auto.
  - destruct Hnote as [-> | ->]; cbn; split_and?; try lia; auto;
      intros c b Hin; in_cases Hin; injection Hin as <- _; auto.
Qed.

(** X14. Every /print request sends at most one response, of status
    200, 400, 404 or 500, and exactly one unless it throws. A request that
    throws has either sent nothing, printed nothing and left the temporary
    files alone (the exception of line 279 or of line 290), or it has
    answered 200 and the removal of its directory was then refused: the
    exception is that of the second answer the handler attempts. At most
    one [print] call is made per request: a failed print is not tried
    again. *)
Theorem print_answers_once (E : Env) (body : JsVal) (w : World) r w' evs :
  runs (print_handler E body) w r w' evs ->
  match r with
  | Ok _ => responses evs = 1%nat
  | Throw e =>
      (responses evs = 0%nat /\ prints evs = 0%nat /\ tmpfs w' = tmpfs w) \/
      (responses evs = 1%nat /\ e = headers_sent_error /\
       exists b dir e', In (EvResponse 200 b) evs /\ In (EvRm dir (Some e')) evs)
  end /\
  (prints evs <= 1)%nat /\
  (forall c b, In (EvResponse c b) evs -> c = 200 \/ c = 400 \/ c = 404 \/ c = 500).
Proof.
  intros Hrun. apply print_handler_run in Hrun.
  inversion Hrun as [ msg Hurl | e Hurl Hres | Hurl Hres
                    | target w1 evs1 Hurl Hres Hne Hensure
                    | target w1 evs1 e Hurl Hres Hne Hensure Hcopies
                    | target w1 evs1 k r2 w2 evs2 Hurl Hres Hne Hensure Hcopies Hreg Hshell Hjob ];
    subst.
  - split_and?; [reflexivity | cbn; lia |].
    intros c b Hin. in_cases Hin. injection Hin as <- _. auto.
  - split_and?; [left; auto | cbn; lia | intros c b []].
  - split_and?; [reflexivity | cbn; lia |].
    intros c b Hin. in_cases Hin. injection Hin as <- _. auto.
  - destruct (registry_events_silent evs1 (fun ev => ensure_events _ _ _ _ _ _ ev Hensure))
      as [Hr Hp].
    unfold responses, prints. rewrite !List.filter_app, Hr, Hp.
    split_and?; [reflexivity | cbn; lia |].
    intros c b Hin. apply List.in_app_or in Hin as [Hin | Hin].
    + apply (ensure_events _ _ _ _ _ _ _ Hensure) in Hin. discriminate Hin.
    + in_cases Hin. injection Hin as <- _. auto.
  - destruct (registry_events_silent _ (fun ev => ensure_events _ _ _ _ _ _ ev Hensure))
      as [Hr Hp].
    destruct (ensure_step_facts _ _ _ _ _ _ Hensure) as (Htmp & _).
    unfold responses, prints. rewrite Hr, Hp.
    split_and?; [left; auto | cbn; lia |].
    intros c b Hin. apply (ensure_events _ _ _ _ _ _ _ Hensure) in Hin. discriminate Hin.
  - destruct (registry_events_silent evs1 (fun ev => ensure_events _ _ _ _ _ _ ev Hensure))
      as [Hr Hp].
    destruct (job_counts Hjob) as (Hone & Hprints & Hcodes & Hend).
    assert (Hresp : responses (evs1 ++ evs2) = 1%nat)
      by (unfold responses in *; now rewrite List.filter_app, Hr).
    split_and?.
    + destruct Hend as [-> | (-> & b & dir & e' & H200 & Hrm)]; [exact Hresp |].
      right. split; [exact Hresp |]. split; [reflexivity |].
      exists b, dir, e'. split; apply List.in_or_app; now right.
    + unfold prints in *. now rewrite List.filter_app, Hp.
    + intros c b Hin. apply List.in_app_or in Hin as [Hin | Hin].
      * apply (ensure_events _ _ _ _ _ _ _ Hensure) in Hin. discriminate Hin.
      * destruct (Hcodes c b Hin) as [-> | ->]; auto.
Qed.

Lemma print_answers_once_witness :
  let run := print_handler Demo.env_busy (Demo.print_request "https://example.com/a.pdf")
               Demo.ready in
  ((responses (trace run.2) = 0%nat /\ prints (trace run.2) = 0%nat /\
    tmpfs run.2 = tmpfs Demo.ready) \/
   (responses (trace run.2) = 1%nat /\ headers_sent_error = headers_sent_error /\
    exists b dir e',
      In (EvResponse 200 b) (trace run.2) /\ In (EvRm dir (Some e')) (trace run.2))) /\
  (prints (trace run.2) <= 1)%nat /\
  (forall c b, In (EvResponse c b) (trace run.2) -> c = 200 \/ c = 400 \/ c = 404 \/ c = 500).
Proof.
  apply (print_answers_once Demo.env_busy
           (Demo.print_request "https://example.com/a.pdf") Demo.ready
           (Throw headers_sent_error)
           (print_handler Demo.env_busy (Demo.print_request "https://example.com/a.pdf") Demo.ready).2
           (trace (print_handler Demo.env_busy (Demo.print_request "https://example.com/a.pdf") Demo.ready).2)).
  split; vm_compute; reflexivity.
Defined.




(** X16. A 500 answer carries the message of the failure that ended the
    job, and that message is logged with [console.error]. A request that
    printed never answers 500: when [print] was called it rejected, and the
    500 carries the message [print] rejected with, unless the removal of
    the directory was refused as well: the 500 then carries the message of
    that refusal. *)
Theorem print_failure_is_logged (E : Env) (body : JsVal) (w : World) r w' evs b :
  runs (print_handler E body) w r w' evs ->
  In (EvResponse 500 b) evs ->
  exists e,
    b = BodyError e /\
    In (EvConsoleError "Print job failed" e) evs /\
    (forall p o f, In (EvPrint p o f) evs ->
       exists e_print, f = Some e_print /\
         (e_print = e \/ exists dir, In (EvRm dir (Some e)) evs)) /\
    (forall dir e', In (EvRm dir (Some e')) evs -> e' = e).
Proof.
  intros Hrun Hin. apply print_handler_run in Hrun.
  inversion Hrun as [ msg Hurl | e Hurl Hres | Hurl Hres
                    | target w1 evs1 Hurl Hres Hne Hensure
                    | target w1 evs1 e Hurl Hres Hne Hensure Hcopies
                    | target w1 evs1 k r2 w2 evs2 Hurl Hres Hne Hensure Hcopies Hreg Hshell Hjob ];
    subst.
  - in_cases Hin.
  - destruct Hin.
  - in_cases Hin.
  - apply List.in_app_or in Hin as [Hin | Hin]; [| in_cases Hin].
    apply (ensure_events _ _ _ _ _ _ _ Hensure) in Hin. discriminate Hin.
  - apply (ensure_events _ _ _ _ _ _ _ Hensure) in Hin. discriminate Hin.
  - assert (Hquiet : forall ev, In ev evs1 -> registry_event ev = true)
      by (intros ev; apply (ensure_events _ _ _ _ _ _ ev Hensure)).
    apply List.in_app_or in Hin as [Hin | Hin].
    { apply Hquiet in Hin. discriminate Hin. }
    inversion Hjob as [ e wd evd w0 shell Hdl Htmp Hnote
                      | response pfx tempDir data wd w0 shell Hwd Htmp Hnote
                      | e gone response pfx tempDir data wd w0 shell Hwd Htmp Hnote
                      | e response pfx tempDir data wd w0 shell Hwd Htmp Hnote
                      | e e' gone response pfx tempDir data wd w0 shell Hwd Htmp Hnote ]; subst.
    + destruct (failed_download_events Hdl) as (_ & _ & Hevd).
      exists e. split_and?.
      * apply List.in_app_or in Hin as [Hin | Hin].
        -- apply Hevd in Hin as (Hr & _). now destruct (Hr 500 b).
        -- in_job Hin Hnote. now injection Hin.
      * apply List.in_or_app. right. apply List.in_or_app. right. now left.
      * intros p o f Hp. exfalso. apply List.in_app_or in Hp as [Hp | Hp].
        -- apply Hquiet in Hp. discriminate Hp.
        -- apply List.in_app_or in Hp as [Hp | Hp].
           ++ apply Hevd in Hp as (_ & Hp & _). now destruct (Hp p o f).
           ++ in_job Hp Hnote.
      * intros dir e' Hrm. exfalso. apply List.in_app_or in Hrm as [Hrm | Hrm].
        -- apply Hquiet in Hrm. discriminate Hrm.
        -- apply List.in_app_or in Hrm as [Hrm | Hrm].
           ++ apply Hevd in Hrm as (_ & _ & Hrm). now destruct (Hrm dir (Some e')).
           ++ in_job Hrm Hnote.
    + exfalso. in_job Hin Hnote.
    + exfalso. in_job Hin Hnote.
    + exists e. split_and?.
      * in_job Hin Hnote. now injection Hin.
      * apply List.in_or_app. right. cbn. tauto.
      * intros p o f Hp. apply List.in_app_or in Hp as [Hp | Hp].
        -- apply Hquiet in Hp. discriminate Hp.
        -- in_job Hp Hnote. injection Hp as <- <- <-. eauto.
      * intros dir e' Hrm. apply List.in_app_or in Hrm as [Hrm | Hrm].
        -- apply Hquiet in Hrm. discriminate Hrm.
        -- in_job Hrm Hnote.
    + exists e'. split_and?.
      * in_job Hin Hnote. now injection Hin.
      * apply List.in_or_app. right. cbn. tauto.
      * intros p o f Hp. apply List.in_app_or in Hp as [Hp | Hp].
        -- apply Hquiet in Hp. discriminate Hp.
        -- in_job Hp Hnote. injection Hp as <- <- <-.
           exists e. split; [reflexivity |]. right. exists tempDir.
           apply List.in_or_app. right. cbn. tauto.
      * intros dir e0 Hrm. apply List.in_app_or in Hrm as [Hrm | Hrm].
        -- apply Hquiet in Hrm. discriminate Hrm.
        -- in_job Hrm Hnote. now injection Hrm.
Qed.

Lemma print_failure_is_logged_witness :
  let run := print_handler Demo.env_busy_spooler_down
               (Demo.print_request "https://example.com/a.pdf") Demo.ready in
  exists e,
    BodyError "EBUSY: resource busy or locked, rmdir" = BodyError e /\
    In (EvConsoleError "Print job failed" e) (trace run.2) /\
    (forall p o f, In (EvPrint p o f) (trace run.2) ->
       exists e_print, f = Some e_print /\
         (e_print = e \/ exists dir, In (EvRm dir (Some e)) (trace run.2))) /\
    (forall dir e', In (EvRm dir (Some e')) (trace run.2) -> e' = e).
Proof.
  apply (print_failure_is_logged Demo.env_busy_spooler_down
           (Demo.print_request "https://example.com/a.pdf") Demo.ready (Ok tt)
           (print_handler Demo.env_busy_spooler_down
              (Demo.print_request "https://example.com/a.pdf") Demo.ready).2
           (trace (print_handler Demo.env_busy_spooler_down
                     (Demo.print_request "https://example.com/a.pdf") Demo.ready).2)
           (BodyError "EBUSY: resource busy or locked, rmdir")).
  - split; vm_compute; reflexivity.
  - vm_compute. tauto.
Defined.

Lemma ensure_step_settings (E : Env) targetPrinter w ready w1 evs1 :
  ensure_step E targetPrinter w ready w1 evs1 ->
  nothing_selected (selectedPrinter (settings w)) = false ->
  settings w1 = settings w.
Proof.
  unfold ensure_step. intros Hstep Hsel.
  destruct (has_printer targetPrinter (printers w)).
  - now destruct Hstep as (_ & -> & _).
  - destruct Hstep as [_ Hstep]. exact (refresh_step_settings _ _ _ _ Hstep Hsel).
Qed.

(** X17. While a printer is selected, no /print request changes the
    settings: neither the selection nor the port, whatever the request
    holds and however it ends (a [printerName] in the request is used for
    that request only). *)
Theorem print_keeps_settings (E : Env) (body : JsVal) (w : World) r w' evs :
  runs (print_handler E body) w r w' evs ->
  nothing_selected (selectedPrinter (settings w)) = false ->
  settings w' = settings w.
Proof.
  intros Hrun Hsel. apply print_handler_run in Hrun.
  inversion Hrun as [ msg Hurl | e Hurl Hres | Hurl Hres
                    | target w1 evs1 Hurl Hres Hne Hensure
                    | target w1 evs1 e Hurl Hres Hne Hensure Hcopies
                    | target w1 evs1 k r2 w2 evs2 Hurl Hres Hne Hensure Hcopies Hreg Hshell Hjob ];
    subst; try reflexivity.
  - cbn [record settings]. exact (ensure_step_settings _ _ _ _ _ _ Hensure Hsel).
  - exact (ensure_step_settings _ _ _ _ _ _ Hensure Hsel).
  - destruct Hreg as [_ ->]. exact (ensure_step_settings _ _ _ _ _ _ Hensure Hsel).
Qed.

Lemma print_keeps_settings_witness :
  settings (print_handler Demo.env
              (JObj [("url", JStr "https://example.com/a.pdf"); ("printerName", JStr "Zebra")])
              Demo.ready).2
  = settings Demo.ready.
Proof.
  apply (print_keeps_settings Demo.env
           (JObj [("url", JStr "https://example.com/a.pdf"); ("printerName", JStr "Zebra")])
           Demo.ready (Ok tt)
           (print_handler Demo.env
              (JObj [("url", JStr "https://example.com/a.pdf"); ("printerName", JStr "Zebra")])
              Demo.ready).2
           (trace (print_handler Demo.env
              (JObj [("url", JStr "https://example.com/a.pdf"); ("printerName", JStr "Zebra")])
              Demo.ready).2)).
  - split; vm_compute; reflexivity.
  - reflexivity.
Defined.

Lemma prefix_join (a b : string) :
  String.prefix (String.append a "/") (String.append a (String.append "/" b)) = true.
Proof.
  induction a as [| c a IH].
  - now destruct b.
  - change (String.prefix (String c (String.append a "/"))
              (String c (String.append a (String.append "/" b))) = true).
    cbn [String.prefix]. destruct (Ascii.ascii_dec c c); [exact IH | congruence].
Qed.

Lemma below_document dir : below dir (path_join dir "document.pdf") = true.
Proof. unfold below, path_join. rewrite prefix_join. apply orb_true_r. Qed.

(** Writing the document into its directory changes nothing outside the
    directory. *)
Lemma written_other dir data (fs : gmap string Node) p :
  below dir p = false ->
  (<[path_join dir "document.pdf" := File data]> (<[dir := Dir]> fs)) !! p = fs !! p.
Proof.
  intros Hb. rewrite !lookup_insert_ne; [reflexivity | |]; intros <-.
  - now rewrite below_self in Hb.
  - now rewrite below_document in Hb.
Qed.

(** The file system once a downloaded document and its directory are
    removed again: every entry outside the directory is as before. *)
Lemma remove_tree_written dir data (fs : gmap string Node) p :
  below dir p = false ->
  remove_tree dir (<[path_join dir "document.pdf" := File data]> (<[dir := Dir]> fs)) !! p
  = fs !! p.
Proof.
  intros Hb. rewrite (remove_tree_other _ _ _ Hb). now apply written_other.
Qed.

Lemma remove_some_written gone dir data (fs : gmap string Node) p :
  below dir p = false ->
  remove_some gone dir (<[path_join dir "document.pdf" := File data]> (<[dir := Dir]> fs)) !! p
  = fs !! p.
Proof.
  intros Hb. rewrite (remove_some_other _ _ _ _ Hb). now apply written_other.
Qed.



(** X19. A /print request removes nothing but its own temporary
    directory: an entry of the temporary area that was there before is
    still there at the end, unless it lies at or below a directory the
    request itself called [rm] on. *)
Theorem print_removes_only_own_dir (E : Env) (body : JsVal) (w : World) r w' evs p n :
  runs (print_handler E body) w r w' evs ->
  tmpfs w !! p = Some n ->
  tmpfs w' !! p = Some n \/
  exists tempDir removal, In (EvRm tempDir removal) evs /\ below tempDir p = true.
Proof.
  intros Hrun Hp. apply print_handler_run in Hrun.
  inversion Hrun as [ msg Hurl | e Hurl Hres | Hurl Hres
                    | target w1 evs1 Hurl Hres Hne Hensure
                    | target w1 evs1 e Hurl Hres Hne Hensure Hcopies
                    | target w1 evs1 k r2 w2 evs2 Hurl Hres Hne Hensure Hcopies Hreg Hshell Hjob ];
    subst; try (now left).
  - destruct (ensure_step_facts _ _ _ _ _ _ Hensure) as (Htmp & _).
    left. cbn [record tmpfs]. now rewrite Htmp.
  - destruct (ensure_step_facts _ _ _ _ _ _ Hensure) as (Htmp & _).
    left. now rewrite Htmp.
  - destruct (ensure_step_facts _ _ _ _ _ _ Hensure) as (Htmp1 & _).
    rewrite <- Htmp1 in Hp.
    inversion Hjob as [ e wd evd w0 shell Hdl Htmp Hnote
                      | response pfx tempDir data wd w0 shell Hwd Htmp Hnote
                      | e gone response pfx tempDir data wd w0 shell Hwd Htmp Hnote
                      | e response pfx tempDir data wd w0 shell Hwd Htmp Hnote
                      | e e' gone response pfx tempDir data wd w0 shell Hwd Htmp Hnote ]; subst.
    + left. rewrite Htmp.
      inversion Hdl as [ e0 w0 evs0 Hfiles Hevs | e0 response pfx tempDir data w0 Hfree Hwd | ];
        subst.
      * red in Hfiles. now rewrite Hfiles.
      * rewrite Hwd. rewrite lookup_insert_ne; [exact Hp |].
        intros <-. congruence.
    + destruct (below tempDir p) eqn:Hb.
      * right. exists tempDir, None. split; [| exact Hb].
        apply List.in_or_app. right. do 5 right. apply List.in_or_app. right. now left.
      * left. now rewrite Htmp, Hwd, (remove_tree_written _ _ _ _ Hb).
    + destruct (below tempDir p) eqn:Hb.
      * right. exists tempDir, (Some e). split; [| exact Hb].
        apply List.in_or_app. right. do 5 right. apply List.in_or_app. right. now left.
      * left. now rewrite Htmp, Hwd, (remove_some_written _ _ _ _ _ Hb).
    + destruct (below tempDir p) eqn:Hb.
      * right. exists tempDir, None. split; [| exact Hb].
        apply List.in_or_app. right. cbn. tauto.
      * left. now rewrite Htmp, Hwd, (remove_tree_written _ _ _ _ Hb).
    + destruct (below tempDir p) eqn:Hb.
      * right. exists tempDir, (Some e'). split; [| exact Hb].
        apply List.in_or_app. right. cbn. tauto.
      * left. now rewrite Htmp, Hwd, (remove_some_written _ _ _ _ _ Hb).
Qed.

Lemma print_removes_only_own_dir_witness :
  let start := set_tmpfs (<["/tmp/invoice.pdf" := File Demo.pdf]> ∅) Demo.ready in
  let run := print_handler Demo.env (Demo.print_request "https://example.com/a.pdf") start in
  tmpfs run.2 !! "/tmp/invoice.pdf" = Some (File Demo.pdf) \/
  exists tempDir removal,
    In (EvRm tempDir removal) (trace run.2) /\ below tempDir "/tmp/invoice.pdf" = true.
Proof.
  apply (print_removes_only_own_dir Demo.env
           (Demo.print_request "https://example.com/a.pdf")
           (set_tmpfs (<["/tmp/invoice.pdf" := File Demo.pdf]> ∅) Demo.ready) (Ok tt)
           (print_handler Demo.env (Demo.print_request "https://example.com/a.pdf")
              (set_tmpfs (<["/tmp/invoice.pdf" := File Demo.pdf]> ∅) Demo.ready)).2
           (trace (print_handler Demo.env (Demo.print_request "https://example.com/a.pdf")
              (set_tmpfs (<["/tmp/invoice.pdf" := File Demo.pdf]> ∅) Demo.ready)).2)
           "/tmp/invoice.pdf" (File Demo.pdf)).
  - split; vm_compute; reflexivity.
  - reflexivity.
Defined.

(** X20. A /print request answered 400 or 404 has downloaded nothing and
    printed nothing: apart from the answer itself its events are those of
    the printer registry (an enumeration, the tray, notifications, the
    settings file), and the temporary area is untouched. A 400 is sent
    before anything else is done. *)
Theorem print_rejection_downloads_nothing (E : Env) (body : JsVal) (w : World) r w' evs c b :
  runs (print_handler E body) w r w' evs ->
  In (EvResponse c b) evs ->
  c = 400 \/ c = 404 ->
  tmpfs w' = tmpfs w /\
  (forall ev, In ev evs -> ev = EvResponse c b \/ registry_event ev = true) /\
  (c = 400 -> evs = [EvResponse 400 b] /\ w' = record (EvResponse 400 b) w).
Proof.
  intros Hrun Hin Hc. apply print_handler_run in Hrun.
  inversion Hrun as [ msg Hurl | e Hurl Hres | Hurl Hres
                    | target w1 evs1 Hurl Hres Hne Hensure
                    | target w1 evs1 e Hurl Hres Hne Hensure Hcopies
                    | target w1 evs1 k r2 w2 evs2 Hurl Hres Hne Hensure Hcopies Hreg Hshell Hjob ];
    subst.
  - in_cases Hin. injection Hin as <- <-. split_and?; auto.
    intros ev Hev. in_cases Hev. now left.
  - destruct Hin.
  - in_cases Hin. injection Hin as <- <-. split_and?; auto.
    intros ev Hev. in_cases Hev. now left.
  - assert (Hquiet : forall ev, In ev evs1 -> registry_event ev = true)
      by (intros ev; apply (ensure_events _ _ _ _ _ _ ev Hensure)).
    destruct (ensure_step_facts _ _ _ _ _ _ Hensure) as (Htmp & _).
    apply List.in_app_or in Hin as [Hin | Hin];
      [apply Hquiet in Hin; discriminate Hin |].
    in_cases Hin. injection Hin as <- <-. split_and?.
    + exact Htmp.
    + intros ev Hev. apply List.in_app_or in Hev as [Hev | Hev]; [right; auto |].
      in_cases Hev. now left.
    + discriminate.
  - apply (ensure_events _ _ _ _ _ _ _ Hensure) in Hin. discriminate Hin.
  - exfalso. apply List.in_app_or in Hin as [Hin | Hin].
    + apply (ensure_events _ _ _ _ _ _ _ Hensure) in Hin. discriminate Hin.
    + destruct (job_counts Hjob) as (_ & _ & Hcodes & _).
      apply Hcodes in Hin. lia.
Qed.

Lemma print_rejection_downloads_nothing_witness :
  let run := print_handler Demo.env
               (JObj [("url", JStr "https://example.com/a.pdf"); ("printerName", JStr "Plotter")])
               Demo.ready in
  tmpfs run.2 = tmpfs Demo.ready /\
  (forall ev, In ev (trace run.2) -> ev = not_available \/ registry_event ev = true) /\
  (404 = 400 ->
   trace run.2 = [EvResponse 400 (BodyError "Selected printer is not available.")] /\
   run.2 = record (EvResponse 400 (BodyError "Selected printer is not available.")) Demo.ready).
Proof.
  apply (print_rejection_downloads_nothing Demo.env
           (JObj [("url", JStr "https://example.com/a.pdf"); ("printerName", JStr "Plotter")])
           Demo.ready (Ok tt)
           (print_handler Demo.env
              (JObj [("url", JStr "https://example.com/a.pdf"); ("printerName", JStr "Plotter")])
              Demo.ready).2
           (trace (print_handler Demo.env
              (JObj [("url", JStr "https://example.com/a.pdf"); ("printerName", JStr "Plotter")])
              Demo.ready).2)
           404 (BodyError "Selected printer is not available.")).
  - split; vm_compute; reflexivity.
  - vm_compute. tauto.
  - now right.
Defined.

(** *** /printers/select followed by /print *)

Lemma resolve_target_selected (printerName : JsVal) (n : string) :
  truthy printerName = false -> n <> "" ->
  resolve_target printerName (Some n) = Some (trim n).
Proof.
  intros Hpn Hn. unfold resolve_target, js_or. rewrite Hpn. cbn [js_of_selected truthy].
  destruct (String.eqb_spec n ""); [contradiction | reflexivity].
Qed.

(** X21. Once /printers/select has answered 200 for a printer, a /print
    request with an acceptable [url], no [printerName] and a [copies] that
    can be converted goes to that printer without asking the system for
    its printers again: it sends exactly one answer, 200 or 500, never 400
    or 404, and any [print] call names the printer that was selected. The
    handler returns normally, unless the removal of its directory was
    refused after the 200. *)
Theorem print_after_select (E : Env) (chosen body : JsVal) (w : World) r1 w1 evs1 n k
    r w' evs :
  runs (select_handler E chosen) w r1 w1 evs1 ->
  In (EvResponse 200 (BodySelected n)) evs1 ->
  n <> "" ->
  truthy (req_printerName body) = false ->
  url_rejected (req_url body) = false ->
  copies_option (req_copies body) = Ok k ->
  runs (print_handler E body) w1 r w' evs ->
  responses evs = 1%nat /\
  enumerations evs = 0%nat /\
  (forall c b, In (EvResponse c b) evs -> c = 200 \/ c = 500) /\
  (forall p o f, In (EvPrint p o f) evs -> printer o = n) /\
  (r = Ok tt \/
   r = Throw headers_sent_error /\
   exists b dir e, In (EvResponse 200 b) evs /\ In (EvRm dir (Some e)) evs).
Proof.
  intros Hsel Hin Hn Hpn Hurl Hcopies Hrun.
  destruct (select_success_selects_listed_facts _ _ _ _ _ _ _ Hsel Hin) as (Hname & Hlisted & Hset).
  specialize (Hset Hn).
  assert (Htrim : trim n = n).
  { rewrite Hname. unfold name_text. destruct (req_name chosen); try reflexivity.
    apply trim_idempotent. }
  clear Hname.
  assert (Htarget : resolve_target (req_printerName body) (selectedPrinter (settings w1)) = Some n).
  { rewrite Hset, (resolve_target_selected _ _ Hpn Hn). now rewrite Htrim. }
  apply print_handler_run in Hrun.
  inversion Hrun as [ msg Hbad | e Hok Hres | Hok Hres
                    | target w2 evs2 Hok Hres Hne Hensure
                    | target w2 evs2 e Hok Hres Hne Hensure Hcopies'
                    | target w2 evs2 k' r3 w3 evs3 Hok Hres Hne Hensure Hcopies' Hreg Hshell Hjob ];
    subst; try congruence.
  - exfalso. assert (target = n) as -> by congruence.
    unfold ensure_step in Hensure. rewrite Hlisted in Hensure.
    now destruct Hensure as (Hready & _).
  - assert (target = n) as -> by congruence.
    unfold ensure_step in Hensure. rewrite Hlisted in Hensure.
    destruct Hensure as (_ & -> & ->). cbn [List.app].
    destruct (job_counts Hjob) as (Hone & _ & Hcodes & Hend).
    split_and?; auto.
    + unfold enumerations. rewrite filter_none; [reflexivity |].
      intros ev Hev. now destruct (job_events _ Hjob Hev).
    + intros p o f Hev.
      destruct (job_events _ Hjob Hev) as (_ & _ & _ & Hopts).
      now rewrite (Hopts p o f eq_refl).
Qed.

Lemma print_after_select_witness :
  let chosen := JObj [("name", JStr " Zebra ")] in
  let body := Demo.print_request "https://example.com/a.pdf" in
  let w1 := (select_handler Demo.env chosen Demo.ready).2 in
  let run := print_handler Demo.env body w1 in
  let evs := List.skipn (List.length (trace w1)) (trace run.2) in
  responses evs = 1%nat /\
  enumerations evs = 0%nat /\
  (forall c b, In (EvResponse c b) evs -> c = 200 \/ c = 500) /\
  (forall p o f, In (EvPrint p o f) evs -> printer o = "Zebra") /\
  (run.1 = Ok tt \/
   run.1 = Throw headers_sent_error /\
   exists b dir e, In (EvResponse 200 b) evs /\ In (EvRm dir (Some e)) evs).
Proof.
  apply (print_after_select Demo.env
           (JObj [("name", JStr " Zebra ")])
           (Demo.print_request "https://example.com/a.pdf")
           Demo.ready (Ok tt)
           (select_handler Demo.env (JObj [("name", JStr " Zebra ")]) Demo.ready).2
           (trace (select_handler Demo.env (JObj [("name", JStr " Zebra ")]) Demo.ready).2)
           "Zebra" (Some 2)
           (print_handler Demo.env (Demo.print_request "https://example.com/a.pdf")
              (select_handler Demo.env (JObj [("name", JStr " Zebra ")]) Demo.ready).2).1
           (print_handler Demo.env (Demo.print_request "https://example.com/a.pdf")
              (select_handler Demo.env (JObj [("name", JStr " Zebra ")]) Demo.ready).2).2).
  - split; vm_compute; reflexivity.
  - vm_compute. tauto.
  - discriminate.
  - reflexivity.
  - reflexivity.
  - reflexivity.
  - split; vm_compute; reflexivity.
Defined.

(** *** Start-up: the initial port and [loadSettings] *)

(** X22. Whatever [PRINTER_BRIDGE_PORT] holds, the initial port is never
    [NaN] and never zero: it is 3321 when the variable is unset, is empty,
    does not start with a number, or gives zero, and otherwise the number
    read, whatever its sign or size. *)
Theorem initial_serverPort_usable (env : option string) :
  Startup.initial_serverPort env <> NaN /\
  Startup.initial_serverPort env <> Num 0 /\
  (env = None -> Startup.initial_serverPort env = Num 3321) /\
  (forall s, env = Some s ->
     match parseInt_text s with
     | NaN | Num 0 => Startup.initial_serverPort env = Num 3321
     | x => Startup.initial_serverPort env = x
     end).
Proof.
  assert (Hor : forall x, Startup.number_or x Startup.DEFAULT_PORT <> NaN /\
                          Startup.number_or x Startup.DEFAULT_PORT <> Num 0).
  { intros [| z | |]; cbn; try (split; discriminate).
    destruct (Z.eqb_spec z 0); split; try discriminate. congruence. }
  unfold Startup.initial_serverPort. split_and?; try apply Hor.
  - now intros ->.
  - intros s ->. destruct (String.eqb_spec s "") as [-> | _]; [reflexivity |].
    destruct (parseInt_text s) as [| z | |]; try reflexivity.
    unfold Startup.number_or. destruct (Z.eqb_spec z 0) as [-> | Hz]; [reflexivity |].
    destruct z; try reflexivity. contradiction.
Qed.

Lemma truthy_js_or (a b : JsVal) : truthy b = true -> truthy (js_or a b) = true.
Proof. intros Hb. unfold js_or. now destruct (truthy a) eqn:Ha. Qed.

(** X23. [loadSettings] keeps the process usable: a truthy
    [appState.serverPort] stays truthy, and no key of [settings] is ever
    lost, whatever the settings file holds and whether or not it can be
    read. *)
Theorem loadSettings_keeps_boot_usable (disk : Startup.Disk) (b : Startup.Boot) :
  truthy (Startup.boot_port b) = true ->
  truthy (Startup.boot_port (Startup.loadSettings disk b)) = true /\
  (forall k, is_Some (Startup.boot_settings b !! k) ->
             is_Some (Startup.boot_settings (Startup.loadSettings disk b) !! k)).
Proof.
  intros Hport. unfold Startup.loadSettings.
  destruct (Startup.mkdir_fault disk); [now split |].
  destruct (Startup.file_exists disk); [| now split].
  destruct (Startup.parsed disk) as [stored | e]; [| now split].
  cbn [Startup.boot_port Startup.boot_settings]. split.
  - now apply truthy_js_or.
  - intros k Hk. apply lookup_union_is_Some. now right.
Qed.

Lemma loadSettings_keeps_boot_usable_witness :
  let b := Startup.mkBoot (Startup.own_props (Startup.settings_object (mkSettings None 3321)))
             (JNum 3321) [] in
  let disk := Startup.mkDisk None true (Ok (JObj [("serverPort", JNum 0)])) in
  truthy (Startup.boot_port (Startup.loadSettings disk b)) = true /\
  (forall k, is_Some (Startup.boot_settings b !! k) ->
             is_Some (Startup.boot_settings (Startup.loadSettings disk b) !! k)).
Proof.
  apply (loadSettings_keeps_boot_usable
           (Startup.mkDisk None true (Ok (JObj [("serverPort", JNum 0)])))
           (Startup.mkBoot (Startup.own_props (Startup.settings_object (mkSettings None 3321)))
              (JNum 3321) [])).
  reflexivity.
Defined.

(** X24. [loadSettings] is all or nothing: either it logs nothing, or
    it logs one [Failed to read settings:] error and leaves
    both [settings] and [appState.serverPort] as they were. A directory
    that cannot be created, an unreadable file and a file that is not JSON
    all end this way. *)
Theorem loadSettings_logs_or_loads (disk : Startup.Disk) (b : Startup.Boot) :
  let b' := Startup.loadSettings disk b in
  (Startup.boot_log b' = Startup.boot_log b /\
   Startup.mkdir_fault disk = None /\
   (Startup.file_exists disk = true -> exists stored, Startup.parsed disk = Ok stored)) \/
  (Startup.boot_settings b' = Startup.boot_settings b /\
   Startup.boot_port b' = Startup.boot_port b /\
   exists e, Startup.boot_log b' = Startup.boot_log b ++ [EvConsoleError "Failed to read settings:" e] /\
             (Startup.mkdir_fault disk = Some e \/
              (Startup.file_exists disk = true /\ Startup.parsed disk = Throw e))).
Proof.
  unfold Startup.loadSettings.
  destruct (Startup.mkdir_fault disk) as [e |]; [right; eauto 8 |].
  destruct (Startup.file_exists disk); [| left; split_and?; auto; discriminate].
  destruct (Startup.parsed disk) as [stored | e].
  - left. split_and?; eauto.
  - right. cbn. eauto 8.
Qed.

(** X25. What [persistSettings] writes, [loadSettings] reads back: after
    loading the object of settings [s], [settings] holds the selection and
    the port of [s], its other keys are untouched, and nothing is logged.
    [appState.serverPort] is the port of [s], except that a stored port of
    zero gives 3321 there while [settings.serverPort] stays zero. *)
Theorem loadSettings_restores_persisted (s : Settings) (b : Startup.Boot) :
  let b' := Startup.loadSettings
              (Startup.mkDisk None true (Ok (Startup.settings_object s))) b in
  Startup.boot_settings b' !! "selectedPrinter" = Some (js_of_selected (selectedPrinter s)) /\
  Startup.boot_settings b' !! "serverPort" = Some (JNum (serverPort s)) /\
  Startup.boot_port b' = JNum (if serverPort s =? 0 then 3321 else serverPort s) /\
  Startup.boot_log b' = Startup.boot_log b /\
  (forall k, k <> "selectedPrinter" -> k <> "serverPort" ->
             Startup.boot_settings b' !! k = Startup.boot_settings b !! k).
Proof.
  cbn [Startup.loadSettings Startup.mkdir_fault Startup.file_exists Startup.parsed
       Startup.boot_settings Startup.boot_port Startup.boot_log
       Startup.settings_object Startup.own_props list_to_map foldr uncurry fst snd].
  assert (Hsel : (<["selectedPrinter" := js_of_selected (selectedPrinter s)]>
                    (<["serverPort" := JNum (serverPort s)]> (∅ : gmap string JsVal)))
                 !! "selectedPrinter" = Some (js_of_selected (selectedPrinter s)))
    by apply lookup_insert_eq.
  assert (Hport : (<["selectedPrinter" := js_of_selected (selectedPrinter s)]>
                     (<["serverPort" := JNum (serverPort s)]> (∅ : gmap string JsVal)))
                  !! "serverPort" = Some (JNum (serverPort s))).
  { rewrite lookup_insert_ne by discriminate. apply lookup_insert_eq. }
  split_and?.
  - now apply lookup_union_Some_l.
  - now apply lookup_union_Some_l.
  - rewrite (lookup_union_Some_l _ _ _ _ Hport). cbn [default].
    unfold js_or, truthy, id, Startup.DEFAULT_PORT. now destruct (serverPort s =? 0).
  - reflexivity.
  - intros k Hk1 Hk2. apply lookup_union_r.
    rewrite !lookup_insert_ne by congruence. apply lookup_empty.
Qed.
